(** * Attendance session engine of the portal backend

    A shallow embedding of [controllers/attendanceController.js] and of the
    [Attendance] schema it works on, with the properties of the
    clock-in / away / resume / clock-out state machine, the live "today"
    view, the monthly aggregation and the administrative override; and of
    what reads the attendance around it: the role guard of the
    administrative routes ([middleware/roleAuth.js]), the attendance of
    the employee dashboard ([services/dashboardService.js]) and the
    formatting helpers of the sheet export
    ([services/googleSheetsService.js]).

    Conventions of the embedding:
    - a JavaScript [Date] is its time value, an integer number of
      milliseconds ([Z]); an absent or [null] date is [None];
    - a JavaScript string is the list of its UTF-16 code units;
    - the collection is the list of its documents in insertion order, the
      position of a document being its identity; [findOne] returns the
      first match;
    - a request handler is a computation in a state monad over the
      collection that also logs every access to it;
    - every [new Date()] of one request reads the same instant [now], and
      [getTodayRange().start] (local midnight of that instant) is the
      argument [start]: calendars and time zones are not modelled;
    - the administrative views read the users from a directory, the list
      of the [User] documents, which no handler of this controller
      writes. *)

From Stdlib Require Import ZArith List String Ascii Floats Uint63 Lia.
From stdpp Require Import base tactics option list numbers sorting gmap pretty.
Import ListNotations.

Local Open Scope Z_scope.

(** ** JavaScript strings *)

Definition JSString := list N.

Definition jsstr (s : string) : JSString :=
  List.map N_of_ascii (list_ascii_of_string s).

(** WhiteSpace and LineTerminator code points, the ones [trim] strips. *)
Definition isWhiteSpace (c : N) : bool :=
  ((9 <=? c) && (c <=? 13) || (c =? 32) || (c =? 160) || (c =? 5760)
   || (8192 <=? c) && (c <=? 8202) || (c =? 8232) || (c =? 8233)
   || (c =? 8239) || (c =? 8287) || (c =? 12288) || (c =? 65279))%N.

Fixpoint trimStart (s : JSString) : JSString :=
  match s with
  | c :: s' => if isWhiteSpace c then trimStart s' else s
  | [] => []
  end.

Definition trimEnd (s : JSString) : JSString := rev (trimStart (rev s)).

Definition trim (s : JSString) : JSString := trimEnd (trimStart s).

(** A string is truthy when it is not empty. *)
Definition truthy (s : JSString) : bool :=
  match s with [] => false | _ => true end.

(** ** Numbers

    Integers below 2^53 are exact as doubles, so counts of seconds are [Z];
    the one place where the code leaves the integers, the hour total of the
    history view, is computed on binary64 floats. *)

Definition Z2float (z : Z) : float :=
  if z <? 0 then PrimFloat.opp (PrimFloat.of_uint63 (Uint63.of_Z (- z)))
  else PrimFloat.of_uint63 (Uint63.of_Z z).

Definition two52 : float := 4503599627370496%float.

(** [Math.round]: the integer nearest to [x], a tie going towards plus
    infinity. Below 2^52 in magnitude, adding and subtracting 2^52 gives an
    integer next to [|x|], from which its floor and its (exact) fractional
    part follow; from 2^52 on every double is an integer. *)
Definition Math_round (x : float) : float :=
  if PrimFloat.is_nan x || PrimFloat.is_zero x then x
  else if (PrimFloat.abs x <? two52)%float then
    let a := PrimFloat.abs x in
    let r := ((a + two52) - two52)%float in
    let fl := if (a <? r)%float then (r - 1)%float else r in
    let frac := (a - fl)%float in
    if (0 <? x)%float
    then if (frac <? 0.5)%float then fl else (fl + 1)%float
    else PrimFloat.opp (if (frac <=? 0.5)%float then fl else (fl + 1)%float)
  else x.

(** The same function read off the exact value of the double,
    [(-1)^s * m * 2^e]: the floor of [x + 1/2]. It is the reference
    [Math_round] is compared with below; the controller is modelled with
    [Math_round], which stays within the primitive operations. *)
Definition Math_round_exact (x : float) : float :=
  match Prim2SF x with
  | S754_finite s m e =>
      if 0 <=? e then x
      else
        let k := 2 ^ (- e) in
        let num := if s then - Z.pos m else Z.pos m in
        let n := (2 * num + k) / (2 * k) in
        if (n =? 0) && s then (-0)%float else Z2float n
  | _ => x
  end.

(** [Math.floor((b - a) / 1000)] on two dates. *)
Definition elapsedSeconds (a b : Z) : Z := (b - a) / 1000.

(** ** The Attendance schema (models/Attendance.js) *)

Definition UserId := nat.

Inductive Status := ClockedIn | ClockedOut | Away | Absent.

#[global] Instance Status_eq_dec : EqDecision Status.
Proof. solve_decision. Defined.

(** An element of [sessions] or [breaks]: [start] is required, [end] is
    optional and [duration] defaults to 0. *)
Record Segment := mkSegment {
  seg_start : Z;
  seg_end : option Z;
  seg_duration : Z
}.

Module Attendance.

Record doc := mk {
  user : UserId;
  date : Z;
  clockIn : option Z;
  clockOut : option Z;
  status : Status;
  activeSeconds : Z;
  lastActiveAt : option Z;
  sessions : list Segment;
  breaks : list Segment;
  dailyReport : JSString
}.

Definition set_clockIn (v : option Z) (r : doc) : doc :=
  mk (user r) (date r) v (clockOut r) (status r) (activeSeconds r)
     (lastActiveAt r) (sessions r) (breaks r) (dailyReport r).

Definition set_clockOut (v : option Z) (r : doc) : doc :=
  mk (user r) (date r) (clockIn r) v (status r) (activeSeconds r)
     (lastActiveAt r) (sessions r) (breaks r) (dailyReport r).

Definition set_status (v : Status) (r : doc) : doc :=
  mk (user r) (date r) (clockIn r) (clockOut r) v (activeSeconds r)
     (lastActiveAt r) (sessions r) (breaks r) (dailyReport r).

Definition set_activeSeconds (v : Z) (r : doc) : doc :=
  mk (user r) (date r) (clockIn r) (clockOut r) (status r) v
     (lastActiveAt r) (sessions r) (breaks r) (dailyReport r).

Definition set_lastActiveAt (v : option Z) (r : doc) : doc :=
  mk (user r) (date r) (clockIn r) (clockOut r) (status r) (activeSeconds r)
     v (sessions r) (breaks r) (dailyReport r).

Definition set_sessions (v : list Segment) (r : doc) : doc :=
  mk (user r) (date r) (clockIn r) (clockOut r) (status r) (activeSeconds r)
     (lastActiveAt r) v (breaks r) (dailyReport r).

Definition set_breaks (v : list Segment) (r : doc) : doc :=
  mk (user r) (date r) (clockIn r) (clockOut r) (status r) (activeSeconds r)
     (lastActiveAt r) (sessions r) v (dailyReport r).

Definition set_dailyReport (v : JSString) (r : doc) : doc :=
  mk (user r) (date r) (clockIn r) (clockOut r) (status r) (activeSeconds r)
     (lastActiveAt r) (sessions r) (breaks r) v.

(** The filters the controller queries with. *)
Inductive Query :=
| Active (u : UserId)                 (* { user, status: { $in: ["clocked-in", "away"] } } *)
| OnDate (u : UserId) (d : Z)         (* { user, date } *)
| InRange (u : UserId) (lo hi : Z).   (* { user, date: { $gte, $lte } } *)

Definition isActiveStatus (s : Status) : bool :=
  match s with ClockedIn | Away => true | _ => false end.

Definition matches (q : Query) (r : doc) : Prop :=
  match q with
  | Active u => user r = u ∧ isActiveStatus (status r) = true
  | OnDate u d => user r = u ∧ date r = d
  | InRange u lo hi => user r = u ∧ lo ≤ date r ∧ date r ≤ hi
  end.

#[global] Instance matches_dec q r : Decision (matches q r).
Proof. destruct q; simpl; apply _. Defined.

End Attendance.

Abbreviation Collection := (list Attendance.doc).

(** ** The store and the handler monad *)

Inductive StoreOp :=
| OpFindOne (q : Attendance.Query)
| OpFind (q : Attendance.Query)
| OpSave.

Record World := mkWorld {
  coll : Collection;
  oplog : list StoreOp
}.

Definition M (A : Type) : Type := World → A * World.

#[global] Instance M_ret : MRet M := λ A (a : A) w, (a, w).
#[global] Instance M_bind : MBind M :=
  λ A B (f : A → M B) (m : M A) w, let '(a, w') := m w in f a w'.

(** [Attendance.findOne(q)]: the first document matching [q], with its
    position. *)
Definition findOne (q : Attendance.Query) : M (option (nat * Attendance.doc)) :=
  λ w, (list_find (Attendance.matches q) (coll w),
        mkWorld (coll w) (oplog w ++ [OpFindOne q])).

(** [Attendance.find(q).sort({ date: 1 })]. *)
Definition byDate (a b : Attendance.doc) : Prop :=
  Attendance.date a ≤ Attendance.date b.

#[global] Instance byDate_dec a b : Decision (byDate a b).
Proof. unfold byDate; apply _. Defined.

Definition findSorted (q : Attendance.Query) : M Collection :=
  λ w, (merge_sort byDate (filter (Attendance.matches q) (coll w)),
        mkWorld (coll w) (oplog w ++ [OpFind q])).

(** [record.save()]. A document made by [new Attendance] ([id = None]) is
    inserted at the end, unless the unique index on (user, date) refuses
    it; a document that was read from the collection is written back in
    place. The result tells whether the write went through. *)
Definition save (id : option nat) (r : Attendance.doc) : M bool :=
  λ w,
    match id with
    | Some i => (true, mkWorld (<[i := r]> (coll w)) (oplog w ++ [OpSave]))
    | None =>
        match list_find (Attendance.matches
                 (Attendance.OnDate (Attendance.user r) (Attendance.date r)))
                (coll w) with
        | Some _ => (false, mkWorld (coll w) (oplog w ++ [OpSave]))
        | None => (true, mkWorld (coll w ++ [r]) (oplog w ++ [OpSave]))
        end
    end.

(** Running a handler on a collection: its answer, the collection it
    leaves and the accesses it made. *)
Definition run {A} (m : M A) (c : Collection) : A * Collection * list StoreOp :=
  let '(a, w) := m (mkWorld c []) in (a, coll w, oplog w).

(** ** Responses *)

Record TodayData := mkToday {
  t_status : Status;
  t_clockIn : option Z;
  t_clockOut : option Z;
  t_activeSeconds : Z;
  t_totalBreakSeconds : option Z;   (* absent from the synthetic snapshot *)
  t_breaksCount : option nat;       (* absent from the synthetic snapshot *)
  t_lastActiveAt : option Z;
  t_dailyReport : JSString
}.

(** What [.select("date status clockIn clockOut activeSeconds dailyReport")]
    keeps of a document. *)
Record HistoryRecord := mkHistoryRecord {
  h_date : Z;
  h_status : Status;
  h_clockIn : option Z;
  h_clockOut : option Z;
  h_activeSeconds : Z;
  h_dailyReport : JSString
}.

Record HistoryStats := mkStats {
  daysPresent : nat;
  totalWorkingHours : float
}.

Inductive Payload :=
| ClockInData (clockIn : option Z) (status : Status) (activeSeconds : Z)
| AwayData (status : Status) (activeSeconds : Z) (breakStart : Z)
| ResumeData (status : Status) (activeSeconds : Z) (lastActiveAt : option Z)
| ClockOutData (clockIn clockOut : option Z) (activeSeconds : Z)
               (totalBreakSeconds : Z) (dailyReport : JSString)
| TodayPayload (t : TodayData)
| HistoryPayload (month year : Z) (records : list HistoryRecord)
                 (stats : HistoryStats).

Inductive Response :=
| Ok (message : option JSString) (data : option Payload)   (* 200, success: true *)
| BadRequest (message : JSString)                   (* 400, success: false *)
| ServerError.                                      (* next(error) *)

(** ** The controller (controllers/attendanceController.js) *)

Section Controller.

(** [Date.prototype.toLocaleTimeString], which depends on the locale of
    the host. *)
Variable toLocaleTimeString : Z → JSString.

Import Attendance.

Record ClockInRecord := mkClockInRecord {
  record_id : option nat;
  record : doc;
  isNew : bool;
  isActive : bool
}.

Definition getRecordForClockIn (userId : UserId) (start now : Z)
  : M ClockInRecord :=
  activeRecord ← findOne (Active userId);
  match activeRecord with
  | Some (i, r) => mret (mkClockInRecord (Some i) r false true)
  | None =>
      found ← findOne (OnDate userId start);
      match found with
      | None =>
          mret (mkClockInRecord None
                  (mk userId start (Some now) None Absent 0 None [] [] [])
                  true false)
      | Some (i, r) => mret (mkClockInRecord (Some i) r false false)
      end
  end.

Definition getActiveRecord (userId : UserId) : M (option (nat * doc)) :=
  findOne (Active userId).

Definition clockIn (userId : UserId) (start now : Z) : M Response :=
  found ← getRecordForClockIn userId start now;
  if isActive found then
    mret (BadRequest (jsstr "You are already clocked in. Please clock out first."))
  else
    let r := record found in
    let r := set_status ClockedIn r in
    let r := set_lastActiveAt (Some now) r in
    saved ← save (record_id found) r;
    if saved : bool then
      mret (Ok (Some (jsstr "Clocked in successfully " ++ [9201; 65039]%N))
              (Some (ClockInData (clockIn r) (status r) (activeSeconds r))))
    else mret ServerError.

(** The accounting shared by [goAway] and [clockOut]: the segment that
    began at [last] ends at [now]. *)
Definition closeSegment (last now : Z) (r : doc) : doc :=
  let segmentSeconds := elapsedSeconds last now in
  let r := set_activeSeconds (activeSeconds r + segmentSeconds) r in
  set_sessions (sessions r ++ [mkSegment last (Some now) segmentSeconds]) r.

Definition goAway (userId : UserId) (now : Z) : M Response :=
  found ← getActiveRecord userId;
  match found with
  | Some (i, r) =>
      if decide (status r = ClockedIn) then
        let r := match lastActiveAt r with
                 | Some last => closeSegment last now r
                 | None => r
                 end in
        let r := set_breaks (breaks r ++ [mkSegment now None 0]) r in
        let r := set_status Away r in
        let r := set_lastActiveAt None r in
        saved ← save (Some i) r;
        if saved : bool then
          mret (Ok (Some (jsstr "Timer paused " ++ [8212]%N
                            ++ jsstr " enjoy your break " ++ [9749]%N))
                  (Some (AwayData (status r) (activeSeconds r) now)))
        else mret ServerError
      else mret (BadRequest (jsstr "You must be clocked in to go away"))
  | None => mret (BadRequest (jsstr "You must be clocked in to go away"))
  end.

(** [currentBreak = breaks[breaks.length - 1]], closed at [now] when it
    exists and has no [end]. *)
Definition closeBreak (now : Z) (b : Segment) : Segment :=
  match seg_end b with
  | None => mkSegment (seg_start b) (Some now) (elapsedSeconds (seg_start b) now)
  | Some _ => b
  end.

Fixpoint closeCurrentBreak (now : Z) (bs : list Segment) : list Segment :=
  match bs with
  | [] => []
  | [b] => [closeBreak now b]
  | b :: bs' => b :: closeCurrentBreak now bs'
  end.

Definition resume (userId : UserId) (now : Z) : M Response :=
  found ← getActiveRecord userId;
  match found with
  | Some (i, r) =>
      if decide (status r = Away) then
        let r := set_breaks (closeCurrentBreak now (breaks r)) r in
        let r := set_status ClockedIn r in
        let r := set_lastActiveAt (Some now) r in
        saved ← save (Some i) r;
        if saved : bool then
          mret (Ok (Some (jsstr "Welcome back! Timer resumed " ++ [9201; 65039]%N))
                  (Some (ResumeData (status r) (activeSeconds r) (lastActiveAt r))))
        else mret ServerError
      else mret (BadRequest (jsstr "You are not on a break"))
  | None => mret (BadRequest (jsstr "You are not on a break"))
  end.

(** [breaks.reduce((sum, b) => sum + (b.duration || 0), 0)]. *)
Definition totalBreakSeconds (bs : list Segment) : Z :=
  foldl (λ sum b, sum + seg_duration b) 0 bs.

(** [!dailyReport || !dailyReport.trim()], for a body whose [dailyReport]
    is absent ([None]) or a string. *)
Definition reportMissing (dailyReport : option JSString) : bool :=
  match dailyReport with
  | None => true
  | Some s => negb (truthy s) || negb (truthy (trim s))
  end.

Definition clockOut (userId : UserId) (dailyReport : option JSString) (now : Z)
  : M Response :=
  found ← getActiveRecord userId;
  match found with
  | None => mret (BadRequest (jsstr "You are not clocked in. Please clock in first."))
  | Some (i, r) =>
      if reportMissing dailyReport then
        mret (BadRequest (jsstr "Daily report is required when clocking out"))
      else
        let text := trim (default [] dailyReport) in
        let r1 := match status r, lastActiveAt r with
                  | ClockedIn, Some last => closeSegment last now r
                  | _, _ => r
                  end in
        (* the second test reads the status the first block left alone *)
        let r2 := if decide (status r1 = Away)
                  then set_breaks (closeCurrentBreak now (breaks r1)) r1
                  else r1 in
        let r3 := set_clockOut (Some now) r2 in
        let r4 := set_status ClockedOut r3 in
        let r5 := set_lastActiveAt None r4 in
        let r6 := if truthy (Attendance.dailyReport r5)
                  then set_dailyReport
                         (Attendance.dailyReport r5 ++ [10; 91]%N
                            ++ toLocaleTimeString now ++ [93; 58; 32]%N ++ text) r5
                  else set_dailyReport text r5 in
        saved ← save (Some i) r6;
        if saved : bool then
          mret (Ok (Some (jsstr "Clocked out " ++ [8212]%N ++ jsstr " great work!"))
                  (Some (ClockOutData (Attendance.clockIn r6) (Attendance.clockOut r6)
                           (activeSeconds r6) (totalBreakSeconds (breaks r6))
                           (Attendance.dailyReport r6))))
        else mret ServerError
  end.

Definition getToday (userId : UserId) (start now : Z) : M Response :=
  active ← getActiveRecord userId;
  found ← match active with
          | Some x => mret (Some x)
          | None => findOne (OnDate userId start)
          end;
  match found with
  | None =>
      mret (Ok None (Some (TodayPayload
              (mkToday Absent None None 0 None None None []))))
  | Some (_, r) =>
      let liveActiveSeconds :=
        match status r, lastActiveAt r with
        | ClockedIn, Some last => activeSeconds r + elapsedSeconds last now
        | _, _ => activeSeconds r
        end in
      mret (Ok None (Some (TodayPayload
              (mkToday (status r) (Attendance.clockIn r) (Attendance.clockOut r)
                 liveActiveSeconds
                 (Some (totalBreakSeconds (breaks r)))
                 (Some (length (breaks r)))
                 (lastActiveAt r) (Attendance.dailyReport r)))))
  end.

Definition lean (r : doc) : HistoryRecord :=
  mkHistoryRecord (date r) (status r) (Attendance.clockIn r)
    (Attendance.clockOut r) (activeSeconds r) (Attendance.dailyReport r).

(** [["clocked-in", "clocked-out", "away"].includes(r.status)]. *)
Definition countsAsPresent (s : Status) : bool :=
  match s with ClockedIn | ClockedOut | Away => true | Absent => false end.

Definition totalActiveSeconds (records : list HistoryRecord) : Z :=
  foldl (λ sum r, sum + h_activeSeconds r) 0 records.

(** [Math.round((totalActiveSeconds / 3600) * 10) / 10]. *)
Definition workingHours (total : Z) : float :=
  (Math_round ((Z2float total / 3600) * 10) / 10)%float.

(** [start] and [end] are the first and the last instant of the month
    asked for, [new Date(year, month - 1, 1)] and
    [new Date(year, month, 0, 23, 59, 59, 999)]. *)
Definition getHistory (userId : UserId) (month year start end_ : Z)
  : M Response :=
  found ← findSorted (InRange userId start end_);
  let records := lean <$> found in
  let present :=
    length (filter (λ r, countsAsPresent (h_status r) = true) records) in
  mret (Ok None (Some (HistoryPayload month year records
          (mkStats present (workingHours (totalActiveSeconds records)))))).

(** [start] is the local midnight of the day named by the request body,
    [status] its status field. *)
Definition adminOverride (userId : UserId) (start : Z) (status : JSString)
  : M Response :=
  let present := bool_decide (status = jsstr "present") in
  found ← findOne (OnDate userId start);
  let seconds := if present then 28800 else 0 in
  let '(id, r) :=
    match found with
    | None =>
        (None,
         mk userId start
            (if present then Some start else None)
            (if present then Some (start + seconds * 1000) else None)
            (if present then ClockedOut else Absent)
            seconds None [] [] (jsstr "Admin overridden."))
    | Some (i, r) =>
        let r := set_status (if present then ClockedOut else Absent) r in
        let r := set_activeSeconds seconds r in
        if bool_decide (status = jsstr "absent") then
          let r := set_lastActiveAt None r in
          let r := set_clockIn None r in
          let r := set_clockOut None r in
          (Some i, set_dailyReport (jsstr "Admin marked absent.") r)
        else
          let r := match Attendance.clockIn r with
                   | None => set_clockIn (Some start) r
                   | Some _ => r
                   end in
          let r := set_clockOut (Some (start + seconds * 1000)) r in
          (Some i, set_dailyReport (jsstr "Admin overridden.") r)
    end in
  saved ← save id r;
  if saved : bool then
    mret (Ok (Some (jsstr "Attendance marked as " ++ status ++ jsstr ".")) None)
  else mret ServerError.

End Controller.

(** ** Vocabulary of the properties *)

(** The user has no running session in the collection. *)
Definition noActiveRecord (u : UserId) (c : Collection) : Prop :=
  ∀ r, r ∈ c → ¬ Attendance.matches (Attendance.Active u) r.

(** The user has no record for the day that begins at [start]. *)
Definition noRecordOn (u : UserId) (start : Z) (c : Collection) : Prop :=
  ∀ r, r ∈ c → ¬ Attendance.matches (Attendance.OnDate u start) r.

(** The user has no record at all. *)
Definition noRecordOf (u : UserId) (c : Collection) : Prop :=
  ∀ r, r ∈ c → Attendance.user r ≠ u.

(** *** Sequences of clock requests *)

Inductive Request :=
| ReqClockIn (u : UserId) (start now : Z)
| ReqGoAway (u : UserId) (now : Z)
| ReqResume (u : UserId) (now : Z)
| ReqClockOut (u : UserId) (dailyReport : option JSString) (now : Z).

Definition handle (fmt : Z → JSString) (q : Request) : M Response :=
  match q with
  | ReqClockIn u start now => clockIn u start now
  | ReqGoAway u now => goAway u now
  | ReqResume u now => resume u now
  | ReqClockOut u dailyReport now => clockOut fmt u dailyReport now
  end.

(** The collection after the requests [qs], served one after the other. *)
Definition serve (fmt : Z → JSString) (qs : list Request) (c : Collection)
  : Collection :=
  foldl (λ c q, (run (handle fmt q) c).1.2) c qs.

(** Sum of the durations of the closed entries of [sessions]. *)
Definition closedDurations (ss : list Segment) : Z :=
  foldr (λ s acc, match seg_end s with
                  | Some _ => seg_duration s + acc
                  | None => acc
                  end) 0 ss.

(** A closed entry lasts the whole seconds between its start and its end. *)
Definition exactDuration (s : Segment) : Prop :=
  ∀ e, seg_end s = Some e → seg_duration s = (e - seg_start s) / 1000.

Definition accounted (r : Attendance.doc) : Prop :=
  Attendance.activeSeconds r = closedDurations (Attendance.sessions r)
  ∧ Forall exactDuration (Attendance.sessions r).

Definition fresh (r : Attendance.doc) : Prop :=
  Attendance.activeSeconds r = 0 ∧ Attendance.sessions r = [].

(** lastActiveAt is present exactly on the records that are clocked in. *)
Definition timerMatchesStatus (r : Attendance.doc) : Prop :=
  is_Some (Attendance.lastActiveAt r) ↔ Attendance.status r = ClockedIn.

(** The report a clock-out leaves: the text alone on the first clock-out
    of the record, appended on a new line after the time otherwise. *)
Definition reportAfter (fmt : Z → JSString) (now : Z) (old text : JSString)
  : JSString :=
  if truthy old then old ++ [10; 91]%N ++ fmt now ++ [93; 58; 32]%N ++ text
  else text.

(** The lookup as the specification words it for every action: any
    running record of the user first, whatever its date, and the record of
    the current day when there is none. *)
Definition lookupActiveThenToday (userId : UserId) (start : Z)
  : M (option (nat * Attendance.doc)) :=
  active ← findOne (Attendance.Active userId);
  match active with
  | Some x => mret (Some x)
  | None => findOne (Attendance.OnDate userId start)
  end.

(** Tenths of an hour nearest to [total] seconds, a tie going up. *)
Definition nearestTenth (total : Z) : Z := (total + 180) / 360.

(** [hoursAgree n t k r]: for the [n] totals from [t] on, the hours the
    code computes on doubles are [k / 10], [k] and [r] being the quotient
    and the remainder of [t + 180] by 360, carried along. *)
Fixpoint hoursAgree (n : nat) (t k r : Z) : bool :=
  match n with
  | O => true
  | S n' =>
      if PrimFloat.Leibniz.eqb (workingHours t) (Z2float k / 10)%float
      then if r =? 359 then hoursAgree n' (t + 1) (k + 1) 0
           else hoursAgree n' (t + 1) k (r + 1)
      else false
  end.

(** [roundsAgree n k scale]: the two readings of [Math.round] agree on the
    [n] doubles [k * scale], [(k + 1) * scale], ... and on the doubles next
    to each of them. *)
Fixpoint roundsAgree (n : nat) (k : Z) (scale : float) : bool :=
  match n with
  | O => true
  | S n' =>
      let x := (Z2float k * scale)%float in
      PrimFloat.Leibniz.eqb (Math_round x) (Math_round_exact x)
      && PrimFloat.Leibniz.eqb (Math_round (next_up x)) (Math_round_exact (next_up x))
      && PrimFloat.Leibniz.eqb (Math_round (next_down x))
           (Math_round_exact (next_down x))
      && roundsAgree n' (k + 1) scale
  end.

(** The seconds of a month of 31 days. *)
Definition monthSeconds : Z := 31 * 86400.

(** ** Vocabulary of the further properties *)

(** Who sends a clock request. *)
Definition requester (q : Request) : UserId :=
  match q with
  | ReqClockIn u _ _ | ReqGoAway u _ | ReqResume u _ | ReqClockOut u _ _ => u
  end.

(** The instant of a clock request. *)
Definition instant (q : Request) : Z :=
  match q with
  | ReqClockIn _ _ now | ReqGoAway _ now | ReqResume _ now
  | ReqClockOut _ _ now => now
  end.

(** [r'] continues [r]: same user, day and first clock-in, and the
    sessions, the breaks (by their starts) and the report only grow at
    the end. *)
Definition continues (r r' : Attendance.doc) : Prop :=
  Attendance.user r' = Attendance.user r
  ∧ Attendance.date r' = Attendance.date r
  ∧ Attendance.clockIn r' = Attendance.clockIn r
  ∧ Attendance.sessions r `prefix_of` Attendance.sessions r'
  ∧ (seg_start <$> Attendance.breaks r)
      `prefix_of` (seg_start <$> Attendance.breaks r')
  ∧ Attendance.dailyReport r `prefix_of` Attendance.dailyReport r'.

(** A clock request or an administrative override. *)
Inductive Action :=
| Clock (q : Request)
| Override (u : UserId) (start : Z) (status : JSString).

Definition perform (fmt : Z → JSString) (a : Action) : M Response :=
  match a with
  | Clock q => handle fmt q
  | Override u start status => adminOverride u start status
  end.

(** The collection after the actions [as_], one after the other. *)
Definition performAll (fmt : Z → JSString) (as_ : list Action) (c : Collection)
  : Collection :=
  foldl (λ c a, (run (perform fmt a) c).1.2) c as_.

(** At most one record of a user is clocked in or away. *)
Definition oneActive (c : Collection) : Prop :=
  ∀ i j r r',
    c !! i = Some r → c !! j = Some r' →
    Attendance.user r = Attendance.user r' →
    Attendance.isActiveStatus (Attendance.status r) = true →
    Attendance.isActiveStatus (Attendance.status r') = true →
    i = j.

(** At most one record per user and day, what the unique index asks. *)
Definition uniqueDays (c : Collection) : Prop :=
  ∀ i j r r',
    c !! i = Some r → c !! j = Some r' →
    Attendance.user r = Attendance.user r' →
    Attendance.date r = Attendance.date r' →
    i = j.

(** The record the actions of a user act on: the first running one. *)
Definition resolved (u : UserId) (c : Collection) : option Attendance.doc :=
  snd <$> list_find (Attendance.matches (Attendance.Active u)) c.

(** When a clock request is in order. *)
Definition allowed (q : Request) (c : Collection) : Prop :=
  match q with
  | ReqClockIn u _ _ => resolved u c = None
  | ReqGoAway u _ =>
      ∃ r, resolved u c = Some r ∧ Attendance.status r = ClockedIn
  | ReqResume u _ => ∃ r, resolved u c = Some r ∧ Attendance.status r = Away
  | ReqClockOut u dailyReport _ =>
      is_Some (resolved u c) ∧ reportMissing dailyReport = false
  end.

(** The status and the timer a clock request leaves when it is accepted. *)
Definition target (q : Request) : Status :=
  match q with
  | ReqClockIn _ _ _ | ReqResume _ _ => ClockedIn
  | ReqGoAway _ _ => Away
  | ReqClockOut _ _ _ => ClockedOut
  end.

Definition timerAfter (q : Request) : option Z :=
  match q with
  | ReqClockIn _ _ now | ReqResume _ now => Some now
  | ReqGoAway _ _ | ReqClockOut _ _ _ => None
  end.

Definition accepted (resp : Response) : Prop :=
  match resp with Ok _ _ => True | _ => False end.

(** [q'] asks again for what [q] asked: the same action by the same user,
    at any time and with any report. *)
Definition repeats (q q' : Request) : Prop :=
  match q, q' with
  | ReqClockIn u _ _, ReqClockIn u' _ _
  | ReqGoAway u _, ReqGoAway u' _
  | ReqResume u _, ReqResume u' _
  | ReqClockOut u _ _, ReqClockOut u' _ _ => u = u'
  | _, _ => False
  end.

(** A break that is over, with the whole seconds it lasted. *)
Definition breakDone (b : Segment) : Prop :=
  ∃ e, seg_end b = Some e ∧ seg_duration b = (e - seg_start b) / 1000.

(** The breaks of a record are in order: all are over, except that a
    record that is away has one open break, its last. *)
Definition breaksInOrder (r : Attendance.doc) : Prop :=
  ∃ over,
    Forall breakDone over
    ∧ ((Attendance.status r = Away
        ∧ ∃ t, Attendance.breaks r = over ++ [mkSegment t None 0])
       ∨ (Attendance.status r ≠ Away ∧ Attendance.breaks r = over)).

(** No timer of the collection was started after the instant [t]. *)
Definition timersBefore (t : Z) (c : Collection) : Prop :=
  ∀ r last, r ∈ c → Attendance.lastActiveAt r = Some last → last ≤ t.

(** The requests come in the order of their instants, none before [t]. *)
Fixpoint chronological (t : Z) (qs : list Request) : Prop :=
  match qs with
  | [] => True
  | q :: qs' => t ≤ instant q ∧ chronological (instant q) qs'
  end.

(** The activeSeconds an answer carries, if it carries any. *)
Definition reportedSeconds (resp : Response) : option Z :=
  match resp with
  | Ok _ (Some (ClockInData _ _ secs)) | Ok _ (Some (AwayData _ secs _))
  | Ok _ (Some (ResumeData _ secs _))
  | Ok _ (Some (ClockOutData _ _ secs _ _)) => Some secs
  | Ok _ (Some (TodayPayload t)) => Some (t_activeSeconds t)
  | _ => None
  end.

(** The day a clock-in is for; the other requests name none. *)
Definition forDay (q : Request) (start : Z) : Prop :=
  match q with
  | ReqClockIn _ s _ => s = start
  | _ => True
  end.

(** The milliseconds the closed sessions span. *)
Definition sessionSpan (ss : list Segment) : Z :=
  foldr (λ s acc, match seg_end s with
                  | Some e => (e - seg_start s) + acc
                  | None => acc
                  end) 0 ss.

(** *** The override, record by record *)

(** The record an override to [status] leaves in place of the record [r]
    of the day that begins at [start]. *)
Definition overridden (start : Z) (status : JSString) (r : Attendance.doc)
  : Attendance.doc :=
  let present := bool_decide (status = jsstr "present") in
  let absent := bool_decide (status = jsstr "absent") in
  Attendance.mk (Attendance.user r) (Attendance.date r)
    (if absent then None
     else Some (default start (Attendance.clockIn r)))
    (if absent then None
     else Some (start + (if present then 28800 else 0) * 1000))
    (if present then ClockedOut else Absent)
    (if present then 28800 else 0)
    (if absent then None else Attendance.lastActiveAt r)
    (Attendance.sessions r) (Attendance.breaks r)
    (if absent then jsstr "Admin marked absent." else jsstr "Admin overridden.").

(** The record the override creates for a day that has none. *)
Definition created (u : UserId) (start : Z) (status : JSString)
  : Attendance.doc :=
  let present := bool_decide (status = jsstr "present") in
  Attendance.mk u start
    (if present then Some start else None)
    (if present then Some (start + 28800 * 1000) else None)
    (if present then ClockedOut else Absent)
    (if present then 28800 else 0)
    None [] [] (jsstr "Admin overridden.").

(** *** The order of the history *)

#[global] Instance byDate_total : Total byDate.
Proof. intros a b. unfold byDate. lia. Qed.

#[global] Instance byDate_transitive : Transitive byDate.
Proof. intros a b d. unfold byDate. lia. Qed.

(** ** The user directory and the administrative views *)

(** What the views read of a [User] document (models/User.js). *)
Module User.

Record doc := mk {
  _id : UserId;
  fullName : JSString;
  email : JSString;
  role : JSString;
  department : JSString;
  status : JSString
}.

End User.

Abbreviation Directory := (list User.doc).

(** [User.findById(userId)], for a well-formed id. *)
Definition findById (users : Directory) (userId : UserId) : option User.doc :=
  snd <$> list_find (λ u, User._id u = userId) users.

(** [User.find({ status: { $ne: "inactive" } })]. *)
Definition findNotInactive (users : Directory) : Directory :=
  filter (λ u, User.status u ≠ jsstr "inactive") users.

Record UserSummary := mkUserSummary {
  s_id : UserId;
  s_fullName : JSString;
  s_email : JSString
}.

Inductive UserHistoryResponse :=
| UserHistory (user : UserSummary) (month year : Z)
              (records : list HistoryRecord) (stats : HistoryStats)  (* 200 *)
| NotFound (message : JSString).                                      (* 404 *)

(** [getUserAttendanceHistory], with [start] and [end] as in [getHistory]. *)
Definition getUserAttendanceHistory (users : Directory) (userId : UserId)
    (month year start end_ : Z) : M UserHistoryResponse :=
  match findById users userId with
  | None => mret (NotFound (jsstr "User not found"))
  | Some user =>
      found ← findSorted (Attendance.InRange userId start end_);
      let records := lean <$> found in
      let present :=
        length (filter (λ r, countsAsPresent (h_status r) = true) records) in
      mret (UserHistory
              (mkUserSummary (User._id user) (User.fullName user)
                 (User.email user))
              month year records
              (mkStats present (workingHours (totalActiveSeconds records))))
  end.

(** One line of the roster of [getAllUsersStatus]. *)
Record RosterEntry := mkRosterEntry {
  e_id : UserId;
  e_fullName : JSString;
  e_email : JSString;
  e_role : JSString;
  e_department : JSString;
  e_status : Status;
  e_clockIn : option Z;
  e_clockOut : option Z;
  e_activeSeconds : Z;
  e_lastActiveAt : option Z
}.

Record Roster := mkRoster {
  count : nat;
  data : list RosterEntry
}.

(** The filter of the roster,
    [{ $or: [{ date: start }, { status: { $in: ["clocked-in", "away"] } }] }]. *)
Definition todayOrActive (start : Z) (r : Attendance.doc) : Prop :=
  Attendance.date r = start
  ∨ Attendance.isActiveStatus (Attendance.status r) = true.

#[global] Instance todayOrActive_dec start r : Decision (todayOrActive start r).
Proof. unfold todayOrActive; apply _. Defined.

(** The body of [activeRecords.forEach]: a running record always takes the
    place of its user, a record of the day only a free one. *)
Definition rosterStep (start : Z) (activeRecordMap : gmap UserId Attendance.doc)
    (r : Attendance.doc) : gmap UserId Attendance.doc :=
  let rUserId := Attendance.user r in
  if Attendance.isActiveStatus (Attendance.status r) then
    <[rUserId := r]> activeRecordMap
  else if decide (Attendance.date r = start ∧ activeRecordMap !! rUserId = None)
  then <[rUserId := r]> activeRecordMap
  else activeRecordMap.

(** The callback of [users.map]. *)
Definition rosterEntry (user : User.doc) (record : option Attendance.doc)
  : RosterEntry :=
  mkRosterEntry (User._id user) (User.fullName user) (User.email user)
    (User.role user) (User.department user)
    (from_option Attendance.status Absent record)
    (record ≫= Attendance.clockIn)
    (record ≫= Attendance.clockOut)
    (from_option Attendance.activeSeconds 0 record)
    (record ≫= Attendance.lastActiveAt).

(** The roster built from the users and the attendance records the two
    queries returned. *)
Definition rosterOf (start : Z) (users : Directory)
    (activeRecords : list Attendance.doc) : Roster :=
  let activeRecordMap := foldl (rosterStep start) ∅ activeRecords in
  let userStatusList :=
    (λ user, rosterEntry user (activeRecordMap !! User._id user)) <$> users in
  mkRoster (length userStatusList) userStatusList.

(** [getAllUsersStatus], [start] being the local midnight of the day of
    the request. Its query is none of the three the clock handlers use;
    the view is a function of the directory and of the collection it
    reads, the documents coming in the order of the collection. *)
Definition getAllUsersStatus (users : Directory) (start : Z) (c : Collection)
  : Roster :=
  rosterOf start (findNotInactive users) (filter (todayOrActive start) c).

(** The line the roster would show for the record the "today" view of
    the user resolves: the running record first, the record of the day
    otherwise. *)
Definition todayEntry (start : Z) (c : Collection) (user : User.doc)
  : RosterEntry :=
  rosterEntry user
    (snd <$> (run (lookupActiveThenToday (User._id user) start) c).1.1).

(** ** The role guard (middleware/roleAuth.js) and the attendance routes *)







(** ** The attendance of the employee dashboard (services/dashboardService.js) *)

(** [Attendance.find(q)], in the order of the collection. *)
Definition find (q : Attendance.Query) : M Collection :=
  λ w, (filter (Attendance.matches q) (coll w),
        mkWorld (coll w) (oplog w ++ [OpFind q])).

(** The [attendance.today] of the dashboard. *)
Inductive TodayWidget :=
| NotStarted                                       (* { status: "not-started" } *)
| Started (status : Status) (clockIn clockOut : option Z)
          (activeSeconds : Z) (lastActiveAt : option Z).

Record MonthlyStats := mkMonthlyStats {
  m_daysPresent : nat;
  m_daysAbsent : nat;
  m_totalWorkingHours : float;
  m_totalRecords : nat
}.

(** What [getEmployeeDashboard] reads of the attendance and answers under
    [attendance] and [monthlyStats], for a user that exists; the user,
    the tasks and the projects of the answer are left out. The four
    instants are those of its [getTodayRange] and [getMonthRange]. *)
Definition getEmployeeDashboard (userId : UserId)
    (todayStart todayEnd monthStart monthEnd : Z)
  : M (TodayWidget * MonthlyStats) :=
  todayAttendance ← findOne (Attendance.InRange userId todayStart todayEnd);
  monthlyAttendance ← find (Attendance.InRange userId monthStart monthEnd);
  let daysPresent :=
    length (filter (λ a, Attendance.status a = ClockedOut
                         ∨ Attendance.status a = ClockedIn)
              monthlyAttendance) in
  let daysAbsent :=
    length (filter (λ a, Attendance.status a = Absent) monthlyAttendance) in
  let totalWorkingSeconds :=
    foldl (λ sum a, sum + Attendance.activeSeconds a) 0 monthlyAttendance in
  mret (match todayAttendance with
        | Some (_, r) =>
            Started (Attendance.status r) (Attendance.clockIn r)
              (Attendance.clockOut r) (Attendance.activeSeconds r)
              (Attendance.lastActiveAt r)
        | None => NotStarted
        end,
        mkMonthlyStats daysPresent daysAbsent
          (workingHours totalWorkingSeconds) (length monthlyAttendance)).

(** ** The sheet export (services/googleSheetsService.js) *)

(** [String(n)] for an integer [n]. *)
Definition String_ (n : Z) : JSString := jsstr (pretty n).

(** [s.padStart(targetLength, c)] for a filler [c] of one code unit. *)
Definition padStart (targetLength : nat) (c : N) (s : JSString) : JSString :=
  replicate (targetLength - length s) c ++ s.

(** [%] is the remainder of the truncated division, [Math.floor] of a
    quotient the floored division. *)
Definition formatHHMMSS (totalSeconds : Z) : JSString :=
  let hrs := totalSeconds / 3600 in
  let mins := Z.rem totalSeconds 3600 / 60 in
  let secs := Z.rem totalSeconds 60 in
  padStart 2 48%N (String_ hrs) ++ [58%N]
    ++ padStart 2 48%N (String_ mins) ++ [58%N]
    ++ padStart 2 48%N (String_ secs).

(** [xs[k]] for an integer [k]: [undefined] outside the array. *)
Definition at_ {A} (xs : list A) (k : Z) : option A :=
  if decide (0 ≤ k) then xs !! Z.to_nat k else None.

Definition getOrdinal (n : Z) : JSString :=
  let s := [jsstr "th"; jsstr "st"; jsstr "nd"; jsstr "rd"] in
  let v := Z.rem n 100 in
  String_ n
    ++ default (default (default [] (at_ s 0)) (at_ s v))
         (at_ s (Z.rem (v - 20) 10)).

Definition buildHeaderRow (sessionCount : Z) : list JSString :=
  foldl (λ header i,
           let label := getOrdinal i in
           header ++ [label ++ jsstr " Clock In"; label ++ jsstr " Clock Out";
                      label ++ jsstr " Report"])
    [jsstr "Employee Name"; jsstr "Date"; jsstr "Status";
     jsstr "Working Hours"]
    (seqZ 1 sessionCount).

(** [Math.ceil(sessionColumns / 3)] of [ensureHeaders]. *)
Definition sessionCount (dataRowLength : Z) : Z :=
  let sessionColumns := dataRowLength - 4 in
  - (- sessionColumns / 3).

Definition neededColumns (dataRowLength : Z) : Z :=
  4 + sessionCount dataRowLength * 3.

(** The header [ensureHeaders] writes over the first row [existingHeader]
    of the sheet for a data row of [dataRowLength] cells, if it writes
    one. *)
Definition ensureHeaders (existingHeader : list JSString) (dataRowLength : Z)
  : option (list JSString) :=
  if decide (Z.of_nat (length existingHeader) < neededColumns dataRowLength
             ∨ existingHeader !! 0%nat ≠ Some (jsstr "Employee Name"))
  then Some (buildHeaderRow (sessionCount dataRowLength))
  else None.

(** Two decimal digits. *)
Definition twoDigits (n : Z) : JSString :=
  [Z.to_N (48 + n / 10); Z.to_N (48 + n mod 10)].

(** The suffix of an English ordinal. *)
Definition ordinalSuffix (n : Z) : JSString :=
  if decide (n mod 10 = 1 ∧ n mod 100 ≠ 11) then jsstr "st"
  else if decide (n mod 10 = 2 ∧ n mod 100 ≠ 12) then jsstr "nd"
  else if decide (n mod 10 = 3 ∧ n mod 100 ≠ 13) then jsstr "rd"
  else jsstr "th".

(** ** Lookups and writes *)

Ltac handler :=
  cbv [run clockIn goAway resume clockOut getToday getHistory adminOverride
       getRecordForClockIn getActiveRecord findOne findSorted save
       mbind M_bind mret M_ret coll oplog isActive record record_id].

Lemma list_find_none_iff (q : Attendance.Query) (c : Collection) :
  list_find (Attendance.matches q) c = None ↔
  ∀ r, r ∈ c → ¬ Attendance.matches q r.
Proof. rewrite list_find_None, Forall_forall. reflexivity. Qed.

Lemma noActiveRecord_find u c :
  noActiveRecord u c →
  list_find (Attendance.matches (Attendance.Active u)) c = None.
Proof. intros H. apply list_find_none_iff, H. Qed.

Lemma noRecordOn_find u start c :
  noRecordOn u start c →
  list_find (Attendance.matches (Attendance.OnDate u start)) c = None.
Proof. intros H. apply list_find_none_iff, H. Qed.

(** The other way round, for collections that are given in full. *)
Lemma find_noActiveRecord u c :
  list_find (Attendance.matches (Attendance.Active u)) c = None →
  noActiveRecord u c.
Proof. intros H. unfold noActiveRecord. by apply list_find_none_iff. Qed.

Lemma find_noRecordOn u start c :
  list_find (Attendance.matches (Attendance.OnDate u start)) c = None →
  noRecordOn u start c.
Proof. intros H. unfold noRecordOn. by apply list_find_none_iff. Qed.

Lemma noRecordOf_find u (q : Attendance.Query) c :
  noRecordOf u c →
  (∀ r, Attendance.matches q r → Attendance.user r = u) →
  list_find (Attendance.matches q) c = None.
Proof.
  intros Hno Hq. apply list_find_none_iff. intros r Hr Hm.
  by apply (Hno r Hr), Hq.
Qed.

Lemma active_find u c r :
  r ∈ c → Attendance.user r = u →
  Attendance.isActiveStatus (Attendance.status r) = true →
  ∃ i r', list_find (Attendance.matches (Attendance.Active u)) c = Some (i, r').
Proof.
  intros Hin Hu Hs.
  destruct (list_find_elem_of (Attendance.matches (Attendance.Active u)) c r)
    as [[i r'] Hfind]; [done | by split | eauto].
Qed.

Lemma find_lookup (q : Attendance.Query) (c : Collection) i r :
  list_find (Attendance.matches q) c = Some (i, r) → c !! i = Some r.
Proof. by intros (? & _)%list_find_Some. Qed.

Lemma find_added (q : Attendance.Query) (c : Collection) r :
  list_find (Attendance.matches q) c = None →
  Attendance.matches q r →
  list_find (Attendance.matches q) (c ++ [r]) = Some (length c, r).
Proof.
  intros Hnone Hr. rewrite (list_find_app_r _ _ _ Hnone). cbn.
  destruct (decide (Attendance.matches q r)); [done | contradiction].
Qed.

Lemma insert_added (c : Collection) r r' :
  <[length c := r']> (c ++ [r]) = c ++ [r'].
Proof. rewrite insert_app_r_alt by lia. by rewrite Nat.sub_diag. Qed.

(** Rewriting a record in place, or adding one, keeps a property of all
    records when the record written has it. *)
Lemma Forall_written (P : Attendance.doc → Prop) (c : Collection) i r' :
  Forall P c → P r' → Forall P (<[i := r']> c).
Proof. intros Hc Hr. by apply Forall_insert. Qed.

Lemma Forall_added (P : Attendance.doc → Prop) (c : Collection) r' :
  Forall P c → P r' → Forall P (c ++ [r']).
Proof. intros Hc Hr. apply Forall_app. split; [done | by constructor]. Qed.

Lemma elapsedSeconds_shift s a b :
  elapsedSeconds (s + a) (s + b) = (b - a) / 1000.
Proof. unfold elapsedSeconds. f_equal. lia. Qed.

(** ** The transitions, one accepted request at a time *)

Lemma clockIn_new u start now c l :
  list_find (Attendance.matches (Attendance.Active u)) c = None →
  list_find (Attendance.matches (Attendance.OnDate u start)) c = None →
  clockIn u start now (mkWorld c l) =
    (Ok (Some (jsstr "Clocked in successfully " ++ [9201; 65039]%N))
        (Some (ClockInData (Some now) ClockedIn 0)),
     mkWorld
       (c ++ [Attendance.mk u start (Some now) None ClockedIn 0 (Some now)
                [] [] []])
       (l ++ [OpFindOne (Attendance.Active u);
              OpFindOne (Attendance.OnDate u start); OpSave])).
Proof.
  intros Ha Hd. handler. rewrite Ha, Hd. cbn -[jsstr]. rewrite Hd.
  by rewrite <- !app_assoc.
Qed.

Lemma clockIn_again u start now c l i r :
  list_find (Attendance.matches (Attendance.Active u)) c = None →
  list_find (Attendance.matches (Attendance.OnDate u start)) c = Some (i, r) →
  clockIn u start now (mkWorld c l) =
    (Ok (Some (jsstr "Clocked in successfully " ++ [9201; 65039]%N))
        (Some (ClockInData (Attendance.clockIn r) ClockedIn
                 (Attendance.activeSeconds r))),
     mkWorld
       (<[i := Attendance.set_lastActiveAt (Some now)
                 (Attendance.set_status ClockedIn r)]> c)
       (l ++ [OpFindOne (Attendance.Active u);
              OpFindOne (Attendance.OnDate u start); OpSave])).
Proof.
  intros Ha Hd. handler. rewrite Ha, Hd. cbn -[jsstr].
  by rewrite <- !app_assoc.
Qed.

Lemma goAway_running u now c l i r last :
  list_find (Attendance.matches (Attendance.Active u)) c = Some (i, r) →
  Attendance.status r = ClockedIn →
  Attendance.lastActiveAt r = Some last →
  goAway u now (mkWorld c l) =
    (Ok (Some (jsstr "Timer paused " ++ [8212]%N
                 ++ jsstr " enjoy your break " ++ [9749]%N))
        (Some (AwayData Away
                 (Attendance.activeSeconds r + elapsedSeconds last now) now)),
     mkWorld
       (<[i := Attendance.mk (Attendance.user r) (Attendance.date r)
                 (Attendance.clockIn r) (Attendance.clockOut r) Away
                 (Attendance.activeSeconds r + elapsedSeconds last now) None
                 (Attendance.sessions r
                    ++ [mkSegment last (Some now) (elapsedSeconds last now)])
                 (Attendance.breaks r ++ [mkSegment now None 0])
                 (Attendance.dailyReport r)]> c)
       (l ++ [OpFindOne (Attendance.Active u); OpSave])).
Proof.
  intros Ha Hs Hl. handler. rewrite Ha.
  destruct (decide (Attendance.status r = ClockedIn)); [|done].
  rewrite Hl. cbn -[jsstr]. by rewrite <- !app_assoc.
Qed.

Lemma resume_away u now c l i r :
  list_find (Attendance.matches (Attendance.Active u)) c = Some (i, r) →
  Attendance.status r = Away →
  resume u now (mkWorld c l) =
    (Ok (Some (jsstr "Welcome back! Timer resumed " ++ [9201; 65039]%N))
        (Some (ResumeData ClockedIn (Attendance.activeSeconds r) (Some now))),
     mkWorld
       (<[i := Attendance.mk (Attendance.user r) (Attendance.date r)
                 (Attendance.clockIn r) (Attendance.clockOut r) ClockedIn
                 (Attendance.activeSeconds r) (Some now)
                 (Attendance.sessions r)
                 (closeCurrentBreak now (Attendance.breaks r))
                 (Attendance.dailyReport r)]> c)
       (l ++ [OpFindOne (Attendance.Active u); OpSave])).
Proof.
  intros Ha Hs. handler. rewrite Ha.
  destruct (decide (Attendance.status r = Away)); [|done].
  cbn -[jsstr]. by rewrite <- !app_assoc.
Qed.

Lemma clockOut_running fmt u report now c l i r last :
  list_find (Attendance.matches (Attendance.Active u)) c = Some (i, r) →
  Attendance.status r = ClockedIn →
  Attendance.lastActiveAt r = Some last →
  reportMissing report = false →
  clockOut fmt u report now (mkWorld c l) =
    (Ok (Some (jsstr "Clocked out " ++ [8212]%N ++ jsstr " great work!"))
        (Some (ClockOutData (Attendance.clockIn r) (Some now)
                 (Attendance.activeSeconds r + elapsedSeconds last now)
                 (totalBreakSeconds (Attendance.breaks r))
                 (reportAfter fmt now (Attendance.dailyReport r)
                    (trim (default [] report))))),
     mkWorld
       (<[i := Attendance.mk (Attendance.user r) (Attendance.date r)
                 (Attendance.clockIn r) (Some now) ClockedOut
                 (Attendance.activeSeconds r + elapsedSeconds last now) None
                 (Attendance.sessions r
                    ++ [mkSegment last (Some now) (elapsedSeconds last now)])
                 (Attendance.breaks r)
                 (reportAfter fmt now (Attendance.dailyReport r)
                    (trim (default [] report)))]> c)
       (l ++ [OpFindOne (Attendance.Active u); OpSave])).
Proof.
  intros Ha Hs Hl Hr. handler. rewrite Ha, Hr, Hs, Hl. unfold reportAfter.
  cbn -[jsstr trim]. rewrite Hs.
  destruct (decide (ClockedIn = Away)) as [?|_]; [done|].
  cbn -[jsstr trim]. rewrite <- !app_assoc.
  destruct (truthy (Attendance.dailyReport r)); reflexivity.
Qed.

Lemma clockOut_away fmt u report now c l i r :
  list_find (Attendance.matches (Attendance.Active u)) c = Some (i, r) →
  Attendance.status r = Away →
  reportMissing report = false →
  clockOut fmt u report now (mkWorld c l) =
    (Ok (Some (jsstr "Clocked out " ++ [8212]%N ++ jsstr " great work!"))
        (Some (ClockOutData (Attendance.clockIn r) (Some now)
                 (Attendance.activeSeconds r)
                 (totalBreakSeconds (closeCurrentBreak now (Attendance.breaks r)))
                 (reportAfter fmt now (Attendance.dailyReport r)
                    (trim (default [] report))))),
     mkWorld
       (<[i := Attendance.mk (Attendance.user r) (Attendance.date r)
                 (Attendance.clockIn r) (Some now) ClockedOut
                 (Attendance.activeSeconds r) None
                 (Attendance.sessions r)
                 (closeCurrentBreak now (Attendance.breaks r))
                 (reportAfter fmt now (Attendance.dailyReport r)
                    (trim (default [] report)))]> c)
       (l ++ [OpFindOne (Attendance.Active u); OpSave])).
Proof.
  intros Ha Hs Hr. handler. rewrite Ha, Hr, Hs. unfold reportAfter.
  destruct (decide (Attendance.status r = Away)) as [_|?]; [|done].
  cbn -[jsstr trim]. rewrite <- !app_assoc.
  destruct (truthy (Attendance.dailyReport r)); reflexivity.
Qed.

(** What an accepted clock-out leaves: the record it rewrote, in place. *)
Lemma clockOut_accepted fmt u report now c msg ci co secs tb rep :
  (run (clockOut fmt u report now) c).1.1 =
    Ok msg (Some (ClockOutData ci co secs tb rep)) →
  ∃ i r r',
    list_find (Attendance.matches (Attendance.Active u)) c = Some (i, r)
    ∧ (run (clockOut fmt u report now) c).1.2 = <[i := r']> c
    ∧ Attendance.user r' = u
    ∧ Attendance.date r' = Attendance.date r
    ∧ Attendance.status r' = ClockedOut
    ∧ Attendance.lastActiveAt r' = None
    ∧ Attendance.clockOut r' = Some now
    ∧ Attendance.activeSeconds r' = secs.
Proof.
  handler. destruct (list_find _ c) as [[i r]|] eqn:Ha; cbn; [|done].
  destruct (reportMissing report); cbn; [done|].
  pose proof Ha as (_ & [Hu _] & _)%list_find_Some.
  set (r1 := match Attendance.status r, Attendance.lastActiveAt r with
             | ClockedIn, Some last => closeSegment last now r
             | _, _ => r
             end).
  assert (Attendance.user r1 = u ∧ Attendance.date r1 = Attendance.date r)
    as [Hu1 Hd1].
  { subst r1. by destruct (Attendance.status r), (Attendance.lastActiveAt r). }
  clearbody r1.
  intros [= _ _ _ Hsecs _ _].
  eexists i, r, _. split; [done|]. split; [reflexivity|].
  destruct (decide (Attendance.status r1 = Away)); cbn in *;
    destruct (truthy _); cbn in *; done.
Qed.

(** ** The today view *)

Lemma getToday_found u start now c i r l :
  (list_find (Attendance.matches (Attendance.Active u)) c = Some (i, r)
   ∧ l = [OpFindOne (Attendance.Active u)])
  ∨ (list_find (Attendance.matches (Attendance.Active u)) c = None
     ∧ list_find (Attendance.matches (Attendance.OnDate u start)) c = Some (i, r)
     ∧ l = [OpFindOne (Attendance.Active u);
            OpFindOne (Attendance.OnDate u start)]) →
  ∃ t,
    run (getToday u start now) c = (Ok None (Some (TodayPayload t)), c, l)
    ∧ t_status t = Attendance.status r
    ∧ t_clockIn t = Attendance.clockIn r
    ∧ t_clockOut t = Attendance.clockOut r
    ∧ t_lastActiveAt t = Attendance.lastActiveAt r.
Proof.
  intros [[Ha ->] | (Ha & Hd & ->)]; handler; rewrite Ha; cbn; rewrite ?Hd;
    eexists; (split; [reflexivity|]); done.
Qed.

(** C10. A user with no running session and no record for the current day
    gets a successful answer from the today view, never a failure: the
    synthetic snapshot with status absent, zero active seconds, no
    clock-in, clock-out or lastActiveAt, and an empty daily report. The
    collection is left as it was. *)
Theorem getToday_without_record_is_absent u start now c :
  noActiveRecord u c → noRecordOn u start c →
  run (getToday u start now) c =
    (Ok None (Some (TodayPayload (mkToday Absent None None 0 None None None []))),
     c,
     [OpFindOne (Attendance.Active u); OpFindOne (Attendance.OnDate u start)]).
Proof.
  intros Ha Hd. handler.
  rewrite (noActiveRecord_find _ _ Ha), (noRecordOn_find _ _ _ Hd).
  reflexivity.
Qed.

Lemma getToday_without_record_is_absent_witness :
  run (getToday 7%nat 86400000 90000000)
      [Attendance.mk 7%nat 0 (Some 32400000) (Some 64800000) ClockedOut 30600
         None [] [] (jsstr "done")] =
    (Ok None (Some (TodayPayload (mkToday Absent None None 0 None None None []))),
     [Attendance.mk 7%nat 0 (Some 32400000) (Some 64800000) ClockedOut 30600
         None [] [] (jsstr "done")],
     [OpFindOne (Attendance.Active 7%nat);
      OpFindOne (Attendance.OnDate 7%nat 86400000)]).
Proof.
  apply getToday_without_record_is_absent.
  - apply find_noActiveRecord. reflexivity.
  - apply find_noRecordOn. reflexivity.
Defined.

(** C4. When the today view resolves a record that is clocked in and has
    lastActiveAt set, the active seconds it reports are the stored ones
    plus the whole seconds from lastActiveAt to now (600 more when
    lastActiveAt lies ten minutes back); it reads the collection once,
    writes nothing, and the collection, that record included, is as
    before. *)
Theorem getToday_live_seconds_without_write u start now c i r last :
  list_find (Attendance.matches (Attendance.Active u)) c = Some (i, r) →
  Attendance.status r = ClockedIn →
  Attendance.lastActiveAt r = Some last →
  ∃ t,
    run (getToday u start now) c =
      (Ok None (Some (TodayPayload t)), c, [OpFindOne (Attendance.Active u)])
    ∧ t_activeSeconds t = Attendance.activeSeconds r + (now - last) / 1000
    ∧ (now - last = 600000 → t_activeSeconds t = Attendance.activeSeconds r + 600)
    ∧ t_status t = ClockedIn
    ∧ c !! i = Some r.
Proof.
  intros Hfind Hst Hlast. handler. rewrite Hfind, Hst, Hlast.
  eexists. split; [reflexivity|]. cbn [t_activeSeconds t_status].
  unfold elapsedSeconds. split_and!; try done.
  - intros ->. reflexivity.
  - by apply list_find_Some in Hfind as (? & _).
Qed.

Lemma getToday_live_seconds_without_write_witness :
  ∃ t,
    run (getToday 7%nat 0 33000000)
        [Attendance.mk 7%nat 0 (Some 32400000) None ClockedIn 120
           (Some 32400000) [] [] []] =
      (Ok None (Some (TodayPayload t)),
       [Attendance.mk 7%nat 0 (Some 32400000) None ClockedIn 120
           (Some 32400000) [] [] []],
       [OpFindOne (Attendance.Active 7%nat)])
    ∧ t_activeSeconds t = 120 + (33000000 - 32400000) / 1000
    ∧ (33000000 - 32400000 = 600000 → t_activeSeconds t = 120 + 600)
    ∧ t_status t = ClockedIn
    ∧ [Attendance.mk 7%nat 0 (Some 32400000) None ClockedIn 120
         (Some 32400000) [] [] []] !! 0%nat =
      Some (Attendance.mk 7%nat 0 (Some 32400000) None ClockedIn 120
              (Some 32400000) [] [] []).
Proof.
  apply (getToday_live_seconds_without_write 7%nat 0 33000000 _ 0%nat
           (Attendance.mk 7%nat 0 (Some 32400000) None ClockedIn 120
              (Some 32400000) [] [] []) 32400000);
    reflexivity.
Defined.

(** ** Refusals *)

(** C5. A clock-in by a user who already has a record that is clocked in
    or away is turned down with a 400 answer; the handler only reads, and
    the collection, the running record included, is exactly as before. *)
Theorem clockIn_twice_rejected u start now c r :
  r ∈ c → Attendance.user r = u →
  Attendance.status r = ClockedIn ∨ Attendance.status r = Away →
  run (clockIn u start now) c =
    (BadRequest (jsstr "You are already clocked in. Please clock out first."),
     c, [OpFindOne (Attendance.Active u)]).
Proof.
  intros Hin Hu Hs.
  destruct (active_find u c r Hin Hu) as (i & r' & Hfind).
  { by destruct Hs as [-> | ->]. }
  handler. rewrite Hfind. reflexivity.
Qed.

Lemma clockIn_twice_rejected_witness :
  run (clockIn 7%nat 86400000 90000000)
      [Attendance.mk 7%nat 0 (Some 32400000) None Away 7200 None
         [mkSegment 32400000 (Some 39600000) 7200]
         [mkSegment 39600000 None 0] []] =
    (BadRequest (jsstr "You are already clocked in. Please clock out first."),
     [Attendance.mk 7%nat 0 (Some 32400000) None Away 7200 None
         [mkSegment 32400000 (Some 39600000) 7200]
         [mkSegment 39600000 None 0] []],
     [OpFindOne (Attendance.Active 7%nat)]).
Proof.
  apply (clockIn_twice_rejected 7%nat 86400000 90000000 _
           (Attendance.mk 7%nat 0 (Some 32400000) None Away 7200 None
              [mkSegment 32400000 (Some 39600000) 7200]
              [mkSegment 39600000 None 0] [])).
  - apply list_elem_of_singleton. reflexivity.
  - reflexivity.
  - right. reflexivity.
Defined.

(** The report counts as missing when the body has none or when nothing is
    left of it after trimming. *)
Lemma reportMissing_iff report :
  reportMissing report = true ↔
  report = None ∨ ∃ s, report = Some s ∧ trim s = [].
Proof.
  destruct report as [s|]; cbn -[trim]; [|by split; [left|]].
  split.
  - intros H. right. exists s. split; [done|].
    destruct s as [|a s]; [done|]. cbn -[trim] in H.
    by destruct (trim (a :: s)).
  - intros [[=] | (s' & [= <-] & Hs)]. rewrite Hs. cbn.
    by destruct (truthy s).
Qed.

(** C6, as the code has it. A clock-out whose report text is missing,
    empty or blank is turned down with a 400 answer after one read of the
    collection, the lookup of the running record, and without any write:
    the collection is as before. With a running record the answer is the
    report-required failure, without one it is the not-clocked-in
    failure. *)
Theorem clockOut_missing_report_rejected_after_lookup fmt u report now c :
  reportMissing report = true →
  run (clockOut fmt u report now) c =
    (BadRequest
       (match list_find (Attendance.matches (Attendance.Active u)) c with
        | Some _ => jsstr "Daily report is required when clocking out"
        | None => jsstr "You are not clocked in. Please clock in first."
        end),
     c, [OpFindOne (Attendance.Active u)]).
Proof.
  intros Hm. handler.
  destruct (list_find _ c) as [[i r]|]; [rewrite Hm|]; reflexivity.
Qed.

Lemma clockOut_missing_report_rejected_after_lookup_witness :
  run (clockOut (λ _, []) 7%nat (Some (jsstr "  ")) 64800000)
      [Attendance.mk 7%nat 0 (Some 32400000) None ClockedIn 0
         (Some 32400000) [] [] []] =
    (BadRequest (jsstr "Daily report is required when clocking out"),
     [Attendance.mk 7%nat 0 (Some 32400000) None ClockedIn 0
         (Some 32400000) [] [] []],
     [OpFindOne (Attendance.Active 7%nat)]).
Proof.
  apply (clockOut_missing_report_rejected_after_lookup (λ _, []) 7%nat
           (Some (jsstr "  ")) 64800000
           [Attendance.mk 7%nat 0 (Some 32400000) None ClockedIn 0
              (Some 32400000) [] [] []]).
  reflexivity.
Defined.

(** C6, as it is worded, fails: the refusal of a clock-out without report
    comes after a read of the collection, not before any access to it. *)
Lemma clockOut_missing_report_reads_store :
  reportMissing None = true
  ∧ (run (clockOut (λ _, []) 7%nat None 64800000) []).2
    = [OpFindOne (Attendance.Active 7%nat)]
  ∧ (run (clockOut (λ _, []) 7%nat None 64800000) []).2 ≠ [].
Proof. split_and!; [reflexivity | reflexivity | discriminate]. Qed.

(** ** A working day *)

(** C2. A user without any record clocks in at 09:00, goes away at 11:00,
    resumes at 11:30 and clocks out at 18:00 with the report "done" (times
    of the day that begins at [d], in milliseconds). One record is added
    for that day; its sessions are 09:00 to 11:00 (7200 s) and 11:30 to
    18:00 (23400 s), its one break is 11:00 to 11:30 (1800 s), its
    activeSeconds are 30600 and its status is clocked-out. *)
Theorem working_day_scenario fmt u d c :
  noRecordOf u c →
  run (_ ← clockIn u d (d + 32400000);
       _ ← goAway u (d + 39600000);
       _ ← resume u (d + 41400000);
       clockOut fmt u (Some (jsstr "done")) (d + 64800000)) c =
    (Ok (Some (jsstr "Clocked out " ++ [8212]%N ++ jsstr " great work!"))
        (Some (ClockOutData (Some (d + 32400000)) (Some (d + 64800000))
                 30600 1800 (jsstr "done"))),
     c ++ [Attendance.mk u d (Some (d + 32400000)) (Some (d + 64800000))
             ClockedOut 30600 None
             [mkSegment (d + 32400000) (Some (d + 39600000)) 7200;
              mkSegment (d + 41400000) (Some (d + 64800000)) 23400]
             [mkSegment (d + 39600000) (Some (d + 41400000)) 1800]
             (jsstr "done")],
     [OpFindOne (Attendance.Active u); OpFindOne (Attendance.OnDate u d); OpSave;
      OpFindOne (Attendance.Active u); OpSave;
      OpFindOne (Attendance.Active u); OpSave;
      OpFindOne (Attendance.Active u); OpSave]).
Proof.
  intros Hno.
  assert (list_find (Attendance.matches (Attendance.Active u)) c = None) as Ha.
  { apply (noRecordOf_find u); [done | by intros r [? _]]. }
  assert (list_find (Attendance.matches (Attendance.OnDate u d)) c = None) as Hd.
  { apply (noRecordOf_find u); [done | by intros r [? _]]. }
  unfold run, mbind, M_bind.
  rewrite (clockIn_new u d _ c [] Ha Hd).
  erewrite goAway_running;
    [| apply find_added; [exact Ha | by split] | reflexivity | reflexivity].
  rewrite insert_added.
  erewrite resume_away; [| apply find_added; [exact Ha | by split] | reflexivity].
  rewrite insert_added.
  erewrite clockOut_running;
    [| apply find_added; [exact Ha | by split] | reflexivity..].
  rewrite insert_added. cbn -[jsstr Z.add Z.div].
  rewrite !elapsedSeconds_shift. reflexivity.
Qed.

Lemma working_day_scenario_witness :
  run (_ ← clockIn 7%nat 0 (0 + 32400000);
       _ ← goAway 7%nat (0 + 39600000);
       _ ← resume 7%nat (0 + 41400000);
       clockOut (λ _, []) 7%nat (Some (jsstr "done")) (0 + 64800000)) [] =
    (Ok (Some (jsstr "Clocked out " ++ [8212]%N ++ jsstr " great work!"))
        (Some (ClockOutData (Some (0 + 32400000)) (Some (0 + 64800000))
                 30600 1800 (jsstr "done"))),
     [] ++ [Attendance.mk 7%nat 0 (Some (0 + 32400000)) (Some (0 + 64800000))
             ClockedOut 30600 None
             [mkSegment (0 + 32400000) (Some (0 + 39600000)) 7200;
              mkSegment (0 + 41400000) (Some (0 + 64800000)) 23400]
             [mkSegment (0 + 39600000) (Some (0 + 41400000)) 1800]
             (jsstr "done")],
     [OpFindOne (Attendance.Active 7%nat); OpFindOne (Attendance.OnDate 7%nat 0);
      OpSave;
      OpFindOne (Attendance.Active 7%nat); OpSave;
      OpFindOne (Attendance.Active 7%nat); OpSave;
      OpFindOne (Attendance.Active 7%nat); OpSave]).
Proof.
  apply (working_day_scenario (λ _, []) 7%nat 0 []).
  intros r Hr. by apply elem_of_nil in Hr.
Defined.

(** ** Sessions across midnight *)

(** C3, as it is worded, fails for the actions: the lookup of go-away,
    resume and clock-out has no fallback to the current day. With a
    closed record for today in the collection, the two-phase lookup
    resolves that record, [getActiveRecord] resolves nothing, and a
    clock-out is refused where one over the two-phase lookup would go
    on. *)
Lemma getActiveRecord_has_no_fallback :
  (run (lookupActiveThenToday 7%nat 0)
       [Attendance.mk 7%nat 0 (Some 32400000) (Some 64800000) ClockedOut
          30600 None [mkSegment 32400000 (Some 64800000) 30600] []
          (jsstr "done")]).1.1
  = Some (0%nat,
          Attendance.mk 7%nat 0 (Some 32400000) (Some 64800000) ClockedOut
            30600 None [mkSegment 32400000 (Some 64800000) 30600] []
            (jsstr "done"))
  ∧ (run (getActiveRecord 7%nat)
         [Attendance.mk 7%nat 0 (Some 32400000) (Some 64800000) ClockedOut
            30600 None [mkSegment 32400000 (Some 64800000) 30600] []
            (jsstr "done")]).1.1
    = None
  ∧ (run (getActiveRecord 7%nat)
         [Attendance.mk 7%nat 0 (Some 32400000) (Some 64800000) ClockedOut
            30600 None [mkSegment 32400000 (Some 64800000) 30600] []
            (jsstr "done")]).1.1
    ≠ (run (lookupActiveThenToday 7%nat 0)
         [Attendance.mk 7%nat 0 (Some 32400000) (Some 64800000) ClockedOut
            30600 None [mkSegment 32400000 (Some 64800000) 30600] []
            (jsstr "done")]).1.1
  ∧ run (clockOut (λ _, []) 7%nat (Some (jsstr "more")) 72000000)
        [Attendance.mk 7%nat 0 (Some 32400000) (Some 64800000) ClockedOut
           30600 None [mkSegment 32400000 (Some 64800000) 30600] []
           (jsstr "done")]
    = (BadRequest (jsstr "You are not clocked in. Please clock in first."),
       [Attendance.mk 7%nat 0 (Some 32400000) (Some 64800000) ClockedOut
          30600 None [mkSegment 32400000 (Some 64800000) 30600] []
          (jsstr "done")],
       [OpFindOne (Attendance.Active 7%nat)]).
Proof. split_and!; [reflexivity | reflexivity | discriminate | reflexivity]. Qed.

(** C3, as the code has it. The actions (go-away, resume, clock-out) look
    up the running record of the user by status alone, whatever its date,
    and have no fallback; the today view does the same search first and
    falls back to the record of the current day. So a session opened by a
    clock-in on the day [d1] is, on any day [d2], still found by the
    actions and by the today view, a clock-in is refused, and the
    clock-out that closes it rewrites that one record, whose date stays
    [d1]: the collection has gained exactly one record. Once closed it is out of reach of the
    actions, the clock-out is refused, while the today view of [d1] falls
    back to it. *)
Theorem cross_day_session fmt u c d1 t1 d2 t2 report :
  noActiveRecord u c → noRecordOn u d1 c → reportMissing report = false →
  let opened :=
    Attendance.mk u d1 (Some t1) None ClockedIn 0 (Some t1) [] [] [] in
  let closed :=
    Attendance.mk u d1 (Some t1) (Some t2) ClockedOut (elapsedSeconds t1 t2)
      None [mkSegment t1 (Some t2) (elapsedSeconds t1 t2)] []
      (trim (default [] report)) in
  (run (clockIn u d1 t1) c).1.2 = c ++ [opened]
  ∧ run (getActiveRecord u) (c ++ [opened]) =
      (Some (length c, opened), c ++ [opened], [OpFindOne (Attendance.Active u)])
  ∧ (∃ t, run (getToday u d2 t2) (c ++ [opened]) =
            (Ok None (Some (TodayPayload t)), c ++ [opened],
             [OpFindOne (Attendance.Active u)])
          ∧ t_status t = ClockedIn ∧ t_clockIn t = Some t1)
  ∧ run (clockIn u d2 t2) (c ++ [opened]) =
      (BadRequest (jsstr "You are already clocked in. Please clock out first."),
       c ++ [opened], [OpFindOne (Attendance.Active u)])
  ∧ (run (clockOut fmt u report t2) (c ++ [opened])).1.2 = c ++ [closed]
  ∧ Attendance.date closed = d1
  ∧ run (getActiveRecord u) (c ++ [closed]) =
      (None, c ++ [closed], [OpFindOne (Attendance.Active u)])
  ∧ run (clockOut fmt u report t2) (c ++ [closed]) =
      (BadRequest (jsstr "You are not clocked in. Please clock in first."),
       c ++ [closed], [OpFindOne (Attendance.Active u)])
  ∧ (∃ t, run (getToday u d1 t2) (c ++ [closed]) =
            (Ok None (Some (TodayPayload t)), c ++ [closed],
             [OpFindOne (Attendance.Active u);
              OpFindOne (Attendance.OnDate u d1)])
          ∧ t_status t = ClockedOut ∧ t_clockOut t = Some t2).
Proof.
  intros Hna Hnd Hrep opened closed.
  pose proof (noActiveRecord_find _ _ Hna) as Ha.
  pose proof (noRecordOn_find _ _ _ Hnd) as Hd.
  assert (list_find (Attendance.matches (Attendance.Active u)) (c ++ [opened])
          = Some (length c, opened)) as Hopened.
  { apply find_added; [exact Ha | by split]. }
  assert (list_find (Attendance.matches (Attendance.Active u)) (c ++ [closed])
          = None) as Hclosed.
  { apply list_find_app_None. split; [exact Ha|]. cbn.
    destruct (decide _) as [[_ Hs]|_]; [discriminate Hs | done]. }
  split_and!.
  - unfold run. by rewrite (clockIn_new u d1 t1 c [] Ha Hd).
  - handler. by rewrite Hopened.
  - destruct (getToday_found u d2 t2 (c ++ [opened]) (length c) opened
                [OpFindOne (Attendance.Active u)]) as (t & Ht & Hs & Hi & _);
      [by left | by exists t].
  - handler. by rewrite Hopened.
  - unfold run.
    rewrite (clockOut_running fmt u report t2 _ [] (length c) opened t1
               Hopened eq_refl eq_refl Hrep).
    cbn -[trim]. apply insert_added.
  - reflexivity.
  - handler. by rewrite Hclosed.
  - handler. by rewrite Hclosed.
  - destruct (getToday_found u d1 t2 (c ++ [closed]) (length c) closed
                [OpFindOne (Attendance.Active u);
                 OpFindOne (Attendance.OnDate u d1)])
      as (t & Ht & Hs & _ & Ho & _); [|by exists t].
    right. split_and!; [exact Hclosed | | done].
    apply find_added; [exact Hd | by split].
Qed.

Lemma cross_day_session_witness :
  (run (clockOut (λ _, []) 7%nat (Some (jsstr "done")) 87600000)
       ([] ++ [Attendance.mk 7%nat 0 (Some 85800000) None ClockedIn 0
                 (Some 85800000) [] [] []])).1.2
  = [] ++ [Attendance.mk 7%nat 0 (Some 85800000) (Some 87600000) ClockedOut
             (elapsedSeconds 85800000 87600000) None
             [mkSegment 85800000 (Some 87600000)
                (elapsedSeconds 85800000 87600000)] []
             (trim (default [] (Some (jsstr "done"))))].
Proof.
  pose proof (cross_day_session (λ _, []) 7%nat [] 0 85800000 86400000
                87600000 (Some (jsstr "done"))
                (find_noActiveRecord 7%nat [] eq_refl)
                (find_noRecordOn 7%nat 0 [] eq_refl) eq_refl) as H.
  cbv zeta in H. exact (proj1 (proj2 (proj2 (proj2 (proj2 H))))).
Defined.

(** ** The accounting of active seconds *)

Lemma closedDurations_app ss ts :
  closedDurations (ss ++ ts) = closedDurations ss + closedDurations ts.
Proof.
  induction ss as [|s ss IH]; cbn; [done|].
  fold (closedDurations (ss ++ ts)) (closedDurations ss).
  destruct (seg_end s); lia.
Qed.

Lemma fresh_accounted r : fresh r → accounted r.
Proof. intros [Hs Hl]. split; rewrite Hl; [by rewrite Hs | constructor]. Qed.

Lemma closeSegment_accounted last now r :
  accounted r → accounted (closeSegment last now r).
Proof.
  intros [Hsum Hex]. split; cbn.
  - rewrite closedDurations_app, Hsum. cbn. lia.
  - apply Forall_app. split; [done|].
    constructor; [|constructor]. intros e [= <-]. reflexivity.
Qed.

Lemma handle_accounted fmt q c :
  Forall accounted c → Forall accounted (run (handle fmt q) c).1.2.
Proof.
  intros Hc. destruct q as [u start now | u now | u now | u report now]; cbn [handle].
  - handler. destruct (list_find _ c) as [[i r]|] eqn:Ha; cbn; [done|].
    destruct (list_find (Attendance.matches (Attendance.OnDate u start)) c)
      as [[i r]|] eqn:Hd; cbn.
    + apply Forall_written; [done|].
      by apply (Forall_lookup_1 _ _ _ _ Hc (find_lookup _ _ _ _ Hd)).
    + rewrite Hd. cbn. apply Forall_added; [done|]. split; [done | constructor].
  - handler. destruct (list_find _ c) as [[i r]|] eqn:Ha; cbn; [|done].
    pose proof (Forall_lookup_1 _ _ _ _ Hc (find_lookup _ _ _ _ Ha)) as Hr.
    destruct (decide (Attendance.status r = ClockedIn)); cbn; [|done].
    apply Forall_written; [done|].
    destruct (Attendance.lastActiveAt r) as [last|]; [|done].
    by apply (closeSegment_accounted last now) in Hr.
  - handler. destruct (list_find _ c) as [[i r]|] eqn:Ha; cbn; [|done].
    pose proof (Forall_lookup_1 _ _ _ _ Hc (find_lookup _ _ _ _ Ha)) as Hr.
    destruct (decide (Attendance.status r = Away)); cbn; [|done].
    by apply Forall_written.
  - handler. destruct (list_find _ c) as [[i r]|] eqn:Ha; cbn; [|done].
    pose proof (Forall_lookup_1 _ _ _ _ Hc (find_lookup _ _ _ _ Ha)) as Hr.
    destruct (reportMissing report); cbn; [done|].
    apply Forall_written; [done|].
    assert (accounted
              match Attendance.status r, Attendance.lastActiveAt r with
              | ClockedIn, Some last => closeSegment last now r
              | _, _ => r
              end) as Hr1.
    { destruct (Attendance.status r), (Attendance.lastActiveAt r); try done.
      by apply closeSegment_accounted. }
    revert Hr1. generalize (match Attendance.status r, Attendance.lastActiveAt r with
              | ClockedIn, Some last => closeSegment last now r
              | _, _ => r
              end). intros r1 Hr1.
    destruct (decide (Attendance.status r1 = Away)); cbn;
      destruct (truthy _); exact Hr1.
Qed.

Lemma serve_accounted fmt qs c :
  Forall accounted c → Forall accounted (serve fmt qs c).
Proof.
  revert c. induction qs as [|q qs IH]; intros c Hc; [done|].
  cbn. apply IH. by apply handle_accounted.
Qed.

(** C1. Start from a collection whose records are all fresh (no active
    seconds, no sessions), the empty collection included, and serve any
    sequence of clock-in, go-away, resume and clock-out requests, accepted
    or refused. Then in every record activeSeconds is the sum of the
    durations of the closed entries of sessions, and every closed entry
    lasts the whole seconds from its start to its end. In particular the
    activeSeconds that an accepted clock-out reports and stores is that
    sum for the record it closed. *)
Theorem activeSeconds_is_sum_of_sessions fmt qs c :
  Forall fresh c →
  Forall accounted (serve fmt qs c)
  ∧ ∀ u report now msg ci co secs tb rep,
      (run (clockOut fmt u report now) (serve fmt qs c)).1.1 =
        Ok msg (Some (ClockOutData ci co secs tb rep)) →
      ∃ i r,
        (run (clockOut fmt u report now) (serve fmt qs c)).1.2 !! i = Some r
        ∧ Attendance.user r = u
        ∧ Attendance.status r = ClockedOut
        ∧ Attendance.activeSeconds r = secs
        ∧ secs = closedDurations (Attendance.sessions r)
        ∧ Forall exactDuration (Attendance.sessions r).
Proof.
  intros Hfresh.
  assert (Forall accounted (serve fmt qs c)) as Hacc.
  { apply serve_accounted. eapply Forall_impl; [done | apply fresh_accounted]. }
  split; [done|].
  intros u report now msg ci co secs tb rep Hok.
  pose proof (handle_accounted fmt (ReqClockOut u report now) _ Hacc) as Hafter.
  cbn [handle] in Hafter.
  destruct (clockOut_accepted _ _ _ _ _ _ _ _ _ _ _ Hok)
    as (i & r & r' & Hfind & Hc' & Hu & _ & Hst & _ & _ & Hsecs).
  exists i, r'.
  assert ((run (clockOut fmt u report now) (serve fmt qs c)).1.2 !! i = Some r')
    as Hi.
  { rewrite Hc'. apply list_lookup_insert_eq.
    by apply find_lookup, lookup_lt_Some in Hfind. }
  destruct (Forall_lookup_1 _ _ _ _ Hafter Hi) as [Hsum Hex].
  split_and!; try done. by rewrite <- Hsecs.
Qed.

Lemma activeSeconds_is_sum_of_sessions_witness :
  Forall accounted
    (serve (λ _, [])
       [ReqClockIn 7%nat 0 32400000; ReqGoAway 7%nat 39600000;
        ReqResume 7%nat 41400000;
        ReqClockOut 7%nat (Some (jsstr "done")) 64800000]
       [Attendance.mk 3%nat 0 None None Absent 0 None [] [] []]).
Proof.
  apply (activeSeconds_is_sum_of_sessions (λ _, [])
           [ReqClockIn 7%nat 0 32400000; ReqGoAway 7%nat 39600000;
            ReqResume 7%nat 41400000;
            ReqClockOut 7%nat (Some (jsstr "done")) 64800000]
           [Attendance.mk 3%nat 0 None None Absent 0 None [] [] []]).
  constructor; [split; reflexivity | constructor].
Defined.

(** ** Administrative override *)

(** C8, as the code has it. On a day that already has a record, the
    override to absent zeroes activeSeconds and clears clockIn, clockOut
    and lastActiveAt; the override to present leaves a clocked-out record
    with activeSeconds 28800 and clockOut 28800 seconds after the start of
    the day, whose clockIn is the one the record already had, the start of
    the day standing in only when it had none. Either way the record is
    rewritten in place. *)
Theorem adminOverride_existing_record u start c i r :
  list_find (Attendance.matches (Attendance.OnDate u start)) c = Some (i, r) →
  (∃ r',
      run (adminOverride u start (jsstr "absent")) c =
        (Ok (Some (jsstr "Attendance marked as absent.")) None,
         <[i := r']> c,
         [OpFindOne (Attendance.OnDate u start); OpSave])
      ∧ Attendance.status r' = Absent
      ∧ Attendance.activeSeconds r' = 0
      ∧ Attendance.clockIn r' = None
      ∧ Attendance.clockOut r' = None
      ∧ Attendance.lastActiveAt r' = None)
  ∧ (∃ r',
      run (adminOverride u start (jsstr "present")) c =
        (Ok (Some (jsstr "Attendance marked as present.")) None,
         <[i := r']> c,
         [OpFindOne (Attendance.OnDate u start); OpSave])
      ∧ Attendance.status r' = ClockedOut
      ∧ Attendance.activeSeconds r' = 28800
      ∧ Attendance.clockOut r' = Some (start + 28800 * 1000)
      ∧ Attendance.clockIn r' = Some (default start (Attendance.clockIn r))).
Proof.
  intros Hfind. split.
  - handler. rewrite Hfind.
    replace (bool_decide (jsstr "absent" = jsstr "present")) with false by reflexivity.
    replace (bool_decide (jsstr "absent" = jsstr "absent")) with true by reflexivity.
    cbn -[jsstr]. eexists. split; [reflexivity|]. by cbn.
  - handler. rewrite Hfind.
    replace (bool_decide (jsstr "present" = jsstr "present")) with true by reflexivity.
    replace (bool_decide (jsstr "present" = jsstr "absent")) with false by reflexivity.
    cbn -[jsstr].
    destruct (Attendance.clockIn r) as [t|] eqn:Hin;
      (eexists; split; [reflexivity|]); cbn; rewrite ?Hin; done.
Qed.

Lemma adminOverride_existing_record_witness :
  (∃ r',
      run (adminOverride 7%nat 0 (jsstr "absent"))
          [Attendance.mk 7%nat 0 (Some 32400000) (Some 64800000) ClockedOut
             30600 None [mkSegment 32400000 (Some 64800000) 30600] []
             (jsstr "done")] =
        (Ok (Some (jsstr "Attendance marked as absent.")) None,
         <[0%nat := r']>
           [Attendance.mk 7%nat 0 (Some 32400000) (Some 64800000) ClockedOut
              30600 None [mkSegment 32400000 (Some 64800000) 30600] []
              (jsstr "done")],
         [OpFindOne (Attendance.OnDate 7%nat 0); OpSave])
      ∧ Attendance.status r' = Absent
      ∧ Attendance.activeSeconds r' = 0
      ∧ Attendance.clockIn r' = None
      ∧ Attendance.clockOut r' = None
      ∧ Attendance.lastActiveAt r' = None)
  ∧ (∃ r',
      run (adminOverride 7%nat 0 (jsstr "present"))
          [Attendance.mk 7%nat 0 (Some 32400000) (Some 64800000) ClockedOut
             30600 None [mkSegment 32400000 (Some 64800000) 30600] []
             (jsstr "done")] =
        (Ok (Some (jsstr "Attendance marked as present.")) None,
         <[0%nat := r']>
           [Attendance.mk 7%nat 0 (Some 32400000) (Some 64800000) ClockedOut
              30600 None [mkSegment 32400000 (Some 64800000) 30600] []
              (jsstr "done")],
         [OpFindOne (Attendance.OnDate 7%nat 0); OpSave])
      ∧ Attendance.status r' = ClockedOut
      ∧ Attendance.activeSeconds r' = 28800
      ∧ Attendance.clockOut r' = Some (0 + 28800 * 1000)
      ∧ Attendance.clockIn r' = Some (default 0 (Some 32400000))).
Proof.
  apply (adminOverride_existing_record 7%nat 0
           [Attendance.mk 7%nat 0 (Some 32400000) (Some 64800000) ClockedOut
              30600 None [mkSegment 32400000 (Some 64800000) 30600] []
              (jsstr "done")]
           0%nat
           (Attendance.mk 7%nat 0 (Some 32400000) (Some 64800000) ClockedOut
              30600 None [mkSegment 32400000 (Some 64800000) 30600] []
              (jsstr "done"))).
  reflexivity.
Defined.

(** C8, as it is worded, fails on the clock-in: a record that was clocked
    in at 09:00 and is overridden to present keeps 09:00 as its clockIn,
    it does not get the synthetic one (the start of the day), while its
    clockOut becomes 08:00. *)
Lemma adminOverride_present_keeps_clockIn :
  ∃ r',
    (run (adminOverride 7%nat 0 (jsstr "present"))
         [Attendance.mk 7%nat 0 (Some 32400000) (Some 64800000) ClockedOut
            30600 None [mkSegment 32400000 (Some 64800000) 30600] []
            (jsstr "done")]).1.2 = [r']
    ∧ Attendance.status r' = ClockedOut
    ∧ Attendance.activeSeconds r' = 28800
    ∧ Attendance.clockOut r' = Some 28800000
    ∧ Attendance.clockIn r' = Some 32400000
    ∧ Attendance.clockIn r' ≠ Some 0.
Proof. eexists. split_and!; [reflexivity..|discriminate]. Qed.

(** ** The timer and the status *)

Lemma timer_running (r : Attendance.doc) t :
  Attendance.status r = ClockedIn → Attendance.lastActiveAt r = Some t →
  timerMatchesStatus r.
Proof. intros Hs Hl. unfold timerMatchesStatus. rewrite Hs, Hl. by split. Qed.

Lemma timer_stopped (r : Attendance.doc) :
  Attendance.status r ≠ ClockedIn → Attendance.lastActiveAt r = None →
  timerMatchesStatus r.
Proof.
  intros Hs Hl. unfold timerMatchesStatus. rewrite Hl. split; [|done].
  by intros [? [=]].
Qed.

(** The four clock requests keep the timer in step with the status. *)
Lemma handle_timer fmt q c :
  Forall timerMatchesStatus c →
  Forall timerMatchesStatus (run (handle fmt q) c).1.2.
Proof.
  intros Hc. destruct q as [u start now | u now | u now | u report now]; cbn [handle].
  - handler. destruct (list_find _ c) as [[i r]|] eqn:Ha; cbn; [done|].
    destruct (list_find (Attendance.matches (Attendance.OnDate u start)) c)
      as [[i r]|] eqn:Hd; cbn.
    + apply Forall_written; [done|]. by apply (timer_running _ now).
    + rewrite Hd. cbn. apply Forall_added; [done|]. by apply (timer_running _ now).
  - handler. destruct (list_find _ c) as [[i r]|] eqn:Ha; cbn; [|done].
    destruct (decide (Attendance.status r = ClockedIn)); cbn; [|done].
    apply Forall_written; [done|]. by apply timer_stopped.
  - handler. destruct (list_find _ c) as [[i r]|] eqn:Ha; cbn; [|done].
    destruct (decide (Attendance.status r = Away)); cbn; [|done].
    apply Forall_written; [done|]. by apply (timer_running _ now).
  - handler. destruct (list_find _ c) as [[i r]|] eqn:Ha; cbn; [|done].
    destruct (reportMissing report); cbn; [done|].
    apply Forall_written; [done|].
    generalize (match Attendance.status r, Attendance.lastActiveAt r with
                | ClockedIn, Some last => closeSegment last now r
                | _, _ => r
                end). intros r1.
    destruct (decide (Attendance.status r1 = Away)); cbn;
      destruct (truthy _); by apply timer_stopped.
Qed.

(** So does the override to absent, and the override to present of a day
    that has no record yet or whose record carries no lastActiveAt. *)
Lemma adminOverride_timer u start status c :
  Forall timerMatchesStatus c →
  status = jsstr "absent"
  ∨ (status = jsstr "present"
     ∧ ∀ i r, list_find (Attendance.matches (Attendance.OnDate u start)) c
              = Some (i, r) → Attendance.lastActiveAt r = None) →
  Forall timerMatchesStatus (run (adminOverride u start status) c).1.2.
Proof.
  intros Hc [-> | [-> Hnone]]; handler.
  - replace (bool_decide (jsstr "absent" = jsstr "present")) with false by reflexivity.
    replace (bool_decide (jsstr "absent" = jsstr "absent")) with true by reflexivity.
    destruct (list_find _ c) as [[i r]|] eqn:Hd; cbn -[jsstr].
    + apply Forall_written; [done|]. by apply timer_stopped.
    + rewrite Hd. cbn -[jsstr]. apply Forall_added; [done|]. by apply timer_stopped.
  - replace (bool_decide (jsstr "present" = jsstr "present")) with true by reflexivity.
    replace (bool_decide (jsstr "present" = jsstr "absent")) with false by reflexivity.
    destruct (list_find _ c) as [[i r]|] eqn:Hd; cbn -[jsstr].
    + apply Forall_written; [done|]. apply timer_stopped.
      * by destruct (Attendance.clockIn r).
      * specialize (Hnone i r eq_refl). by destruct (Attendance.clockIn r).
    + rewrite Hd. cbn -[jsstr]. apply Forall_added; [done|]. by apply timer_stopped.
Qed.

(** C9 at the input where the code departs from it: a record that is
    clocked in, timer running since 09:00 (so lastActiveAt and the status
    agree), is overridden to present; the record written back is clocked
    out and still carries lastActiveAt, against the claim. The override to
    absent of the same record clears it. *)
Lemma adminOverride_present_keeps_lastActiveAt :
  timerMatchesStatus
    (Attendance.mk 7%nat 0 (Some 32400000) None ClockedIn 0
       (Some 32400000) [] [] [])
  ∧ (∃ r',
      (run (adminOverride 7%nat 0 (jsstr "present"))
           [Attendance.mk 7%nat 0 (Some 32400000) None ClockedIn 0
              (Some 32400000) [] [] []]).1.2 = [r']
      ∧ Attendance.status r' = ClockedOut
      ∧ Attendance.lastActiveAt r' = Some 32400000
      ∧ ¬ timerMatchesStatus r')
  ∧ (∃ r',
      (run (adminOverride 7%nat 0 (jsstr "absent"))
           [Attendance.mk 7%nat 0 (Some 32400000) None ClockedIn 0
              (Some 32400000) [] [] []]).1.2 = [r']
      ∧ Attendance.status r' = Absent
      ∧ Attendance.lastActiveAt r' = None
      ∧ timerMatchesStatus r').
Proof.
  split_and!.
  - by apply (timer_running _ 32400000).
  - eexists. split_and!; [reflexivity.. |].
    intros [H _]. by specialize (H (mk_is_Some _ _ eq_refl)).
  - eexists. split_and!; [reflexivity.. |]. by apply timer_stopped.
Qed.

(** ** Monthly history *)

Example Math_round_ties :
  Math_round 2.5 = 3%float ∧ Math_round (-2.5) = (-2)%float
  ∧ Math_round 0.5 = 1%float ∧ Math_round (-0.5) = (-0)%float
  ∧ Math_round 89.5 = 90%float ∧ Math_round 2.25 = 2%float
  ∧ Math_round (-2.75) = (-3)%float.
Proof. split_and!; reflexivity. Qed.

Example Math_round_agrees_with_exact :
  roundsAgree 2001 (-1000) 0.0625 = true
  ∧ roundsAgree 2001 (-1000) 0.5 = true
  ∧ roundsAgree 201 (-100) 1125899906842624 = true
  ∧ roundsAgree 201 (-100) 2251799813685248 = true.
Proof. split_and!; vm_compute; reflexivity. Qed.

Example workingHours_values :
  workingHours 32400 = 9%float ∧ workingHours 180 = (1 / 10)%float
  ∧ workingHours 179 = 0%float ∧ workingHours 0 = 0%float.
Proof. split_and!; reflexivity. Qed.

Lemma hoursAgree_sound n : ∀ t k r,
  hoursAgree n t k r = true →
  t + 180 = 360 * k + r → 0 ≤ r < 360 →
  ∀ x, t ≤ x < t + Z.of_nat n →
    workingHours x = (Z2float (nearestTenth x) / 10)%float.
Proof.
  induction n as [|n IH]; intros t k r Hcheck Hk Hr x Hx; [lia|].
  cbn [hoursAgree] in Hcheck.
  destruct (PrimFloat.Leibniz.eqb (workingHours t) (Z2float k / 10)%float)
    eqn:Heq; [|discriminate].
  apply FloatAxioms.Leibniz.eqb_spec in Heq.
  destruct (decide (x = t)) as [->|Hne].
  - rewrite Heq. unfold nearestTenth. do 2 f_equal.
    apply (Z.div_unique_pos _ _ _ r); lia.
  - destruct (r =? 359) eqn:Hr359.
    + apply Z.eqb_eq in Hr359.
      apply (IH (t + 1) (k + 1) 0 Hcheck); lia.
    + apply Z.eqb_neq in Hr359.
      apply (IH (t + 1) k (r + 1) Hcheck); lia.
Qed.

Lemma hoursAgree_month :
  hoursAgree (Z.to_nat (monthSeconds + 1)) 0 0 180 = true.
Proof. vm_compute. reflexivity. Qed.

(** On binary64 doubles the hour total is the nearest tenth, for every
    total up to a month of seconds. *)
Lemma workingHours_nearestTenth total :
  0 ≤ total ≤ monthSeconds →
  workingHours total = (Z2float (nearestTenth total) / 10)%float.
Proof.
  intros Ht.
  apply (hoursAgree_sound _ 0 0 180 hoursAgree_month); [reflexivity | lia |].
  rewrite Z2Nat.id; unfold monthSeconds in *; lia.
Qed.

Lemma nearestTenth_nearest total :
  360 * nearestTenth total - 180 ≤ total < 360 * nearestTenth total + 180.
Proof.
  unfold nearestTenth.
  pose proof (Z.div_mod (total + 180) 360 ltac:(lia)).
  pose proof (Z.mod_pos_bound (total + 180) 360 ltac:(lia)). lia.
Qed.

Lemma filter_present (records : list HistoryRecord) :
  filter (λ r, countsAsPresent (h_status r) = true) records
  = filter (λ r, h_status r ≠ Absent) records.
Proof.
  induction records as [|r records IH]; [done|].
  rewrite !filter_cons, IH.
  destruct (h_status r); cbn; repeat case_decide; done.
Qed.

Lemma totalActiveSeconds_sum (records : list HistoryRecord) :
  totalActiveSeconds records = foldr Z.add 0 (h_activeSeconds <$> records).
Proof.
  unfold totalActiveSeconds.
  assert (∀ a, foldl (λ sum r, sum + h_activeSeconds r) a records
               = a + foldr Z.add 0 (h_activeSeconds <$> records)) as H.
  { induction records as [|r records IH]; intros a; cbn; [lia|].
    rewrite IH. lia. }
  rewrite H. lia.
Qed.

(** C7. The history view answers with the records of the user in the
    range, by date, and with their statistics: daysPresent counts exactly
    the records whose status is not absent, and totalWorkingHours is the
    sum of their activeSeconds divided by 3600 and rounded to the nearest
    tenth, here on binary64 doubles for every sum up to a month of
    seconds. Records with 28800 seconds, status absent and 3600 seconds
    give daysPresent 2 and totalWorkingHours 9.0. The view only reads. *)
Theorem history_aggregation u month year start end_ c :
  let records :=
    lean <$> merge_sort byDate
               (filter (Attendance.matches (Attendance.InRange u start end_)) c) in
  let total := foldr Z.add 0 (h_activeSeconds <$> records) in
  (∃ hours,
      run (getHistory u month year start end_) c =
        (Ok None
            (Some (HistoryPayload month year records
                     (mkStats
                        (length (filter (λ r, h_status r ≠ Absent) records))
                        hours))),
         c, [OpFind (Attendance.InRange u start end_)])
      ∧ (0 ≤ total ≤ monthSeconds →
         hours = (Z2float (nearestTenth total) / 10)%float
         ∧ 360 * nearestTenth total - 180 ≤ total
         ∧ total < 360 * nearestTenth total + 180))
  ∧ run (getHistory 7%nat 1 2026 0 2678399999)
        [Attendance.mk 7%nat 0 (Some 32400000) (Some 61200000) ClockedOut
           28800 None [mkSegment 32400000 (Some 61200000) 28800] []
           (jsstr "done");
         Attendance.mk 7%nat 86400000 None None Absent 0 None [] [] [];
         Attendance.mk 7%nat 172800000 (Some 205200000) (Some 208800000)
           ClockedOut 3600 None [mkSegment 205200000 (Some 208800000) 3600] []
           (jsstr "done")]
    = (Ok None
          (Some (HistoryPayload 1 2026
                   [mkHistoryRecord 0 ClockedOut (Some 32400000) (Some 61200000)
                      28800 (jsstr "done");
                    mkHistoryRecord 86400000 Absent None None 0 [];
                    mkHistoryRecord 172800000 ClockedOut (Some 205200000)
                      (Some 208800000) 3600 (jsstr "done")]
                   (mkStats 2 9%float))),
       [Attendance.mk 7%nat 0 (Some 32400000) (Some 61200000) ClockedOut
           28800 None [mkSegment 32400000 (Some 61200000) 28800] []
           (jsstr "done");
         Attendance.mk 7%nat 86400000 None None Absent 0 None [] [] [];
         Attendance.mk 7%nat 172800000 (Some 205200000) (Some 208800000)
           ClockedOut 3600 None [mkSegment 205200000 (Some 208800000) 3600] []
           (jsstr "done")],
       [OpFind (Attendance.InRange 7%nat 0 2678399999)]).
Proof.
  intros records total. split; [|vm_compute; reflexivity].
  exists (workingHours (totalActiveSeconds records)).
  split.
  - handler. cbn -[workingHours merge_sort]. fold records.
    by rewrite filter_present.
  - intros Ht. rewrite totalActiveSeconds_sum. fold total.
    pose proof (nearestTenth_nearest total).
    split; [by apply workingHours_nearestTenth | lia].
Qed.

(** ** What one clock request does to the collection *)

(** Reading a field of a record after some assignments. *)
Ltac fields :=
  cbv [Attendance.set_clockIn Attendance.set_clockOut Attendance.set_status
       Attendance.set_activeSeconds Attendance.set_lastActiveAt
       Attendance.set_sessions Attendance.set_breaks
       Attendance.set_dailyReport closeSegment];
  cbn [Attendance.user Attendance.date Attendance.clockIn Attendance.clockOut
       Attendance.status Attendance.activeSeconds Attendance.lastActiveAt
       Attendance.sessions Attendance.breaks Attendance.dailyReport].

Lemma closeCurrentBreak_starts now bs :
  seg_start <$> closeCurrentBreak now bs = seg_start <$> bs.
Proof.
  induction bs as [|b bs IH]; [done|].
  destruct bs as [|b' bs]; cbn.
  - unfold closeBreak. by destruct (seg_end b).
  - cbn in IH. by rewrite IH.
Qed.

Lemma continues_refl r : continues r r.
Proof. by split_and!. Qed.

Lemma closeSegment_continues last now r : continues r (closeSegment last now r).
Proof. split_and!; try done. cbn. by apply prefix_app_r. Qed.

(** The three outcomes of a clock request: a refusal that leaves
    everything in place, a record of the requester rewritten in place by
    one that continues it, or a record of the requester added at the
    end. *)
Lemma handle_outcome fmt q c :
  (∃ m, run (handle fmt q) c =
          (BadRequest m, c, [OpFindOne (Attendance.Active (requester q))]))
  ∨ (∃ m d i r r' l,
        run (handle fmt q) c = (Ok m d, <[i := r']> c, l ++ [OpSave])
        ∧ c !! i = Some r
        ∧ Attendance.user r = requester q
        ∧ continues r r'
        ∧ (Attendance.isActiveStatus (Attendance.status r) = true
           ∨ noActiveRecord (requester q) c)
        ∧ Forall (λ op, op ≠ OpSave) l)
  ∨ (∃ m d r' l,
        run (handle fmt q) c = (Ok m d, c ++ [r'], l ++ [OpSave])
        ∧ Attendance.user r' = requester q
        ∧ noActiveRecord (requester q) c
        ∧ noRecordOn (requester q) (Attendance.date r') c
        ∧ Attendance.status r' = ClockedIn
        ∧ Forall (λ op, op ≠ OpSave) l).
Proof.
  destruct q as [u start now | u now | u now | u report now]; cbn [handle requester].
  - handler. destruct (list_find _ c) as [[i r]|] eqn:Ha; cbn -[jsstr].
    { left. by eexists. }
    destruct (list_find (Attendance.matches (Attendance.OnDate u start)) c)
      as [[i r]|] eqn:Hd; cbn -[jsstr].
    + right. left.
      exists (Some (jsstr "Clocked in successfully " ++ [9201; 65039]%N)).
      eexists _, i, r, _,
        [OpFindOne (Attendance.Active u); OpFindOne (Attendance.OnDate u start)].
      split; [reflexivity|].
      pose proof Hd as (Hi & [Hu _] & _)%list_find_Some.
      split_and!; try done.
      * right. by apply find_noActiveRecord.
      * repeat constructor; discriminate.
    + rewrite Hd. cbn -[jsstr]. right. right.
      exists (Some (jsstr "Clocked in successfully " ++ [9201; 65039]%N)).
      eexists _, _,
        [OpFindOne (Attendance.Active u); OpFindOne (Attendance.OnDate u start)].
      split; [reflexivity|].
      split_and!; try done.
      * by apply find_noActiveRecord.
      * by apply find_noRecordOn.
      * repeat constructor; discriminate.
  - handler. destruct (list_find _ c) as [[i r]|] eqn:Ha; cbn -[jsstr];
      [|left; by eexists].
    destruct (decide (Attendance.status r = ClockedIn)); cbn -[jsstr];
      [|left; by eexists].
    right. left.
    pose proof Ha as (Hi & [Hu Hact] & _)%list_find_Some.
    eexists _, _, i, r, _, [OpFindOne (Attendance.Active u)].
    split; [reflexivity|]. split_and!; try done; [| by left |].
    + destruct (Attendance.lastActiveAt r) as [last|]; cbn.
      * split_and!; try done; cbn; [by apply prefix_app_r|].
        rewrite fmap_app. by apply prefix_app_r.
      * split_and!; try done; cbn. rewrite fmap_app. by apply prefix_app_r.
    + repeat constructor; discriminate.
  - handler. destruct (list_find _ c) as [[i r]|] eqn:Ha; cbn -[jsstr];
      [|left; by eexists].
    destruct (decide (Attendance.status r = Away)); cbn -[jsstr];
      [|left; by eexists].
    right. left.
    pose proof Ha as (Hi & [Hu Hact] & _)%list_find_Some.
    eexists _, _, i, r, _, [OpFindOne (Attendance.Active u)].
    split; [reflexivity|]. split_and!; try done; [| by left |].
    + split_and!; try done; cbn. by rewrite closeCurrentBreak_starts.
    + repeat constructor; discriminate.
  - handler. destruct (list_find _ c) as [[i r]|] eqn:Ha; cbn -[jsstr trim];
      [|left; by eexists].
    destruct (reportMissing report); cbn -[jsstr trim]; [left; by eexists|].
    right. left.
    pose proof Ha as (Hi & [Hu Hact] & _)%list_find_Some.
    eexists _, _, i, r, _, [OpFindOne (Attendance.Active u)].
    split; [reflexivity|]. split_and!; try done; [| by left |].
    + pose proof (closeSegment_continues) as Hseg.
      assert (continues r
                match Attendance.status r, Attendance.lastActiveAt r with
                | ClockedIn, Some last => closeSegment last now r
                | _, _ => r
                end) as Hr1.
      { destruct (Attendance.status r), (Attendance.lastActiveAt r);
          auto using continues_refl. }
      revert Hr1.
      generalize (match Attendance.status r, Attendance.lastActiveAt r with
                  | ClockedIn, Some last => closeSegment last now r
                  | _, _ => r
                  end).
      intros r1 (H1 & H2 & H3 & H4 & H5 & H6).
      destruct (decide (Attendance.status r1 = Away)); cbn -[trim];
        destruct (truthy _) eqn:Ht; cbn -[trim] in Ht; split_and!; try done;
        fields; rewrite ?closeCurrentBreak_starts; try done.
      all: try (etrans; [exact H6|]; by apply prefix_app_r).
      all: destruct (Attendance.dailyReport r1) eqn:Hrep;
           try discriminate Ht;
           apply prefix_nil_inv in H6; rewrite H6; apply prefix_nil.
    + repeat constructor; discriminate.
Qed.

(** The two outcomes of an override: the record of that user and day
    rewritten in place, or one added for them; either way the record
    written is not running, and the write goes through. *)
Lemma adminOverride_outcome u start status c :
  (∃ m i r r',
      run (adminOverride u start status) c =
        (Ok m None, <[i := r']> c,
         [OpFindOne (Attendance.OnDate u start); OpSave])
      ∧ c !! i = Some r
      ∧ Attendance.user r = u ∧ Attendance.date r = start
      ∧ Attendance.user r' = u ∧ Attendance.date r' = start
      ∧ Attendance.isActiveStatus (Attendance.status r') = false)
  ∨ (∃ m r',
      run (adminOverride u start status) c =
        (Ok m None, c ++ [r'],
         [OpFindOne (Attendance.OnDate u start); OpSave])
      ∧ noRecordOn u start c
      ∧ Attendance.user r' = u ∧ Attendance.date r' = start
      ∧ Attendance.isActiveStatus (Attendance.status r') = false).
Proof.
  handler.
  destruct (list_find _ c) as [[i r]|] eqn:Hd; cbn -[jsstr].
  - left. pose proof Hd as (Hi & [Hu Hdate] & _)%list_find_Some.
    destruct (bool_decide (status = jsstr "absent")); cbn -[jsstr].
    + eexists _, i, r, _. split; [reflexivity|]. split_and!; try done.
      by destruct (bool_decide (status = jsstr "present")).
    + eexists _, i, r, _. split; [reflexivity|]. split_and!; try done;
        destruct (Attendance.clockIn r);
        by destruct (bool_decide (status = jsstr "present")).
  - rewrite Hd. cbn -[jsstr]. right. eexists _, _. split; [reflexivity|].
    split_and!; try done; [by apply find_noRecordOn|].
    by destruct (bool_decide (status = jsstr "present")).
Qed.

(** X1. A clock request that is refused has read the collection once, for
    the running record of the requester, and has left every record as it
    was. *)
Theorem refused_request_changes_nothing fmt q c m c' l :
  run (handle fmt q) c = (BadRequest m, c', l) →
  c' = c ∧ l = [OpFindOne (Attendance.Active (requester q))].
Proof.
  intros Hrun.
  destruct (handle_outcome fmt q c)
    as [(m' & H) | [(m' & d & i & r & r' & l' & H & _)
                   | (m' & d & r' & l' & H & _)]];
    rewrite H in Hrun; by inversion Hrun.
Qed.

Lemma refused_request_changes_nothing_witness :
  [Attendance.mk 7%nat 0 (Some 32400000) None Away 7200 None
     [mkSegment 32400000 (Some 39600000) 7200] [mkSegment 39600000 None 0] []]
  = [Attendance.mk 7%nat 0 (Some 32400000) None Away 7200 None
       [mkSegment 32400000 (Some 39600000) 7200] [mkSegment 39600000 None 0] []]
  ∧ [OpFindOne (Attendance.Active 7%nat)]
    = [OpFindOne (Attendance.Active (requester (ReqGoAway 7%nat 40000000)))].
Proof.
  apply (refused_request_changes_nothing (λ _, []) (ReqGoAway 7%nat 40000000)
           [Attendance.mk 7%nat 0 (Some 32400000) None Away 7200 None
              [mkSegment 32400000 (Some 39600000) 7200]
              [mkSegment 39600000 None 0] []]
           (jsstr "You must be clocked in to go away")).
  reflexivity.
Defined.








(** ** Invariants of the collection *)

Lemma lookup_insert_cases (c : Collection) i r' j a :
  <[i := r']> c !! j = Some a →
  (j = i ∧ a = r') ∨ (j ≠ i ∧ c !! j = Some a).
Proof.
  intros H. destruct (decide (j = i)) as [->|Hne].
  - left. split; [done|].
    destruct (decide (i < length c)%nat) as [Hlt|Hge].
    + rewrite list_lookup_insert_eq in H by done. congruence.
    + rewrite list_insert_ge in H by lia.
      apply lookup_lt_Some in H. lia.
  - right. by rewrite list_lookup_insert_ne in H.
Qed.

Lemma lookup_added_cases (c : Collection) r' j a :
  (c ++ [r']) !! j = Some a →
  (j = length c ∧ a = r') ∨ c !! j = Some a.
Proof.
  intros [H | [Hlen H]]%lookup_app_Some; [by right|].
  left. destruct (j - length c)%nat as [|n] eqn:Hn; cbn in H; [|done].
  split; [lia | congruence].
Qed.

Lemma oneActive_written c i r r' :
  c !! i = Some r → Attendance.user r' = Attendance.user r →
  Attendance.isActiveStatus (Attendance.status r) = true
  ∨ noActiveRecord (Attendance.user r) c
  ∨ Attendance.isActiveStatus (Attendance.status r') = false →
  oneActive c → oneActive (<[i := r']> c).
Proof.
  intros Hi Hu Hwhy Hone j k a b Hj Hk Hab Ha Hb.
  apply lookup_insert_cases in Hj as [[-> ->] | [Hji Hj]];
    apply lookup_insert_cases in Hk as [[-> ->] | [Hki Hk]]; try done.
  - destruct Hwhy as [Hr | [Hno | Hr']].
    + apply (Hone i k r b); congruence.
    + exfalso. apply (Hno b); [by eapply list_elem_of_lookup_2|].
      split; [congruence | done].
    + congruence.
  - destruct Hwhy as [Hr | [Hno | Hr']].
    + apply (Hone j i a r); congruence.
    + exfalso. apply (Hno a); [by eapply list_elem_of_lookup_2|].
      split; [congruence | done].
    + congruence.
  - by apply (Hone j k a b).
Qed.

Lemma oneActive_added c r' :
  noActiveRecord (Attendance.user r') c
  ∨ Attendance.isActiveStatus (Attendance.status r') = false →
  oneActive c → oneActive (c ++ [r']).
Proof.
  intros Hwhy Hone j k a b Hj Hk Hab Ha Hb.
  apply lookup_added_cases in Hj as [[-> ->] | Hj];
    apply lookup_added_cases in Hk as [[-> ->] | Hk]; try done.
  - destruct Hwhy as [Hno | Hr']; [|congruence].
    exfalso. apply (Hno b); [by eapply list_elem_of_lookup_2|].
    split; [congruence | done].
  - destruct Hwhy as [Hno | Hr']; [|congruence].
    exfalso. apply (Hno a); [by eapply list_elem_of_lookup_2|].
    split; [congruence | done].
  - by apply (Hone j k a b).
Qed.

Lemma uniqueDays_written c i r r' :
  c !! i = Some r → Attendance.user r' = Attendance.user r →
  Attendance.date r' = Attendance.date r →
  uniqueDays c → uniqueDays (<[i := r']> c).
Proof.
  intros Hi Hu Hd Huniq j k a b Hj Hk Hab Hdab.
  apply lookup_insert_cases in Hj as [[-> ->] | [Hji Hj]];
    apply lookup_insert_cases in Hk as [[-> ->] | [Hki Hk]]; try done.
  - apply (Huniq i k r b); congruence.
  - apply (Huniq j i a r); congruence.
  - by apply (Huniq j k a b).
Qed.

Lemma uniqueDays_added c r' :
  noRecordOn (Attendance.user r') (Attendance.date r') c →
  uniqueDays c → uniqueDays (c ++ [r']).
Proof.
  intros Hno Huniq j k a b Hj Hk Hab Hdab.
  apply lookup_added_cases in Hj as [[-> ->] | Hj];
    apply lookup_added_cases in Hk as [[-> ->] | Hk]; try done.
  - exfalso. apply (Hno b); [by eapply list_elem_of_lookup_2 | by split].
  - exfalso. apply (Hno a); [by eapply list_elem_of_lookup_2 | by split].
  - by apply (Huniq j k a b).
Qed.

Lemma perform_oneActive fmt a c :
  oneActive c → oneActive (run (perform fmt a) c).1.2.
Proof.
  intros Hone. destruct a as [q | u start status]; cbn [perform].
  - destruct (handle_outcome fmt q c)
      as [(m' & H) | [(m' & d & i & r & r' & l' & H & Hi & Hu & Hc & Hwhy & _)
                     | (m' & d & r' & l' & H & Hu & Hna & _)]];
      rewrite H; cbn; [done | |].
    + destruct Hc as (Hu' & _).
      apply (oneActive_written c i r r'); try done.
      destruct Hwhy as [?|?]; [by left | right; left; by rewrite Hu].
    + apply oneActive_added; [|done]. left. by rewrite Hu.
  - destruct (adminOverride_outcome u start status c)
      as [(m & i & r & r' & H & Hi & Hu & _ & Hu' & _ & Hna)
         | (m & r' & H & _ & _ & _ & Hna)]; rewrite H; cbn.
    + apply (oneActive_written c i r r'); try done; [congruence | auto].
    + apply oneActive_added; auto.
Qed.

Lemma perform_uniqueDays fmt a c :
  uniqueDays c → uniqueDays (run (perform fmt a) c).1.2.
Proof.
  intros Huniq. destruct a as [q | u start status]; cbn [perform].
  - destruct (handle_outcome fmt q c)
      as [(m' & H) | [(m' & d & i & r & r' & l' & H & Hi & Hu & Hc & _)
                     | (m' & d & r' & l' & H & Hu & _ & Hnd & _)]];
      rewrite H; cbn; [done | |].
    + destruct Hc as (Hu' & Hd' & _). by apply (uniqueDays_written c i r r').
    + apply uniqueDays_added; [|done]. by rewrite Hu.
  - destruct (adminOverride_outcome u start status c)
      as [(m & i & r & r' & H & Hi & Hu & Hd & Hu' & Hd' & _)
         | (m & r' & H & Hnd & Hu' & Hd' & _)]; rewrite H; cbn.
    + apply (uniqueDays_written c i r r'); [done | congruence.. | done].
    + apply uniqueDays_added; [|done]. by rewrite Hu', Hd'.
Qed.

(** X5. If no user has two running records, none has after any sequence of
    clock requests and overrides: a clock-in only starts a session when the
    user has none running, wherever in the calendar, and an override never
    leaves a running record. *)
Theorem one_running_session_per_user fmt as_ c :
  oneActive c → oneActive (performAll fmt as_ c).
Proof.
  revert c. induction as_ as [|a as_ IH]; intros c Hc; [done|].
  cbn. apply IH. by apply perform_oneActive.
Qed.

Lemma oneActive_nil : oneActive [].
Proof. intros i j r r' Hi. by rewrite lookup_nil in Hi. Qed.

Lemma one_running_session_per_user_witness :
  oneActive
    (performAll (λ _, [])
       [Clock (ReqClockIn 7%nat 0 85800000);
        Clock (ReqClockIn 7%nat 86400000 87000000);
        Override 7%nat 86400000 (jsstr "present");
        Clock (ReqGoAway 7%nat 88000000)] []).
Proof.
  apply (one_running_session_per_user (λ _, [])
           [Clock (ReqClockIn 7%nat 0 85800000);
            Clock (ReqClockIn 7%nat 86400000 87000000);
            Override 7%nat 86400000 (jsstr "present");
            Clock (ReqGoAway 7%nat 88000000)] []).
  exact oneActive_nil.
Defined.

(** X6. If no two records share user and day, none do after any sequence
    of clock requests and overrides: the collection keeps to the unique
    index by itself, since records are created only for a user and day
    that has none and never change user or day. *)
Theorem one_record_per_user_and_day fmt as_ c :
  uniqueDays c → uniqueDays (performAll fmt as_ c).
Proof.
  revert c. induction as_ as [|a as_ IH]; intros c Hc; [done|].
  cbn. apply IH. by apply perform_uniqueDays.
Qed.

Lemma uniqueDays_nil : uniqueDays [].
Proof. intros i j r r' Hi. by rewrite lookup_nil in Hi. Qed.

Lemma one_record_per_user_and_day_witness :
  uniqueDays
    (performAll (λ _, [])
       [Clock (ReqClockIn 7%nat 0 32400000);
        Clock (ReqClockOut 7%nat (Some (jsstr "done")) 64800000);
        Clock (ReqClockIn 7%nat 0 70000000);
        Override 7%nat 0 (jsstr "absent");
        Override 7%nat 86400000 (jsstr "present")] []).
Proof.
  apply (one_record_per_user_and_day (λ _, [])
           [Clock (ReqClockIn 7%nat 0 32400000);
            Clock (ReqClockOut 7%nat (Some (jsstr "done")) 64800000);
            Clock (ReqClockIn 7%nat 0 70000000);
            Override 7%nat 0 (jsstr "absent");
            Override 7%nat 86400000 (jsstr "present")] []).
  exact uniqueDays_nil.
Defined.

(** ** The state machine *)

Lemma find_written (q : Attendance.Query) (c : Collection) i r' :
  (i < length c)%nat → Attendance.matches q r' →
  (∀ j a, (j < i)%nat → c !! j = Some a → ¬ Attendance.matches q a) →
  list_find (Attendance.matches q) (<[i := r']> c) = Some (i, r').
Proof.
  intros Hlt Hr' Hbefore. apply list_find_Some. split_and!.
  - by apply list_lookup_insert_eq.
  - done.
  - intros j y Hj Hji. rewrite list_lookup_insert_ne in Hj by lia.
    by apply (Hbefore j).
Qed.

Lemma lookup_added_ne (c : Collection) r' j :
  j ≠ length c → (c ++ [r']) !! j = c !! j.
Proof.
  intros Hne. destruct (decide (j < length c)%nat).
  - by apply lookup_app_l.
  - rewrite !lookup_ge_None_2; [done | lia |]. rewrite length_app. cbn. lia.
Qed.

Lemma resolved_none u c :
  resolved u c = None ↔
  list_find (Attendance.matches (Attendance.Active u)) c = None.
Proof. unfold resolved. by destruct (list_find _ c) as [[??]|]. Qed.

(** A clock request is refused exactly when it is not in order; when it
    is, one record of the requester is written with the status and the
    timer of the request, no running record of the requester comes before
    it, and every other position is as before. *)
Lemma handle_transition fmt q c :
  (¬ allowed q c
   ∧ (∃ m, (run (handle fmt q) c).1.1 = BadRequest m)
   ∧ (run (handle fmt q) c).1.2 = c)
  ∨ (allowed q c
     ∧ accepted (run (handle fmt q) c).1.1
     ∧ ∃ i r',
         (run (handle fmt q) c).1.2 !! i = Some r'
         ∧ Attendance.user r' = requester q
         ∧ Attendance.status r' = target q
         ∧ Attendance.lastActiveAt r' = timerAfter q
         ∧ (∀ j a, (j < i)%nat → (run (handle fmt q) c).1.2 !! j = Some a →
                   ¬ Attendance.matches (Attendance.Active (requester q)) a)
         ∧ (∀ j, j ≠ i → (run (handle fmt q) c).1.2 !! j = c !! j)
         ∧ (Attendance.isActiveStatus (target q) = false →
            ∃ r, c !! i = Some r
                 ∧ Attendance.matches (Attendance.Active (requester q)) r)).
Proof.
  destruct q as [u start now | u now | u now | u report now];
    cbn [handle requester allowed target timerAfter]; unfold resolved.
  - handler. destruct (list_find _ c) as [[i r]|] eqn:Ha; cbn -[jsstr].
    { left. split_and!; [done | by eexists | done]. }
    right. split; [done|].
    pose proof (proj1 (list_find_none_iff _ _) Ha) as Hnone.
    destruct (list_find (Attendance.matches (Attendance.OnDate u start)) c)
      as [[i r]|] eqn:Hd; cbn -[jsstr].
    + pose proof Hd as (Hi & [Hu _] & _)%list_find_Some.
      split; [done|]. eexists i, _. split_and!.
      * apply list_lookup_insert_eq. by eapply lookup_lt_Some.
      * done.
      * done.
      * done.
      * intros j a Hji Hj. rewrite list_lookup_insert_ne in Hj by lia.
        apply Hnone. by eapply list_elem_of_lookup_2.
      * intros j Hji. by rewrite list_lookup_insert_ne.
      * discriminate.
    + rewrite Hd. cbn -[jsstr]. split; [done|].
      eexists (length c), _. split_and!.
      * by rewrite lookup_app_r, Nat.sub_diag.
      * done.
      * done.
      * done.
      * intros j a Hji Hj. rewrite lookup_app_l in Hj by done.
        apply Hnone. by eapply list_elem_of_lookup_2.
      * intros j Hji. by apply lookup_added_ne.
      * discriminate.
  - handler. destruct (list_find _ c) as [[i r]|] eqn:Ha; cbn -[jsstr];
      [|left; split_and!; [by intros (? & [=] & _) | by eexists | done]].
    pose proof Ha as (Hi & Hact & Hfirst)%list_find_Some.
    destruct (decide (Attendance.status r = ClockedIn)); cbn -[jsstr];
      [|left; split_and!; [by intros (? & [= <-] & ?) | by eexists | done]].
    right. split; [by exists r|]. split; [done|]. eexists i, _. split_and!.
    + apply list_lookup_insert_eq. by eapply lookup_lt_Some.
    + destruct Hact as [Hu _].
      by destruct (Attendance.lastActiveAt r).
    + done.
    + done.
    + intros j a Hji Hj. rewrite list_lookup_insert_ne in Hj by lia.
      by apply (Hfirst j).
    + intros j Hji. by rewrite list_lookup_insert_ne.
    + by exists r.
  - handler. destruct (list_find _ c) as [[i r]|] eqn:Ha; cbn -[jsstr];
      [|left; split_and!; [by intros (? & [=] & _) | by eexists | done]].
    pose proof Ha as (Hi & Hact & Hfirst)%list_find_Some.
    destruct (decide (Attendance.status r = Away)); cbn -[jsstr];
      [|left; split_and!; [by intros (? & [= <-] & ?) | by eexists | done]].
    right. split; [by exists r|]. split; [done|]. eexists i, _. split_and!.
    + apply list_lookup_insert_eq. by eapply lookup_lt_Some.
    + by destruct Hact as [Hu _].
    + done.
    + done.
    + intros j a Hji Hj. rewrite list_lookup_insert_ne in Hj by lia.
      by apply (Hfirst j).
    + intros j Hji. by rewrite list_lookup_insert_ne.
    + discriminate.
  - handler. destruct (list_find _ c) as [[i r]|] eqn:Ha; cbn -[jsstr trim];
      [|left; split_and!; [by intros [[? [=]] _] | by eexists | done]].
    pose proof Ha as (Hi & Hact & Hfirst)%list_find_Some.
    destruct (reportMissing report); cbn -[jsstr trim];
      [left; split_and!; [by intros [_ [=]] | by eexists | done]|].
    right. split; [by split|]. split; [done|].
    assert (Attendance.user
              match Attendance.status r, Attendance.lastActiveAt r with
              | ClockedIn, Some last => closeSegment last now r
              | _, _ => r
              end = u) as Hu1.
    { destruct Hact as [Hu _].
      by destruct (Attendance.status r), (Attendance.lastActiveAt r). }
    revert Hu1.
    generalize (match Attendance.status r, Attendance.lastActiveAt r with
                | ClockedIn, Some last => closeSegment last now r
                | _, _ => r
                end).
    intros r1 Hu1. eexists i, _. split_and!.
    + apply list_lookup_insert_eq. by eapply lookup_lt_Some.
    + destruct (decide (Attendance.status r1 = Away)); destruct (truthy _);
        exact Hu1.
    + by destruct (decide (Attendance.status r1 = Away)); destruct (truthy _).
    + by destruct (decide (Attendance.status r1 = Away)); destruct (truthy _).
    + intros j a Hji Hj. rewrite list_lookup_insert_ne in Hj by lia.
      by apply (Hfirst j).
    + intros j Hji. by rewrite list_lookup_insert_ne.
    + by exists r.
Qed.

Lemma handle_accepts fmt q c :
  (accepted (run (handle fmt q) c).1.1 ↔ allowed q c)
  ∧ (¬ allowed q c → ∃ m, (run (handle fmt q) c).1.1 = BadRequest m).
Proof.
  destruct (handle_transition fmt q c)
    as [(Hno & (m & Hm) & _) | (Hyes & Hacc & _)].
  - split; [|by eexists]. rewrite Hm. by split.
  - split; [by split | done].
Qed.


Lemma resolved_after fmt q c :
  allowed q c →
  (Attendance.isActiveStatus (target q) = true →
   ∃ r', resolved (requester q) (run (handle fmt q) c).1.2 = Some r'
         ∧ Attendance.status r' = target q
         ∧ Attendance.lastActiveAt r' = timerAfter q)
  ∧ (Attendance.isActiveStatus (target q) = false → oneActive c →
     resolved (requester q) (run (handle fmt q) c).1.2 = None).
Proof.
  intros Hyes.
  destruct (handle_transition fmt q c)
    as [(Hno & _) | (_ & _ & i & r' & Hi & Hu & Hs & Ht & Hfirst & Hrest & Hwas)];
    [done|].
  split.
  - intros Hact. exists r'. split; [|done]. unfold resolved.
    assert (list_find (Attendance.matches (Attendance.Active (requester q)))
              (run (handle fmt q) c).1.2 = Some (i, r')) as ->; [|done].
    apply list_find_Some. split_and!; [done | split; congruence |].
    intros j y Hj Hji. by apply (Hfirst j).
  - intros Hact Hone. apply resolved_none, list_find_none_iff.
    intros a [j Hj]%list_elem_of_lookup_1 [Hua Ha].
    destruct (decide (j = i)) as [->|Hne].
    + congruence.
    + rewrite (Hrest j Hne) in Hj.
      destruct (Hwas Hact) as (r & Hr & [Hur Hra]).
      apply Hne. apply (Hone j i a r); congruence.
Qed.

(** X8. An accepted clock request leaves a record of the requester with
    the status of the request, clocked-in after a clock-in or a resume,
    away after a go-away, clocked-out after a clock-out, and with
    lastActiveAt set to the instant of the request in the first case and
    cleared in the others. *)
Theorem accepted_request_sets_status fmt q c :
  accepted (run (handle fmt q) c).1.1 →
  ∃ i r',
    (run (handle fmt q) c).1.2 !! i = Some r'
    ∧ Attendance.user r' = requester q
    ∧ Attendance.status r' = target q
    ∧ Attendance.lastActiveAt r' = timerAfter q
    ∧ (Attendance.lastActiveAt r' = Some (instant q)
       ↔ Attendance.status r' = ClockedIn).
Proof.
  intros Hacc.
  destruct (handle_transition fmt q c)
    as [(_ & (m & Hm) & _) | (_ & _ & i & r' & Hi & Hu & Hs & Ht & _)].
  - by rewrite Hm in Hacc.
  - exists i, r'. split_and!; try done.
    rewrite Hs, Ht. by destruct q.
Qed.

Lemma accepted_request_sets_status_witness :
  ∃ i r',
    (run (handle (λ _, []) (ReqGoAway 7%nat 39600000))
         [Attendance.mk 7%nat 0 (Some 32400000) None ClockedIn 0
            (Some 32400000) [] [] []]).1.2 !! i = Some r'
    ∧ Attendance.user r' = requester (ReqGoAway 7%nat 39600000)
    ∧ Attendance.status r' = target (ReqGoAway 7%nat 39600000)
    ∧ Attendance.lastActiveAt r' = timerAfter (ReqGoAway 7%nat 39600000)
    ∧ (Attendance.lastActiveAt r' = Some (instant (ReqGoAway 7%nat 39600000))
       ↔ Attendance.status r' = ClockedIn).
Proof.
  apply (accepted_request_sets_status (λ _, []) (ReqGoAway 7%nat 39600000)
           [Attendance.mk 7%nat 0 (Some 32400000) None ClockedIn 0
              (Some 32400000) [] [] []]).
  exact I.
Defined.

(** X9. While no user has two running records, a request that was just
    accepted cannot be accepted again: a second clock-in, a second
    go-away, a second resume or a second clock-out by the same user, at
    any time and with any report, is refused. *)
Theorem accepted_request_cannot_repeat fmt q q' c :
  oneActive c →
  accepted (run (handle fmt q) c).1.1 →
  repeats q q' →
  ∃ m, (run (handle fmt q') (run (handle fmt q) c).1.2).1.1 = BadRequest m.
Proof.
  intros Hone Hacc Hrep.
  apply handle_accepts in Hacc.
  destruct (resolved_after fmt q c Hacc) as [Hrun Hstop].
  apply handle_accepts.
  destruct q as [u s n | u n | u n | u rp n], q' as [u' s' n' | u' n' | u' n' | u' rp' n'];
    cbn in Hrep; try done; subst u';
    cbn [allowed requester target timerAfter] in *.
  - destruct (Hrun eq_refl) as (r' & -> & _). done.
  - destruct (Hrun eq_refl) as (r' & -> & Hs & _).
    intros (r & [= <-] & Hr). congruence.
  - destruct (Hrun eq_refl) as (r' & -> & Hs & _).
    intros (r & [= <-] & Hr). congruence.
  - rewrite (Hstop eq_refl Hone). by intros [[? [=]] _].
Qed.

Lemma accepted_request_cannot_repeat_witness :
  ∃ m,
    (run (handle (λ _, []) (ReqGoAway 7%nat 40000000))
         (run (handle (λ _, []) (ReqGoAway 7%nat 39600000))
              [Attendance.mk 7%nat 0 (Some 32400000) None ClockedIn 0
                 (Some 32400000) [] [] []]).1.2).1.1 = BadRequest m.
Proof.
  apply (accepted_request_cannot_repeat (λ _, [])
           (ReqGoAway 7%nat 39600000) (ReqGoAway 7%nat 40000000)
           [Attendance.mk 7%nat 0 (Some 32400000) None ClockedIn 0
              (Some 32400000) [] [] []]).
  - intros i j r r' Hi Hj _ _ _.
    apply lookup_lt_Some in Hi, Hj. cbn in Hi, Hj. lia.
  - exact I.
  - reflexivity.
Defined.

(** ** Breaks *)

Lemma closeCurrentBreak_last now bs b :
  closeCurrentBreak now (bs ++ [b]) = bs ++ [closeBreak now b].
Proof.
  induction bs as [|a bs IH]; [done|].
  cbn [app closeCurrentBreak]. rewrite IH.
  by destruct (bs ++ [b]) eqn:E; [destruct bs; discriminate E|].
Qed.

Lemma closeCurrentBreak_done now bs :
  Forall breakDone bs → closeCurrentBreak now bs = bs.
Proof.
  induction 1 as [|b bs (e & He & _) Hbs IH]; [done|].
  destruct bs as [|b' bs]; cbn.
  - unfold closeBreak. by rewrite He.
  - cbn in IH. by rewrite IH.
Qed.

Lemma breaksInOrder_not_away (r r' : Attendance.doc) :
  breaksInOrder r → Attendance.status r ≠ Away →
  Attendance.status r' ≠ Away → Attendance.breaks r' = Attendance.breaks r →
  breaksInOrder r'.
Proof.
  intros (over & Hover & [[Hs _] | [_ Hb]]) Hr Hr' Heq; [done|].
  exists over. split; [done|]. right. split; [done | congruence].
Qed.

Lemma breaksInOrder_closed now (r r' : Attendance.doc) :
  breaksInOrder r → Attendance.status r' ≠ Away →
  Attendance.breaks r' =
    (if decide (Attendance.status r = Away)
     then closeCurrentBreak now (Attendance.breaks r)
     else Attendance.breaks r) →
  breaksInOrder r'.
Proof.
  intros (over & Hover & [(Hs & t & Hb) | [Hs Hb]]) Hr' Heq.
  - rewrite decide_True in Heq by done.
    rewrite Hb, closeCurrentBreak_last in Heq.
    exists (over ++ [closeBreak now (mkSegment t None 0)]). split.
    + apply Forall_app. split; [done|]. constructor; [|constructor].
      exists now. by split.
    + right. by split.
  - rewrite decide_False in Heq by done.
    exists over. split; [done|]. right. split; [done | congruence].
Qed.

Lemma handle_breaksInOrder fmt q c :
  Forall breaksInOrder c → Forall breaksInOrder (run (handle fmt q) c).1.2.
Proof.
  intros Hc. destruct q as [u start now | u now | u now | u report now]; cbn [handle].
  - handler. destruct (list_find _ c) as [[i r]|] eqn:Ha; cbn; [done|].
    destruct (list_find (Attendance.matches (Attendance.OnDate u start)) c)
      as [[i r]|] eqn:Hd; cbn.
    + apply Forall_written; [done|].
      pose proof Hd as (Hi & [Hu _] & _)%list_find_Some.
      apply (breaksInOrder_not_away r); try done.
      * by apply (Forall_lookup_1 _ _ _ _ Hc Hi).
      * intros Hs. apply (proj1 (list_find_none_iff _ _) Ha r).
        { by eapply list_elem_of_lookup_2. }
        split; [done | by rewrite Hs].
    + rewrite Hd. cbn. apply Forall_added; [done|].
      exists []. split; [constructor|]. right. by split.
  - handler. destruct (list_find _ c) as [[i r]|] eqn:Ha; cbn; [|done].
    pose proof (Forall_lookup_1 _ _ _ _ Hc (find_lookup _ _ _ _ Ha)) as Hr.
    destruct (decide (Attendance.status r = ClockedIn)) as [Hs|]; cbn; [|done].
    apply Forall_written; [done|].
    destruct Hr as (over & Hover & [[Hs' _] | [_ Hb]]); [congruence|].
    exists over. split; [done|]. left. split; [done|]. exists now.
    destruct (Attendance.lastActiveAt r); fields; by rewrite Hb.
  - handler. destruct (list_find _ c) as [[i r]|] eqn:Ha; cbn; [|done].
    pose proof (Forall_lookup_1 _ _ _ _ Hc (find_lookup _ _ _ _ Ha)) as Hr.
    destruct (decide (Attendance.status r = Away)) as [Hs|]; cbn; [|done].
    apply Forall_written; [done|].
    apply (breaksInOrder_closed now r); [done | done |].
    fields. by rewrite decide_True.
  - handler. destruct (list_find _ c) as [[i r]|] eqn:Ha; cbn -[trim]; [|done].
    pose proof (Forall_lookup_1 _ _ _ _ Hc (find_lookup _ _ _ _ Ha)) as Hr.
    destruct (reportMissing report); cbn -[trim]; [done|].
    apply Forall_written; [done|].
    assert (breaksInOrder
              match Attendance.status r, Attendance.lastActiveAt r with
              | ClockedIn, Some last => closeSegment last now r
              | _, _ => r
              end) as Hr1.
    { by destruct (Attendance.status r), (Attendance.lastActiveAt r). }
    revert Hr1.
    generalize (match Attendance.status r, Attendance.lastActiveAt r with
                | ClockedIn, Some last => closeSegment last now r
                | _, _ => r
                end).
    intros r1 Hr1. apply (breaksInOrder_closed now r1); [done | |].
    + by destruct (decide (Attendance.status r1 = Away)); destruct (truthy _).
    + by destruct (decide (Attendance.status r1 = Away)); destruct (truthy _).
Qed.

(** X10. Under the clock requests the breaks of every record stay in
    order: all of them are over, each lasting the whole seconds from its
    start to its end, except that a record that is away has exactly one
    open break, the last one. So there are never two open breaks, and a
    record that is not away has none. *)
Theorem breaks_stay_in_order fmt qs c :
  Forall breaksInOrder c → Forall breaksInOrder (serve fmt qs c).
Proof.
  revert c. induction qs as [|q qs IH]; intros c Hc; [done|].
  cbn. apply IH. by apply handle_breaksInOrder.
Qed.

Lemma breaks_stay_in_order_witness :
  Forall breaksInOrder
    (serve (λ _, [])
       [ReqClockIn 7%nat 0 32400000; ReqGoAway 7%nat 39600000;
        ReqGoAway 7%nat 40000000; ReqResume 7%nat 41400000;
        ReqGoAway 7%nat 50000000] []).
Proof.
  apply (breaks_stay_in_order (λ _, [])
           [ReqClockIn 7%nat 0 32400000; ReqGoAway 7%nat 39600000;
            ReqGoAway 7%nat 40000000; ReqResume 7%nat 41400000;
            ReqGoAway 7%nat 50000000] []).
  constructor.
Defined.

(** ** Active seconds over time *)

Lemma elapsedSeconds_nonneg last now : last ≤ now → 0 ≤ elapsedSeconds last now.
Proof. intros H. unfold elapsedSeconds. apply Z.div_pos; lia. Qed.

(** What a step that writes at most one record keeps: positions, and with
    them the active seconds as a lower bound, and timers in the past. *)
Lemma step_monotone (c c' : Collection) t now :
  c' = c
  ∨ (∃ i r r',
        c !! i = Some r ∧ c' = <[i := r']> c
        ∧ Attendance.activeSeconds r ≤ Attendance.activeSeconds r'
        ∧ ∀ last, Attendance.lastActiveAt r' = Some last → last ≤ now)
  ∨ (∃ r', c' = c ++ [r']
           ∧ ∀ last, Attendance.lastActiveAt r' = Some last → last ≤ now) →
  timersBefore t c → t ≤ now →
  (∀ i r, c !! i = Some r →
          ∃ r', c' !! i = Some r'
                ∧ Attendance.activeSeconds r ≤ Attendance.activeSeconds r')
  ∧ timersBefore now c'.
Proof.
  intros [-> | [(i & r & r' & Hi & -> & Hle & Ht') | (r' & -> & Ht')]] Hc Htn.
  - split.
    + intros i r Hi. exists r. split; [done | lia].
    + intros r last Hr Hl. specialize (Hc r last Hr Hl). lia.
  - split.
    + intros j a Hj. destruct (decide (j = i)) as [->|Hne].
      * exists r'. rewrite list_lookup_insert_eq by by eapply lookup_lt_Some.
        split; [done|]. congruence.
      * exists a. rewrite list_lookup_insert_ne by done. split; [done | lia].
    + intros a last [j Hj]%list_elem_of_lookup_1 Hl.
      apply lookup_insert_cases in Hj as [[-> ->] | [Hne Hj]]; [by apply Ht'|].
      apply list_elem_of_lookup_2 in Hj. specialize (Hc a last Hj Hl). lia.
  - split.
    + intros j a Hj. exists a. split; [by apply lookup_app_l_Some | lia].
    + intros a last [j Hj]%list_elem_of_lookup_1 Hl.
      apply lookup_added_cases in Hj as [[-> ->] | Hj]; [by apply Ht'|].
      apply list_elem_of_lookup_2 in Hj. specialize (Hc a last Hj Hl). lia.
Qed.

Lemma handle_monotone fmt q c t :
  timersBefore t c → t ≤ instant q →
  (∀ i r, c !! i = Some r →
          ∃ r', (run (handle fmt q) c).1.2 !! i = Some r'
                ∧ Attendance.activeSeconds r ≤ Attendance.activeSeconds r')
  ∧ timersBefore (instant q) (run (handle fmt q) c).1.2.
Proof.
  intros Hc Ht. apply (step_monotone c _ t); [|done..].
  destruct q as [u start now | u now | u now | u report now];
    cbn [handle instant] in *.
  - handler. destruct (list_find _ c) as [[i r]|] eqn:Ha; cbn; [by left|].
    destruct (list_find (Attendance.matches (Attendance.OnDate u start)) c)
      as [[i r]|] eqn:Hd; cbn.
    + right. left. eexists i, r, _. split_and!; [by eapply find_lookup | done | |].
      * fields. lia.
      * intros last [= <-]. lia.
    + rewrite Hd. cbn. right. right. eexists. split; [done|].
      intros last [= <-]. lia.
  - handler. destruct (list_find _ c) as [[i r]|] eqn:Ha; cbn; [|by left].
    destruct (decide (Attendance.status r = ClockedIn)); cbn; [|by left].
    right. left. eexists i, r, _.
    pose proof (find_lookup _ _ _ _ Ha) as Hi.
    split_and!; [done | done | | done].
    destruct (Attendance.lastActiveAt r) as [last|] eqn:Hl; fields; [|lia].
    pose proof (Hc r last (list_elem_of_lookup_2 _ _ _ Hi) Hl).
    pose proof (elapsedSeconds_nonneg last now ltac:(lia)). lia.
  - handler. destruct (list_find _ c) as [[i r]|] eqn:Ha; cbn; [|by left].
    destruct (decide (Attendance.status r = Away)); cbn; [|by left].
    right. left. eexists i, r, _.
    split_and!; [by eapply find_lookup | done | fields; lia |].
    intros last [= <-]. lia.
  - handler. destruct (list_find _ c) as [[i r]|] eqn:Ha; cbn -[trim]; [|by left].
    destruct (reportMissing report); cbn -[trim]; [by left|].
    right. left. eexists i, r, _.
    pose proof (find_lookup _ _ _ _ Ha) as Hi.
    split_and!; [done | done | |].
    + assert (Attendance.activeSeconds r ≤ Attendance.activeSeconds
                match Attendance.status r, Attendance.lastActiveAt r with
                | ClockedIn, Some last => closeSegment last now r
                | _, _ => r
                end) as Hr1.
      { destruct (Attendance.status r), (Attendance.lastActiveAt r) as [last|] eqn:Hl;
          try lia.
        pose proof (Hc r last (list_elem_of_lookup_2 _ _ _ Hi) Hl).
        pose proof (elapsedSeconds_nonneg last now ltac:(lia)). fields. lia. }
      revert Hr1.
      generalize (match Attendance.status r, Attendance.lastActiveAt r with
                  | ClockedIn, Some last => closeSegment last now r
                  | _, _ => r
                  end).
      intros r1 Hr1.
      by destruct (decide (Attendance.status r1 = Away)); destruct (truthy _).
    + generalize (match Attendance.status r, Attendance.lastActiveAt r with
                  | ClockedIn, Some last => closeSegment last now r
                  | _, _ => r
                  end).
      intros r1.
      by destruct (decide (Attendance.status r1 = Away)); destruct (truthy _).
Qed.

(** X11. While the clock does not run backwards (the requests come in the
    order of their instants and no timer of the collection was started
    later than the first of them), the activeSeconds of a record never
    decrease under the clock requests. *)
Theorem activeSeconds_never_decrease fmt qs c t i r :
  timersBefore t c → chronological t qs → c !! i = Some r →
  ∃ r', serve fmt qs c !! i = Some r'
        ∧ Attendance.activeSeconds r ≤ Attendance.activeSeconds r'.
Proof.
  revert c t r. induction qs as [|q qs IH]; intros c t r Hc Hqs Hi; cbn.
  - exists r. split; [done | lia].
  - destruct Hqs as [Ht Hqs].
    destruct (handle_monotone fmt q c t Hc Ht) as [Hkeep Hc'].
    destruct (Hkeep i r Hi) as (r1 & H1 & Hle1).
    destruct (IH _ _ r1 Hc' Hqs H1) as (r2 & H2 & Hle2).
    exists r2. split; [done | lia].
Qed.

Lemma activeSeconds_never_decrease_witness :
  ∃ r',
    serve (λ _, [])
      [ReqGoAway 7%nat 39600000; ReqResume 7%nat 41400000;
       ReqClockOut 7%nat (Some (jsstr "done")) 64800000]
      [Attendance.mk 7%nat 0 (Some 32400000) None ClockedIn 0 (Some 32400000)
         [] [] []] !! 0%nat = Some r'
    ∧ Attendance.activeSeconds
        (Attendance.mk 7%nat 0 (Some 32400000) None ClockedIn 0
           (Some 32400000) [] [] [])
      ≤ Attendance.activeSeconds r'.
Proof.
  apply (activeSeconds_never_decrease (λ _, [])
           [ReqGoAway 7%nat 39600000; ReqResume 7%nat 41400000;
            ReqClockOut 7%nat (Some (jsstr "done")) 64800000]
           [Attendance.mk 7%nat 0 (Some 32400000) None ClockedIn 0
              (Some 32400000) [] [] []] 32400000 0%nat).
  - intros r last ->%list_elem_of_singleton [= <-]. lia.
  - cbn. lia.
  - reflexivity.
Defined.

Lemma accounted_span ss :
  Forall exactDuration ss →
  1000 * closedDurations ss ≤ sessionSpan ss
  ∧ sessionSpan ss ≤ 1000 * closedDurations ss + 999 * Z.of_nat (length ss).
Proof.
  induction 1 as [|s ss Hs Hss IH]; cbn; [lia|].
  fold (closedDurations ss) (sessionSpan ss).
  destruct (seg_end s) as [e|] eqn:He; [|lia].
  rewrite (Hs e He).
  pose proof (Z.div_mod (e - seg_start s) 1000 ltac:(lia)).
  pose proof (Z.mod_pos_bound (e - seg_start s) 1000 ltac:(lia)). lia.
Qed.

(** X12. Rounding each session down to whole seconds never counts time
    that was not worked and loses less than a second per session: from
    fresh records, after any clock requests, a thousand times the
    activeSeconds of a record is at most the milliseconds its closed
    sessions span, and falls short of them by at most 999 per session. *)
Theorem activeSeconds_within_a_second_per_session fmt qs c r :
  Forall fresh c → r ∈ serve fmt qs c →
  1000 * Attendance.activeSeconds r ≤ sessionSpan (Attendance.sessions r)
  ∧ sessionSpan (Attendance.sessions r)
    ≤ 1000 * Attendance.activeSeconds r
      + 999 * Z.of_nat (length (Attendance.sessions r)).
Proof.
  intros Hfresh Hr.
  assert (Forall accounted (serve fmt qs c)) as Hacc.
  { apply serve_accounted. eapply Forall_impl; [done | apply fresh_accounted]. }
  rewrite Forall_forall in Hacc. destruct (Hacc r Hr) as [Hsum Hex].
  rewrite Hsum. by apply accounted_span.
Qed.

Lemma activeSeconds_within_a_second_per_session_witness :
  1000 * Attendance.activeSeconds
           (Attendance.mk 7%nat 0 (Some 32400500) (Some 64800000) ClockedOut
              30598 None
              [mkSegment 32400500 (Some 39600000) 7199;
               mkSegment 41400500 (Some 64800000) 23399]
              [mkSegment 39600000 (Some 41400500) 1800] (jsstr "done"))
  ≤ sessionSpan
      (Attendance.sessions
         (Attendance.mk 7%nat 0 (Some 32400500) (Some 64800000) ClockedOut
            30598 None
            [mkSegment 32400500 (Some 39600000) 7199;
             mkSegment 41400500 (Some 64800000) 23399]
            [mkSegment 39600000 (Some 41400500) 1800] (jsstr "done")))
  ∧ sessionSpan
      (Attendance.sessions
         (Attendance.mk 7%nat 0 (Some 32400500) (Some 64800000) ClockedOut
            30598 None
            [mkSegment 32400500 (Some 39600000) 7199;
             mkSegment 41400500 (Some 64800000) 23399]
            [mkSegment 39600000 (Some 41400500) 1800] (jsstr "done")))
    ≤ 1000 * Attendance.activeSeconds
               (Attendance.mk 7%nat 0 (Some 32400500) (Some 64800000) ClockedOut
                  30598 None
                  [mkSegment 32400500 (Some 39600000) 7199;
                   mkSegment 41400500 (Some 64800000) 23399]
                  [mkSegment 39600000 (Some 41400500) 1800] (jsstr "done"))
      + 999 * Z.of_nat
                (length
                   (Attendance.sessions
                      (Attendance.mk 7%nat 0 (Some 32400500) (Some 64800000)
                         ClockedOut 30598 None
                         [mkSegment 32400500 (Some 39600000) 7199;
                          mkSegment 41400500 (Some 64800000) 23399]
                         [mkSegment 39600000 (Some 41400500) 1800]
                         (jsstr "done")))).
Proof.
  apply (activeSeconds_within_a_second_per_session (λ _, [])
           [ReqClockIn 7%nat 0 32400500; ReqGoAway 7%nat 39600000;
            ReqResume 7%nat 41400500;
            ReqClockOut 7%nat (Some (jsstr "done")) 64800000] []).
  - constructor.
  - replace (serve _ _ _)
      with [Attendance.mk 7%nat 0 (Some 32400500) (Some 64800000) ClockedOut
              30598 None
              [mkSegment 32400500 (Some 39600000) 7199;
               mkSegment 41400500 (Some 64800000) 23399]
              [mkSegment 39600000 (Some 41400500) 1800] (jsstr "done")]
      by (vm_compute; reflexivity).
    apply list_elem_of_here.
Defined.

(** X13. The seconds the today view shows at an instant are the seconds a
    request accepted at that instant answers with and stores: the live
    figure of a clocked-in user is what the next go-away or clock-out
    persists, and the figure shown while away or clocked out is what a
    resume or a clock-in carries on from. *)
Theorem today_shows_what_the_request_records fmt q c start :
  accepted (run (handle fmt q) c).1.1 → forDay q start →
  reportedSeconds (run (getToday (requester q) start (instant q)) c).1.1
  = reportedSeconds (run (handle fmt q) c).1.1
  ∧ ∃ i r',
      (run (handle fmt q) c).1.2 !! i = Some r'
      ∧ Attendance.user r' = requester q
      ∧ reportedSeconds (run (handle fmt q) c).1.1
        = Some (Attendance.activeSeconds r').
Proof.
  destruct q as [u s now | u now | u now | u report now];
    cbn [handle requester instant forDay]; intros Hacc Hday.
  - subst s. revert Hacc. handler.
    destruct (list_find _ c) as [[i r]|] eqn:Ha; cbn; [done|].
    destruct (list_find (Attendance.matches (Attendance.OnDate u start)) c)
      as [[i r]|] eqn:Hd; cbn.
    + intros _. pose proof Hd as (Hi & [Hu _] & _)%list_find_Some.
      assert (Attendance.status r ≠ ClockedIn) as Hs.
      { intros Hs. apply (proj1 (list_find_none_iff _ _) Ha r).
        - by eapply list_elem_of_lookup_2.
        - split; [done | by rewrite Hs]. }
      split.
      * by destruct (Attendance.status r), (Attendance.lastActiveAt r).
      * eexists i, _.
        split; [apply list_lookup_insert_eq; by eapply lookup_lt_Some|].
        by split.
    + rewrite Hd. cbn. intros _. split; [done|].
      eexists (length c), _.
      split; [by rewrite lookup_app_r, Nat.sub_diag|]. by split.
  - revert Hacc. handler.
    destruct (list_find _ c) as [[i r]|] eqn:Ha; cbn; [|done].
    destruct (decide (Attendance.status r = ClockedIn)) as [Hs|]; cbn; [|done].
    intros _. pose proof Ha as (Hi & [Hu _] & _)%list_find_Some. rewrite Hs.
    split.
    * by destruct (Attendance.lastActiveAt r).
    * eexists i, _.
      split; [apply list_lookup_insert_eq; by eapply lookup_lt_Some|].
      split; [|done]. by destruct (Attendance.lastActiveAt r).
  - revert Hacc. handler.
    destruct (list_find _ c) as [[i r]|] eqn:Ha; cbn; [|done].
    destruct (decide (Attendance.status r = Away)) as [Hs|]; cbn; [|done].
    intros _. pose proof Ha as (Hi & [Hu _] & _)%list_find_Some. rewrite Hs.
    split; [done|].
    eexists i, _.
    split; [apply list_lookup_insert_eq; by eapply lookup_lt_Some|]. by split.
  - revert Hacc. handler.
    destruct (list_find _ c) as [[i r]|] eqn:Ha; cbn -[trim]; [|done].
    destruct (reportMissing report); cbn -[trim]; [done|].
    intros _. pose proof Ha as (Hi & [Hu _] & _)%list_find_Some.
    assert (Attendance.user
              match Attendance.status r, Attendance.lastActiveAt r with
              | ClockedIn, Some last => closeSegment last now r
              | _, _ => r
              end = u
            ∧ Attendance.activeSeconds
                match Attendance.status r, Attendance.lastActiveAt r with
                | ClockedIn, Some last => closeSegment last now r
                | _, _ => r
                end
              = match Attendance.status r, Attendance.lastActiveAt r with
                | ClockedIn, Some last =>
                    Attendance.activeSeconds r + elapsedSeconds last now
                | _, _ => Attendance.activeSeconds r
                end) as [Hu1 Hsecs].
    { by destruct (Attendance.status r), (Attendance.lastActiveAt r). }
    rewrite <- Hsecs. revert Hu1. clear Hsecs.
    generalize (match Attendance.status r, Attendance.lastActiveAt r with
                | ClockedIn, Some last => closeSegment last now r
                | _, _ => r
                end).
    intros r1 Hu1. split.
    * by destruct (decide (Attendance.status r1 = Away)); destruct (truthy _).
    * eexists i, _.
      split; [apply list_lookup_insert_eq; by eapply lookup_lt_Some|].
      by destruct (decide (Attendance.status r1 = Away)); destruct (truthy _).
Qed.

Lemma today_shows_what_the_request_records_witness :
  reportedSeconds
    (run (getToday (requester (ReqGoAway 7%nat 39600000)) 0
            (instant (ReqGoAway 7%nat 39600000)))
         [Attendance.mk 7%nat 0 (Some 32400000) None ClockedIn 0
            (Some 32400000) [] [] []]).1.1
  = reportedSeconds
      (run (handle (λ _, []) (ReqGoAway 7%nat 39600000))
         [Attendance.mk 7%nat 0 (Some 32400000) None ClockedIn 0
            (Some 32400000) [] [] []]).1.1
  ∧ ∃ i r',
      (run (handle (λ _, []) (ReqGoAway 7%nat 39600000))
         [Attendance.mk 7%nat 0 (Some 32400000) None ClockedIn 0
            (Some 32400000) [] [] []]).1.2 !! i = Some r'
      ∧ Attendance.user r' = requester (ReqGoAway 7%nat 39600000)
      ∧ reportedSeconds
          (run (handle (λ _, []) (ReqGoAway 7%nat 39600000))
             [Attendance.mk 7%nat 0 (Some 32400000) None ClockedIn 0
                (Some 32400000) [] [] []]).1.1
        = Some (Attendance.activeSeconds r').
Proof.
  apply (today_shows_what_the_request_records (λ _, [])
           (ReqGoAway 7%nat 39600000)
           [Attendance.mk 7%nat 0 (Some 32400000) None ClockedIn 0
              (Some 32400000) [] [] []] 0).
  - exact I.
  - exact I.
Defined.

(** ** Two sessions on one day *)

(** X14. A user whose record of the day is closed clocks in again and then
    clocks out: the same record is taken up again, in place. Its first
    clock-in stays, the new session is added to its sessions and its
    seconds to the activeSeconds, and the report is not overwritten: the
    new text comes after the old one, on a new line, behind the time in
    square brackets. *)
Theorem second_session_continues_the_day fmt u d t1 t2 report c i r :
  list_find (Attendance.matches (Attendance.Active u)) c = None →
  list_find (Attendance.matches (Attendance.OnDate u d)) c = Some (i, r) →
  reportMissing report = false →
  run (_ ← clockIn u d t1; clockOut fmt u report t2) c =
    (Ok (Some (jsstr "Clocked out " ++ [8212]%N ++ jsstr " great work!"))
        (Some (ClockOutData (Attendance.clockIn r) (Some t2)
                 (Attendance.activeSeconds r + elapsedSeconds t1 t2)
                 (totalBreakSeconds (Attendance.breaks r))
                 (reportAfter fmt t2 (Attendance.dailyReport r)
                    (trim (default [] report))))),
     <[i := Attendance.mk (Attendance.user r) (Attendance.date r)
               (Attendance.clockIn r) (Some t2) ClockedOut
               (Attendance.activeSeconds r + elapsedSeconds t1 t2) None
               (Attendance.sessions r
                  ++ [mkSegment t1 (Some t2) (elapsedSeconds t1 t2)])
               (Attendance.breaks r)
               (reportAfter fmt t2 (Attendance.dailyReport r)
                  (trim (default [] report)))]> c,
     [OpFindOne (Attendance.Active u); OpFindOne (Attendance.OnDate u d); OpSave;
      OpFindOne (Attendance.Active u); OpSave])
  ∧ (Attendance.dailyReport r ≠ [] →
     reportAfter fmt t2 (Attendance.dailyReport r) (trim (default [] report))
     = Attendance.dailyReport r ++ [10; 91]%N ++ fmt t2 ++ [93; 58; 32]%N
         ++ trim (default [] report)).
Proof.
  intros Ha Hd Hrep. split.
  - pose proof Hd as (Hi & [Hu _] & _)%list_find_Some.
    unfold run, mbind, M_bind.
    rewrite (clockIn_again u d t1 c [] i r Ha Hd).
    assert (list_find (Attendance.matches (Attendance.Active u))
              (<[i := Attendance.set_lastActiveAt (Some t1)
                        (Attendance.set_status ClockedIn r)]> c)
            = Some (i, Attendance.set_lastActiveAt (Some t1)
                         (Attendance.set_status ClockedIn r))) as Hfind.
    { apply find_written; [by eapply lookup_lt_Some | by split |].
      intros j a _ Hj. apply (proj1 (list_find_none_iff _ _) Ha).
      by eapply list_elem_of_lookup_2. }
    rewrite (clockOut_running fmt u report t2 _ _ i _ t1 Hfind eq_refl eq_refl
               Hrep).
    cbn -[jsstr trim]. by rewrite list_insert_insert_eq.
  - intros Hold. unfold reportAfter.
    by destruct (Attendance.dailyReport r).
Qed.

Lemma second_session_continues_the_day_witness :
  run (_ ← clockIn 7%nat 0 68400000;
       clockOut (λ _, jsstr "8:00:00 PM") 7%nat (Some (jsstr "more")) 72000000)
      [Attendance.mk 7%nat 0 (Some 32400000) (Some 64800000) ClockedOut 32400
         None [mkSegment 32400000 (Some 64800000) 32400] [] (jsstr "done")]
  = (Ok (Some (jsstr "Clocked out " ++ [8212]%N ++ jsstr " great work!"))
        (Some (ClockOutData (Some 32400000) (Some 72000000)
                 (32400 + elapsedSeconds 68400000 72000000)
                 (totalBreakSeconds [])
                 (reportAfter (λ _, jsstr "8:00:00 PM") 72000000 (jsstr "done")
                    (trim (default [] (Some (jsstr "more"))))))),
     <[0%nat := Attendance.mk 7%nat 0 (Some 32400000) (Some 72000000) ClockedOut
                  (32400 + elapsedSeconds 68400000 72000000) None
                  ([mkSegment 32400000 (Some 64800000) 32400]
                     ++ [mkSegment 68400000 (Some 72000000)
                           (elapsedSeconds 68400000 72000000)])
                  []
                  (reportAfter (λ _, jsstr "8:00:00 PM") 72000000 (jsstr "done")
                     (trim (default [] (Some (jsstr "more")))))]>
       [Attendance.mk 7%nat 0 (Some 32400000) (Some 64800000) ClockedOut 32400
          None [mkSegment 32400000 (Some 64800000) 32400] [] (jsstr "done")],
     [OpFindOne (Attendance.Active 7%nat); OpFindOne (Attendance.OnDate 7%nat 0);
      OpSave; OpFindOne (Attendance.Active 7%nat); OpSave]).
Proof.
  apply (second_session_continues_the_day (λ _, jsstr "8:00:00 PM") 7%nat 0
           68400000 72000000 (Some (jsstr "more"))
           [Attendance.mk 7%nat 0 (Some 32400000) (Some 64800000) ClockedOut
              32400 None [mkSegment 32400000 (Some 64800000) 32400] []
              (jsstr "done")]
           0%nat
           (Attendance.mk 7%nat 0 (Some 32400000) (Some 64800000) ClockedOut
              32400 None [mkSegment 32400000 (Some 64800000) 32400] []
              (jsstr "done"))); reflexivity.
Defined.

(** ** The views *)


(** X16. The history view lists exactly the records of the user whose
    date lies in the range, each once, in the order of their dates. *)
Theorem history_lists_the_range u month year lo hi c :
  ∃ records stats,
    (run (getHistory u month year lo hi) c).1.1
    = Ok None (Some (HistoryPayload month year records stats))
    ∧ StronglySorted (λ a b, h_date a ≤ h_date b) records
    ∧ records
      ≡ₚ lean <$> filter (Attendance.matches (Attendance.InRange u lo hi)) c
    ∧ (∀ r, r ∈ c → Attendance.user r = u → lo ≤ Attendance.date r ≤ hi →
            lean r ∈ records)
    ∧ (∀ h, h ∈ records → lo ≤ h_date h ≤ hi).
Proof.
  eexists _, _. split; [reflexivity|].
  pose proof (merge_sort_Permutation byDate
                (filter (Attendance.matches (Attendance.InRange u lo hi)) c))
    as Hperm.
  split_and!.
  - apply (StronglySorted_fmap lean byDate); [done|].
    apply StronglySorted_merge_sort; apply _.
  - by rewrite Hperm.
  - intros r Hr Hu Hd. apply list_elem_of_fmap_2. rewrite Hperm.
    apply list_elem_of_filter. by split.
  - intros h (r & -> & Hr)%list_elem_of_fmap. rewrite Hperm in Hr.
    apply list_elem_of_filter in Hr as [(_ & Hlo & Hhi) _]. by cbn.
Qed.

(** ** More on the override *)

Lemma override_present_flags :
  bool_decide (jsstr "present" = jsstr "present") = true
  ∧ bool_decide (jsstr "present" = jsstr "absent") = false
  ∧ bool_decide (jsstr "absent" = jsstr "present") = false
  ∧ bool_decide (jsstr "absent" = jsstr "absent") = true.
Proof. by split_and!. Qed.

(** The override of a day that has a record, whatever the status asked
    for: the record it writes in place of [r]. *)
Lemma adminOverride_existing u start status c i r :
  list_find (Attendance.matches (Attendance.OnDate u start)) c = Some (i, r) →
  run (adminOverride u start status) c =
    (Ok (Some (jsstr "Attendance marked as " ++ status ++ jsstr ".")) None,
     <[i := overridden start status r]> c,
     [OpFindOne (Attendance.OnDate u start); OpSave]).
Proof.
  intros Hd. handler. rewrite Hd. unfold overridden.
  destruct (decide (status = jsstr "absent")) as [->|Ha].
  - by rewrite (bool_decide_true (jsstr "absent" = jsstr "absent")),
      (bool_decide_false (jsstr "absent" = jsstr "present")).
  - rewrite (bool_decide_false _ Ha). cbn -[jsstr].
    by destruct r as [? ? [?|] ? ? ? ? ? ? ?].
Qed.

Lemma adminOverride_new u start status c :
  list_find (Attendance.matches (Attendance.OnDate u start)) c = None →
  run (adminOverride u start status) c =
    (Ok (Some (jsstr "Attendance marked as " ++ status ++ jsstr ".")) None,
     c ++ [created u start status],
     [OpFindOne (Attendance.OnDate u start); OpSave]).
Proof.
  intros Hd. handler. rewrite Hd. cbn -[jsstr]. rewrite Hd. unfold created.
  by destruct (bool_decide (status = jsstr "present")).
Qed.

Lemma overridden_twice start status r :
  overridden start status (overridden start status r)
  = overridden start status r.
Proof.
  unfold overridden.
  by destruct (bool_decide (status = jsstr "absent")),
       (bool_decide (status = jsstr "present")), (Attendance.clockIn r).
Qed.

(** X17. Overriding a day twice with the same status is the same as
    overriding it once, when the day already had a record or the status
    is present. *)
Theorem override_is_idempotent u start status c :
  status = jsstr "present" ∨ ¬ noRecordOn u start c →
  (run (adminOverride u start status)
       (run (adminOverride u start status) c).1.2).1.2
  = (run (adminOverride u start status) c).1.2.
Proof.
  intros Hwhy.
  destruct (list_find (Attendance.matches (Attendance.OnDate u start)) c)
    as [[i r]|] eqn:Hd.
  - rewrite (adminOverride_existing u start status c i r Hd). cbn [fst snd].
    pose proof Hd as (Hi & Hm & Hfirst)%list_find_Some.
    rewrite (adminOverride_existing u start status _ i
               (overridden start status r)).
    + cbn [fst snd]. by rewrite list_insert_insert_eq, overridden_twice.
    + apply find_written; [by eapply lookup_lt_Some | exact Hm |].
      intros j a Hji Hj. by apply (Hfirst j).
  - destruct Hwhy as [-> | Hno]; [|by apply find_noRecordOn in Hd].
    rewrite (adminOverride_new u start _ c Hd). cbn [fst snd].
    rewrite (adminOverride_existing u start _ _ (length c)
               (created u start (jsstr "present"))).
    + cbn [fst snd]. by rewrite insert_added.
    + apply find_added; [exact Hd | by split].
Qed.

Lemma override_is_idempotent_witness :
  (run (adminOverride 7%nat 0 (jsstr "absent"))
       (run (adminOverride 7%nat 0 (jsstr "absent"))
            [Attendance.mk 7%nat 0 (Some 32400000) None ClockedIn 0
               (Some 32400000) [] [] []]).1.2).1.2
  = (run (adminOverride 7%nat 0 (jsstr "absent"))
         [Attendance.mk 7%nat 0 (Some 32400000) None ClockedIn 0
            (Some 32400000) [] [] []]).1.2.
Proof.
  apply (override_is_idempotent 7%nat 0 (jsstr "absent")
           [Attendance.mk 7%nat 0 (Some 32400000) None ClockedIn 0
              (Some 32400000) [] [] []]).
  right. intros Hno.
  apply (Hno (Attendance.mk 7%nat 0 (Some 32400000) None ClockedIn 0
                (Some 32400000) [] [] [])).
  - apply list_elem_of_here.
  - by split.
Defined.

(** X18. The override of a day without record adds exactly one record for
    that user and day, with the report "Admin overridden." whatever the
    status: the eight hours from the start of the day, clocked out, for
    present, and an absent record without timestamps for anything else.
    The absent record is not a fixed point: a second override to absent
    rewrites its report to "Admin marked absent.". *)
Theorem override_creates_the_day u start c :
  noRecordOn u start c →
  (run (adminOverride u start (jsstr "present")) c).1.2
  = c ++ [Attendance.mk u start (Some start) (Some (start + 28800 * 1000))
            ClockedOut 28800 None [] [] (jsstr "Admin overridden.")]
  ∧ (∀ status, status ≠ jsstr "present" →
       (run (adminOverride u start status) c).1.2
       = c ++ [Attendance.mk u start None None Absent 0 None [] []
                 (jsstr "Admin overridden.")])
  ∧ (run (adminOverride u start (jsstr "absent"))
         (run (adminOverride u start (jsstr "absent")) c).1.2).1.2
    = c ++ [Attendance.mk u start None None Absent 0 None [] []
              (jsstr "Admin marked absent.")].
Proof.
  intros Hno. pose proof (noRecordOn_find _ _ _ Hno) as Hd. split_and!.
  - by rewrite (adminOverride_new u start _ c Hd).
  - intros status Hs. rewrite (adminOverride_new u start _ c Hd).
    cbn [fst snd]. unfold created. by rewrite bool_decide_false.
  - rewrite (adminOverride_new u start _ c Hd). cbn [fst snd].
    rewrite (adminOverride_existing u start _ _ (length c)
               (created u start (jsstr "absent"))).
    + cbn [fst snd]. by rewrite insert_added.
    + apply find_added; [exact Hd | by split].
Qed.

Lemma override_creates_the_day_witness :
  (run (adminOverride 7%nat 86400000 (jsstr "present"))
       [Attendance.mk 7%nat 0 None None Absent 0 None [] [] []]).1.2
  = [Attendance.mk 7%nat 0 None None Absent 0 None [] [] []]
      ++ [Attendance.mk 7%nat 86400000 (Some 86400000)
            (Some (86400000 + 28800 * 1000)) ClockedOut 28800 None [] []
            (jsstr "Admin overridden.")].
Proof.
  apply (override_creates_the_day 7%nat 86400000
           [Attendance.mk 7%nat 0 None None Absent 0 None [] [] []]).
  apply find_noRecordOn. reflexivity.
Defined.

(** X19. The status of an override is not checked: anything but "present"
    marks the day absent with no active seconds, but only the exact
    "absent" clears the timestamps; with any other text the record keeps
    or gets a clockIn, gets the start of the day as its clockOut and
    keeps its lastActiveAt. *)
Theorem override_with_unknown_status u start status c i r :
  status ≠ jsstr "present" → status ≠ jsstr "absent" →
  list_find (Attendance.matches (Attendance.OnDate u start)) c = Some (i, r) →
  ∃ r',
    run (adminOverride u start status) c =
      (Ok (Some (jsstr "Attendance marked as " ++ status ++ jsstr ".")) None,
       <[i := r']> c, [OpFindOne (Attendance.OnDate u start); OpSave])
    ∧ Attendance.status r' = Absent
    ∧ Attendance.activeSeconds r' = 0
    ∧ Attendance.clockIn r' = Some (default start (Attendance.clockIn r))
    ∧ Attendance.clockOut r' = Some start
    ∧ Attendance.lastActiveAt r' = Attendance.lastActiveAt r
    ∧ Attendance.dailyReport r' = jsstr "Admin overridden.".
Proof.
  intros Hp Ha Hd. exists (overridden start status r).
  split; [by apply adminOverride_existing|].
  unfold overridden. rewrite !bool_decide_false by done. cbn.
  split_and!; try done. f_equal. lia.
Qed.

Lemma override_with_unknown_status_witness :
  ∃ r',
    run (adminOverride 7%nat 0 (jsstr "Present"))
        [Attendance.mk 7%nat 0 (Some 32400000) None ClockedIn 0
           (Some 32400000) [] [] []] =
      (Ok (Some (jsstr "Attendance marked as " ++ jsstr "Present" ++ jsstr "."))
          None,
       <[0%nat := r']>
         [Attendance.mk 7%nat 0 (Some 32400000) None ClockedIn 0
            (Some 32400000) [] [] []],
       [OpFindOne (Attendance.OnDate 7%nat 0); OpSave])
    ∧ Attendance.status r' = Absent
    ∧ Attendance.activeSeconds r' = 0
    ∧ Attendance.clockIn r' = Some (default 0 (Some 32400000))
    ∧ Attendance.clockOut r' = Some 0
    ∧ Attendance.lastActiveAt r' = Some 32400000
    ∧ Attendance.dailyReport r' = jsstr "Admin overridden.".
Proof.
  apply (override_with_unknown_status 7%nat 0 (jsstr "Present")
           [Attendance.mk 7%nat 0 (Some 32400000) None ClockedIn 0
              (Some 32400000) [] [] []] 0%nat
           (Attendance.mk 7%nat 0 (Some 32400000) None ClockedIn 0
              (Some 32400000) [] [] [])).
  - discriminate.
  - discriminate.
  - reflexivity.
Defined.

(** ** The administrative views *)

Lemma findById_id users u user :
  findById users u = Some user → User._id user = u ∧ user ∈ users.
Proof.
  unfold findById. destruct (list_find _ users) as [[i x]|] eqn:Hf; [|done].
  intros [= ->]. apply list_find_Some in Hf as (Hi & Hu & _).
  split; [done | by eapply list_elem_of_lookup_2].
Qed.

(** X20. The history an administrator asks of a user is the user's own
    history: for a user of the directory, the same month, year, records
    and statistics as [getHistory], read with the same single query,
    under the user's id, name and e-mail; for an unknown user the answer
    is 404 "User not found" and the attendance collection is not read. *)
Theorem admin_history_is_the_own_history users u month year lo hi c :
  match findById users u with
  | Some user =>
      ∃ records stats,
        run (getHistory u month year lo hi) c
        = (Ok None (Some (HistoryPayload month year records stats)), c,
           [OpFind (Attendance.InRange u lo hi)])
        ∧ run (getUserAttendanceHistory users u month year lo hi) c
          = (UserHistory
               (mkUserSummary u (User.fullName user) (User.email user))
               month year records stats, c,
             [OpFind (Attendance.InRange u lo hi)])
  | None =>
      run (getUserAttendanceHistory users u month year lo hi) c
      = (NotFound (jsstr "User not found"), c, [])
  end.
Proof.
  destruct (findById users u) as [user|] eqn:Hu.
  - apply findById_id in Hu as Hid. destruct Hid as [Hid _].
    eexists _, _. split; [by handler|].
    unfold getUserAttendanceHistory. rewrite Hu, Hid. by handler.
  - unfold getUserAttendanceHistory. by rewrite Hu.
Qed.

Lemma rosterStep_other start m r u :
  Attendance.user r ≠ u → rosterStep start m r !! u = m !! u.
Proof.
  intros Hne. unfold rosterStep.
  destruct (Attendance.isActiveStatus _); [by rewrite lookup_insert_ne|].
  case_decide; [by rewrite lookup_insert_ne | done].
Qed.

Lemma roster_none start l : ∀ m u,
  (∀ r, r ∈ l → Attendance.user r = u → ¬ todayOrActive start r) →
  foldl (rosterStep start) m l !! u = m !! u.
Proof.
  induction l as [|a l IH]; intros m u Hl; [done|]. cbn [foldl].
  rewrite IH by (intros r Hr; apply Hl; by right).
  destruct (decide (Attendance.user a = u)) as [Ha|Ha];
    [|by apply rosterStep_other].
  pose proof (Hl a (list_elem_of_here _ _) Ha) as Hno.
  unfold todayOrActive in Hno. unfold rosterStep.
  destruct (Attendance.isActiveStatus _); [by destruct Hno; right|].
  case_decide as Hd; [destruct Hno; left; apply Hd | done].
Qed.

Lemma roster_active start r l : ∀ m,
  Attendance.isActiveStatus (Attendance.status r) = true →
  (∀ r', r' ∈ l → Attendance.user r' = Attendance.user r →
         Attendance.isActiveStatus (Attendance.status r') = true → r' = r) →
  r ∈ l ∨ m !! Attendance.user r = Some r →
  foldl (rosterStep start) m l !! Attendance.user r = Some r.
Proof.
  intros m Hr Hl. revert m.
  induction l as [|a l IH]; intros m Hin.
  { by destruct Hin as [?%elem_of_nil|]. }
  cbn [foldl]. apply IH; [intros r' Hr'; apply Hl; by right|].
  destruct (decide (Attendance.user a = Attendance.user r)) as [Ha|Ha].
  - unfold rosterStep.
    destruct (Attendance.isActiveStatus (Attendance.status a)) eqn:Hact.
    + right. rewrite (Hl a (list_elem_of_here _ _) Ha Hact).
      by rewrite lookup_insert_eq.
    + assert (a ≠ r) as Hne by (intros ->; congruence).
      case_decide as Hd.
      * left. destruct Hin as [[?|?]%elem_of_cons|Hm]; [done | done |].
        rewrite Ha in Hd. destruct Hd as [_ Hd]. congruence.
      * destruct Hin as [[?|?]%elem_of_cons|Hm]; [done | by left | by right].
  - rewrite rosterStep_other by done.
    destruct Hin as [[?|?]%elem_of_cons|Hm];
      [congruence | by left | by right].
Qed.

Lemma roster_day start r l : ∀ m,
  Attendance.date r = start →
  (∀ r', r' ∈ l → Attendance.user r' = Attendance.user r →
         Attendance.isActiveStatus (Attendance.status r') = false) →
  (∀ r', r' ∈ l → Attendance.user r' = Attendance.user r →
         Attendance.date r' = start → r' = r) →
  m !! Attendance.user r = Some r
  ∨ (m !! Attendance.user r = None ∧ r ∈ l) →
  foldl (rosterStep start) m l !! Attendance.user r = Some r.
Proof.
  intros m Hr Hact Hl. revert m.
  induction l as [|a l IH]; intros m Hin.
  { by destruct Hin as [|[_ ?%elem_of_nil]]. }
  cbn [foldl].
  apply IH; [intros r' Hr'; apply Hact; by right
            |intros r' Hr'; apply Hl; by right|].
  destruct (decide (Attendance.user a = Attendance.user r)) as [Ha|Ha].
  - unfold rosterStep.
    rewrite (Hact a (list_elem_of_here _ _) Ha).
    case_decide as Hd.
    + left. destruct Hd as [Hd _].
      rewrite (Hl a (list_elem_of_here _ _) Ha Hd).
      by rewrite lookup_insert_eq.
    + destruct Hin as [Hm|[Hm [->|Hin]%elem_of_cons]];
        [by left | | by right].
      by destruct Hd.
  - rewrite rosterStep_other by done.
    destruct Hin as [Hm|[Hm [->|Hin]%elem_of_cons]];
      [by left | done | by right].
Qed.

(** What the map of the roster holds for a user is the record the
    "today" view resolves, in whatever order the records come. *)
Lemma roster_resolves start c records u :
  oneActive c → uniqueDays c →
  records ≡ₚ filter (todayOrActive start) c →
  foldl (rosterStep start) ∅ records !! u
  = snd <$> (run (lookupActiveThenToday u start) c).1.1.
Proof.
  intros Hone Huniq Hperm.
  assert (∀ r, r ∈ records ↔ r ∈ c ∧ todayOrActive start r) as Hin.
  { intros r. by rewrite Hperm, list_elem_of_filter, (comm _ (r ∈ c)). }
  unfold lookupActiveThenToday. handler.
  destruct (list_find (Attendance.matches (Attendance.Active u)) c)
    as [[i r]|] eqn:Hact; cbn.
  - apply list_find_Some in Hact as (Hi & [Hu Hr] & _). subst u.
    apply roster_active; [done | |].
    + intros r' [Hr' _]%Hin Hu' Hact'.
      apply list_elem_of_lookup in Hr' as [j Hj].
      by rewrite <- (Hone j i r' r Hj Hi Hu' Hact' Hr) in Hi; simplify_eq.
    + left. apply Hin. split; [by eapply list_elem_of_lookup_2 | by right].
  - apply find_noActiveRecord in Hact.
    destruct (list_find (Attendance.matches (Attendance.OnDate u start)) c)
      as [[i r]|] eqn:Hday; cbn.
    + apply list_find_Some in Hday as (Hi & [Hu Hr] & _). subst u.
      apply roster_day; [done | | |].
      * intros r' [Hr' _]%Hin Hu'.
        apply not_true_is_false. intros Hact'. by apply (Hact r').
      * intros r' [Hr' _]%Hin Hu' Hd'.
        apply list_elem_of_lookup in Hr' as [j Hj].
        assert (j = i) as -> by (apply (Huniq j i r' r); congruence).
        congruence.
      * right. split; [done|]. apply Hin.
        split; [by eapply list_elem_of_lookup_2 | by left].
    + apply find_noRecordOn in Hday.
      rewrite roster_none; [done|].
      intros r [Hr _]%Hin Hu [Hd|Ha].
      * by apply (Hday r).
      * by apply (Hact r).
Qed.

Lemma rosterOf_resolves start users c records :
  oneActive c → uniqueDays c →
  records ≡ₚ filter (todayOrActive start) c →
  rosterOf start users records
  = mkRoster (length users) (todayEntry start c <$> users).
Proof.
  intros Hone Huniq Hperm. unfold rosterOf, todayEntry.
  rewrite length_fmap. f_equal. apply list_fmap_ext. intros _ user _.
  by rewrite (roster_resolves start c records _ Hone Huniq Hperm).
Qed.

Lemma todayEntry_today start c user now :
  ∃ t,
    (run (getToday (User._id user) start now) c).1.1
    = Ok None (Some (TodayPayload t))
    ∧ t_status t = e_status (todayEntry start c user)
    ∧ t_clockIn t = e_clockIn (todayEntry start c user)
    ∧ t_clockOut t = e_clockOut (todayEntry start c user)
    ∧ t_lastActiveAt t = e_lastActiveAt (todayEntry start c user)
    ∧ t_activeSeconds t
      = e_activeSeconds (todayEntry start c user)
        + match e_status (todayEntry start c user),
                e_lastActiveAt (todayEntry start c user) with
          | ClockedIn, Some last => elapsedSeconds last now
          | _, _ => 0
          end.
Proof.
  unfold todayEntry, lookupActiveThenToday. handler.
  destruct (list_find (Attendance.matches (Attendance.Active _)) c)
    as [[i r]|]; cbn.
  - eexists. split; [done|]. cbn. split_and!; try done.
    destruct (Attendance.status r), (Attendance.lastActiveAt r); lia.
  - destruct (list_find (Attendance.matches (Attendance.OnDate _ _)) c)
      as [[i r]|]; cbn.
    + eexists. split; [done|]. cbn. split_and!; try done.
      destruct (Attendance.status r), (Attendance.lastActiveAt r); lia.
    + eexists. split; [done|]. by cbn.
Qed.

(** X21. The roster lists the users that are not inactive, each once and
    in the order of the directory, and shows for each of them what the
    user's own "today" view shows: the same status, clock-in, clock-out
    and timer, and the stored active seconds, to which the "today" view
    adds the time of the running session. It holds of a collection with
    at most one running record per user and one record per user and
    day. *)
Theorem roster_shows_what_today_shows users start c :
  oneActive c → uniqueDays c →
  count (getAllUsersStatus users start c)
  = length (filter (λ u, User.status u ≠ jsstr "inactive") users)
  ∧ e_id <$> data (getAllUsersStatus users start c)
    = User._id <$> filter (λ u, User.status u ≠ jsstr "inactive") users
  ∧ ∀ e now,
      e ∈ data (getAllUsersStatus users start c) →
      ∃ t,
        (run (getToday (e_id e) start now) c).1.1
        = Ok None (Some (TodayPayload t))
        ∧ t_status t = e_status e
        ∧ t_clockIn t = e_clockIn e
        ∧ t_clockOut t = e_clockOut e
        ∧ t_lastActiveAt t = e_lastActiveAt e
        ∧ t_activeSeconds t
          = e_activeSeconds e
            + match e_status e, e_lastActiveAt e with
              | ClockedIn, Some last => elapsedSeconds last now
              | _, _ => 0
              end.
Proof.
  intros Hone Huniq. unfold getAllUsersStatus.
  rewrite (rosterOf_resolves start _ c _ Hone Huniq) by done.
  cbn [count data]. split_and!.
  - done.
  - rewrite <- list_fmap_compose. by apply list_fmap_ext.
  - intros e now (user & -> & _)%list_elem_of_fmap.
    apply (todayEntry_today start c user now).
Qed.

Lemma roster_shows_what_today_shows_witness :
  count (getAllUsersStatus
           [User.mk 7%nat (jsstr "Asha") (jsstr "asha@hf.org")
              (jsstr "employee") (jsstr "ops") (jsstr "active");
            User.mk 8%nat (jsstr "Ravi") (jsstr "ravi@hf.org")
              (jsstr "employee") (jsstr "ops") (jsstr "inactive")]
           86400000
           [Attendance.mk 7%nat 0 (Some 82800000) None ClockedIn 0
              (Some 82800000) [] [] []])
  = length (filter (λ u, User.status u ≠ jsstr "inactive")
              [User.mk 7%nat (jsstr "Asha") (jsstr "asha@hf.org")
                 (jsstr "employee") (jsstr "ops") (jsstr "active");
               User.mk 8%nat (jsstr "Ravi") (jsstr "ravi@hf.org")
                 (jsstr "employee") (jsstr "ops") (jsstr "inactive")]).
Proof.
  apply (roster_shows_what_today_shows
           [User.mk 7%nat (jsstr "Asha") (jsstr "asha@hf.org")
              (jsstr "employee") (jsstr "ops") (jsstr "active");
            User.mk 8%nat (jsstr "Ravi") (jsstr "ravi@hf.org")
              (jsstr "employee") (jsstr "ops") (jsstr "inactive")]
           86400000
           [Attendance.mk 7%nat 0 (Some 82800000) None ClockedIn 0
              (Some 82800000) [] [] []]).
  - intros [|[|i]] [|[|j]] r r' Hi Hj; by simplify_eq/=.
  - intros [|[|i]] [|[|j]] r r' Hi Hj; by simplify_eq/=.
Defined.

(** X22. The roster does not depend on the order in which the store
    returns the records of its query, when the collection has at most
    one running record per user and one record per user and day. *)
Theorem roster_ignores_the_order_of_the_records users start c records :
  oneActive c → uniqueDays c →
  records ≡ₚ filter (todayOrActive start) c →
  rosterOf start (findNotInactive users) records
  = getAllUsersStatus users start c.
Proof.
  intros Hone Huniq Hperm. unfold getAllUsersStatus.
  rewrite (rosterOf_resolves start _ c records Hone Huniq Hperm).
  by rewrite (rosterOf_resolves start _ c _ Hone Huniq).
Qed.

Lemma roster_ignores_the_order_of_the_records_witness :
  rosterOf 86400000
    (findNotInactive
       [User.mk 7%nat (jsstr "Asha") (jsstr "asha@hf.org")
          (jsstr "employee") (jsstr "ops") (jsstr "active")])
    [Attendance.mk 7%nat 0 (Some 82800000) None ClockedIn 0
       (Some 82800000) [] [] [];
     Attendance.mk 7%nat 86400000 None None Absent 0 None [] []
       (jsstr "Admin overridden.")]
  = getAllUsersStatus
      [User.mk 7%nat (jsstr "Asha") (jsstr "asha@hf.org")
         (jsstr "employee") (jsstr "ops") (jsstr "active")]
      86400000
      [Attendance.mk 7%nat 86400000 None None Absent 0 None [] []
         (jsstr "Admin overridden.");
       Attendance.mk 7%nat 0 (Some 82800000) None ClockedIn 0
         (Some 82800000) [] [] []].
Proof.
  apply (roster_ignores_the_order_of_the_records
           [User.mk 7%nat (jsstr "Asha") (jsstr "asha@hf.org")
              (jsstr "employee") (jsstr "ops") (jsstr "active")]
           86400000
           [Attendance.mk 7%nat 86400000 None None Absent 0 None [] []
              (jsstr "Admin overridden.");
            Attendance.mk 7%nat 0 (Some 82800000) None ClockedIn 0
              (Some 82800000) [] [] []]).
  - intros [|[|[|i]]] [|[|[|j]]] r r' Hi Hj; by simplify_eq/=.
  - intros [|[|[|i]]] [|[|[|j]]] r r' Hi Hj; by simplify_eq/=.
  - apply Permutation_swap.
Defined.

(** ** The role guard *)





(** ** The attendance of the employee dashboard *)

Lemma filter_agree {A} (P Q : A → Prop) `{∀ x, Decision (P x)}
    `{∀ x, Decision (Q x)} (l : list A) :
  (∀ x, x ∈ l → P x ↔ Q x) → filter P l = filter Q l.
Proof.
  induction l as [|a l IH]; intros Hl; [done|].
  rewrite !filter_cons, IH by (intros x Hx; apply Hl; by right).
  pose proof (Hl a (list_elem_of_here _ _)).
  by repeat case_decide; try tauto.
Qed.

Lemma sum_Permutation (l l' : list Z) :
  l ≡ₚ l' → foldr Z.add 0 l = foldr Z.add 0 l'.
Proof. induction 1; cbn; lia. Qed.

Lemma activeSeconds_sum (l : list Attendance.doc) :
  foldl (λ sum a, sum + Attendance.activeSeconds a) 0 l
  = foldr Z.add 0 (h_activeSeconds <$> (lean <$> l)).
Proof.
  assert (∀ a, foldl (λ sum r, sum + Attendance.activeSeconds r) a l
               = a + foldr Z.add 0 (h_activeSeconds <$> (lean <$> l))) as H.
  { induction l as [|r l IH]; intros a; cbn; [lia|]. rewrite IH. lia. }
  rewrite H. lia.
Qed.

Lemma present_or_away (l : list Attendance.doc) :
  length (filter (λ r, countsAsPresent (h_status r) = true) (lean <$> l))
  = (length (filter (λ a, Attendance.status a = ClockedOut
                          ∨ Attendance.status a = ClockedIn) l)
     + length (filter (λ r, h_status r = Away) (lean <$> l)))%nat.
Proof.
  induction l as [|a l IH]; [done|].
  rewrite fmap_cons, !filter_cons. cbn -[filter].
  destruct (Attendance.status a); repeat case_decide;
    cbn [length]; try lia; exfalso; intuition discriminate.
Qed.

Lemma present_absent_away (l : list Attendance.doc) :
  length l
  = (length (filter (λ a, Attendance.status a = ClockedOut
                          ∨ Attendance.status a = ClockedIn) l)
     + length (filter (λ a, Attendance.status a = Absent) l)
     + length (filter (λ r, h_status r = Away) (lean <$> l)))%nat.
Proof.
  induction l as [|a l IH]; [done|].
  rewrite fmap_cons, !filter_cons. cbn -[filter].
  destruct (Attendance.status a); repeat case_decide;
    cbn [length]; try lia; exfalso; intuition discriminate.
Qed.

(** X25. The monthly statistics of the dashboard and of the history are
    taken from the same records and give the same number of records and
    the same working hours, but they count the days differently: a day
    whose record is away is a day present for the history, and neither
    present nor absent for the dashboard. *)
Theorem dashboard_leaves_out_the_days_on_a_break
    u month year lo hi todayStart todayEnd monthStart monthEnd c :
  (∀ r, r ∈ c →
        Attendance.matches (Attendance.InRange u lo hi) r
        ↔ Attendance.matches (Attendance.InRange u monthStart monthEnd) r) →
  ∃ records stats today monthly,
    (run (getHistory u month year lo hi) c).1.1
    = Ok None (Some (HistoryPayload month year records stats))
    ∧ (run (getEmployeeDashboard u todayStart todayEnd monthStart monthEnd)
           c).1.1
      = (today, monthly)
    ∧ m_totalRecords monthly = length records
    ∧ m_totalWorkingHours monthly = totalWorkingHours stats
    ∧ daysPresent stats
      = (m_daysPresent monthly
         + length (filter (λ r, h_status r = Away) records))%nat
    ∧ m_totalRecords monthly
      = (m_daysPresent monthly + m_daysAbsent monthly
         + length (filter (λ r, h_status r = Away) records))%nat.
Proof.
  intros Hsame. unfold getEmployeeDashboard, find. handler.
  rewrite <- (filter_agree _ _ c Hsame).
  set (l := filter (Attendance.matches (Attendance.InRange u lo hi)) c).
  pose proof (merge_sort_Permutation byDate l) as Hperm.
  eexists _, _, _, _. split; [done|]. split; [done|].
  cbn [m_totalRecords m_totalWorkingHours m_daysPresent m_daysAbsent
       daysPresent totalWorkingHours].
  split_and!.
  - by rewrite length_fmap, Hperm.
  - f_equal. rewrite totalActiveSeconds_sum, activeSeconds_sum.
    apply sum_Permutation. by rewrite Hperm.
  - rewrite present_or_away. by rewrite Hperm.
  - rewrite (present_absent_away l). by rewrite Hperm.
Qed.

Lemma dashboard_leaves_out_the_days_on_a_break_witness :
  ∃ records stats today monthly,
    (run (getHistory 7%nat 1 2026 0 2678399999)
         [Attendance.mk 7%nat 0 (Some 32400000) None Away 7200 None
            [mkSegment 32400000 (Some 39600000) 7200]
            [mkSegment 39600000 None 0] []]).1.1
    = Ok None (Some (HistoryPayload 1 2026 records stats))
    ∧ (run (getEmployeeDashboard 7%nat 0 86399000 0 2678399000)
           [Attendance.mk 7%nat 0 (Some 32400000) None Away 7200 None
              [mkSegment 32400000 (Some 39600000) 7200]
              [mkSegment 39600000 None 0] []]).1.1
      = (today, monthly)
    ∧ m_totalRecords monthly = length records
    ∧ m_totalWorkingHours monthly = totalWorkingHours stats
    ∧ daysPresent stats
      = (m_daysPresent monthly
         + length (filter (λ r, h_status r = Away) records))%nat
    ∧ m_totalRecords monthly
      = (m_daysPresent monthly + m_daysAbsent monthly
         + length (filter (λ r, h_status r = Away) records))%nat.
Proof.
  apply (dashboard_leaves_out_the_days_on_a_break 7%nat 1 2026 0 2678399999
           0 86399000 0 2678399000
           [Attendance.mk 7%nat 0 (Some 32400000) None Away 7200 None
              [mkSegment 32400000 (Some 39600000) 7200]
              [mkSegment 39600000 None 0] []]).
  intros r [->|[]%elem_of_nil]%elem_of_cons. cbn. lia.
Defined.

(** X26. The dashboard looks for the record of the day only: while a
    session that began on an earlier day is still running and the day has
    no record of its own, the dashboard says "not-started" where the
    "today" view shows the running session. *)
Theorem dashboard_misses_a_session_from_an_earlier_day
    u todayStart todayEnd monthStart monthEnd now c i r :
  list_find (Attendance.matches (Attendance.Active u)) c = Some (i, r) →
  (∀ r', r' ∈ c →
         ¬ Attendance.matches (Attendance.InRange u todayStart todayEnd) r') →
  (run (getEmployeeDashboard u todayStart todayEnd monthStart monthEnd)
       c).1.1.1
  = NotStarted
  ∧ ∃ t,
      (run (getToday u todayStart now) c).1.1
      = Ok None (Some (TodayPayload t))
      ∧ t_status t = Attendance.status r
      ∧ Attendance.isActiveStatus (t_status t) = true.
Proof.
  intros Hact Hday. apply list_find_none_iff in Hday.
  unfold getEmployeeDashboard, find. handler. rewrite Hday, Hact.
  split; [done|]. eexists. split; [done|].
  apply list_find_Some in Hact as (_ & [_ Hr] & _). by cbn.
Qed.

Lemma dashboard_misses_a_session_from_an_earlier_day_witness :
  (run (getEmployeeDashboard 7%nat 86400000 172799000 0 2678399000)
       [Attendance.mk 7%nat 0 (Some 82800000) None ClockedIn 0
          (Some 82800000) [] [] []]).1.1.1
  = NotStarted
  ∧ ∃ t,
      (run (getToday 7%nat 86400000 90000000)
           [Attendance.mk 7%nat 0 (Some 82800000) None ClockedIn 0
              (Some 82800000) [] [] []]).1.1
      = Ok None (Some (TodayPayload t))
      ∧ t_status t
        = Attendance.status
            (Attendance.mk 7%nat 0 (Some 82800000) None ClockedIn 0
               (Some 82800000) [] [] [])
      ∧ Attendance.isActiveStatus (t_status t) = true.
Proof.
  apply (dashboard_misses_a_session_from_an_earlier_day 7%nat 86400000
           172799000 0 2678399000 90000000
           [Attendance.mk 7%nat 0 (Some 82800000) None ClockedIn 0
              (Some 82800000) [] [] []]
           0%nat
           (Attendance.mk 7%nat 0 (Some 82800000) None ClockedIn 0
              (Some 82800000) [] [] [])).
  - reflexivity.
  - intros r' [->|[]%elem_of_nil]%elem_of_cons. cbn. lia.
Defined.

(** ** The sheet export *)

Lemma padStart_twoDigits n :
  0 ≤ n < 100 → padStart 2 48%N (String_ n) = twoDigits n.
Proof.
  intros Hn.
  assert (Forall (λ n, padStart 2 48%N (String_ n) = twoDigits n)
            (seqZ 0 100)) as Hall.
  { apply (bool_decide_unpack _). vm_compute. exact I. }
  rewrite Forall_forall in Hall. apply Hall, elem_of_seqZ. lia.
Qed.

Lemma twoDigits_inj a b :
  0 ≤ a < 100 → 0 ≤ b < 100 → twoDigits a = twoDigits b → a = b.
Proof.
  intros Ha Hb [= H1 H2].
  apply Z2N.inj in H1, H2; [|Z.div_mod_to_equations; lia..].
  Z.div_mod_to_equations; lia.
Qed.

Lemma formatHHMMSS_fields t :
  0 ≤ t →
  Z.rem t 3600 / 60 = t / 60 mod 60 ∧ Z.rem t 60 = t mod 60.
Proof.
  intros Ht. rewrite !Z.rem_mod_nonneg by lia.
  split; [|done]. Z.div_mod_to_equations; lia.
Qed.

Lemma formatHHMMSS_digits t :
  0 ≤ t < 360000 →
  formatHHMMSS t
  = twoDigits (t / 3600) ++ [58%N] ++ twoDigits (t / 60 mod 60) ++ [58%N]
      ++ twoDigits (t mod 60).
Proof.
  intros Ht. unfold formatHHMMSS.
  destruct (formatHHMMSS_fields t) as [-> ->]; [lia|].
  rewrite !padStart_twoDigits; [done|Z.div_mod_to_equations; lia..].
Qed.

(** X27. A worked time below a hundred hours is written on the sheet as
    the eight characters HH:MM:SS: two digits each for its hours, its
    minutes and its seconds. *)
Theorem formatHHMMSS_is_two_digits_each t :
  0 ≤ t < 360000 →
  formatHHMMSS t
  = twoDigits (t / 3600) ++ [58%N] ++ twoDigits (t / 60 mod 60) ++ [58%N]
      ++ twoDigits (t mod 60).
Proof.
  intros Ht. unfold formatHHMMSS.
  destruct (formatHHMMSS_fields t) as [-> ->]; [lia|].
  rewrite !padStart_twoDigits; [done|Z.div_mod_to_equations; lia..].
Qed.

Lemma formatHHMMSS_is_two_digits_each_witness :
  formatHHMMSS 30600
  = twoDigits (30600 / 3600) ++ [58%N] ++ twoDigits (30600 / 60 mod 60)
      ++ [58%N] ++ twoDigits (30600 mod 60).
Proof. apply (formatHHMMSS_is_two_digits_each 30600). lia. Defined.

(** X28. Below a hundred hours the text of the sheet tells the worked
    time: two different numbers of seconds are written differently. *)
Theorem formatHHMMSS_tells_the_seconds t t' :
  0 ≤ t < 360000 → 0 ≤ t' < 360000 → t ≠ t' →
  formatHHMMSS t ≠ formatHHMMSS t'.
Proof.
  intros Ht Ht' Hne.
  rewrite (formatHHMMSS_digits t Ht),
    (formatHHMMSS_digits t' Ht').
  intros H. apply Hne.
  apply app_inj_1 in H as [Hh H]; [|done].
  apply (app_inj_1 [_]) in H as [_ H]; [|done].
  apply app_inj_1 in H as [Hm H]; [|done].
  apply (app_inj_1 [_]) in H as [_ Hs]; [|done].
  apply twoDigits_inj in Hh, Hm, Hs; [|Z.div_mod_to_equations; lia..].
  Z.div_mod_to_equations; lia.
Qed.

Lemma formatHHMMSS_tells_the_seconds_witness :
  formatHHMMSS 30600 ≠ formatHHMMSS 30601.
Proof. apply (formatHHMMSS_tells_the_seconds 30600 30601); lia. Defined.

Lemma ordinalSuffix_mod n : ordinalSuffix (n mod 100) = ordinalSuffix n.
Proof.
  unfold ordinalSuffix.
  replace (n mod 100 mod 10) with (n mod 10)
    by (Z.div_mod_to_equations; lia).
  by rewrite Z.mod_mod.
Qed.

(** X29. The label of a column is the number followed by the suffix of
    the English ordinal: st, nd and rd after a last digit 1, 2 and 3,
    except in 11, 12 and 13 (with any hundreds), and th otherwise. *)
Theorem getOrdinal_is_the_english_ordinal n :
  0 ≤ n → getOrdinal n = String_ n ++ ordinalSuffix n.
Proof.
  intros Hn. unfold getOrdinal. f_equal.
  rewrite Z.rem_mod_nonneg by lia. rewrite <- ordinalSuffix_mod.
  assert (0 ≤ n mod 100 < 100) as Hv by (Z.div_mod_to_equations; lia).
  generalize dependent (n mod 100). intros v Hv.
  assert (Forall (λ v,
            default
              (default
                 (default []
                    (at_ [jsstr "th"; jsstr "st"; jsstr "nd"; jsstr "rd"] 0))
                 (at_ [jsstr "th"; jsstr "st"; jsstr "nd"; jsstr "rd"] v))
              (at_ [jsstr "th"; jsstr "st"; jsstr "nd"; jsstr "rd"]
                 (Z.rem (v - 20) 10))
            = ordinalSuffix v) (seqZ 0 100)) as Hall.
  { apply (bool_decide_unpack _). vm_compute. exact I. }
  rewrite Forall_forall in Hall. apply Hall, elem_of_seqZ. lia.
Qed.

Lemma getOrdinal_is_the_english_ordinal_witness :
  getOrdinal 112 = String_ 112 ++ ordinalSuffix 112.
Proof. apply (getOrdinal_is_the_english_ordinal 112). lia. Defined.

Lemma buildHeaderRow_fold (l : list Z) : ∀ header,
  let header' :=
    foldl (λ header i,
             let label := getOrdinal i in
             header ++ [label ++ jsstr " Clock In";
                        label ++ jsstr " Clock Out";
                        label ++ jsstr " Report"]) header l in
  length header' = (length header + 3 * length l)%nat
  ∧ header `prefix_of` header'.
Proof.
  induction l as [|i l IH]; intros header; cbn -[jsstr].
  { split; [lia | done]. }
  destruct (IH (header ++ [getOrdinal i ++ jsstr " Clock In";
                           getOrdinal i ++ jsstr " Clock Out";
                           getOrdinal i ++ jsstr " Report"]))
    as [Hlen Hpre].
  cbn -[jsstr] in Hlen, Hpre. split.
  - rewrite Hlen, length_app. cbn. lia.
  - etrans; [|exact Hpre]. by apply prefix_app_r.
Qed.

Lemma buildHeaderRow_shape n :
  Z.of_nat (length (buildHeaderRow n)) = 4 + 3 * Z.max 0 n
  ∧ buildHeaderRow n !! 0%nat = Some (jsstr "Employee Name").
Proof.
  unfold buildHeaderRow.
  destruct (buildHeaderRow_fold (seqZ 1 n)
              [jsstr "Employee Name"; jsstr "Date"; jsstr "Status";
               jsstr "Working Hours"]) as [Hlen Hpre].
  cbv zeta in Hlen, Hpre |- *. split.
  - transitivity (Z.of_nat (4 + 3 * length (seqZ 1 n))%nat);
      [exact (f_equal Z.of_nat Hlen) | rewrite length_seqZ; lia].
  - destruct Hpre as [k ->]. done.
Qed.

(** X30. The header written for a data row covers the row, with fewer
    than three columns to spare, and it is written once: with that
    header in the first row of the sheet, no row that is not wider makes
    [ensureHeaders] write again. *)
Theorem header_covers_the_row_and_is_written_once existingHeader dataRowLength header :
  4 ≤ dataRowLength →
  ensureHeaders existingHeader dataRowLength = Some header →
  dataRowLength ≤ Z.of_nat (length header) < dataRowLength + 3
  ∧ ∀ narrower, narrower ≤ dataRowLength →
                ensureHeaders header narrower = None.
Proof.
  intros Hlen. unfold ensureHeaders. case_decide as Hold; [|done].
  intros [= <-].
  destruct (buildHeaderRow_shape (sessionCount dataRowLength))
    as [Hcols Hfirst].
  assert (dataRowLength ≤ neededColumns dataRowLength < dataRowLength + 3
          ∧ 0 ≤ sessionCount dataRowLength) as [Hneed Hpos].
  { unfold neededColumns, sessionCount. Z.div_mod_to_equations. lia. }
  unfold neededColumns in Hneed. split; [lia|].
  intros narrower Hnarrow. rewrite decide_False; [done|].
  intros [Hshort|Hname]; [|done].
  revert Hshort. unfold neededColumns, sessionCount.
  unfold sessionCount in Hcols, Hneed, Hpos.
  Z.div_mod_to_equations. lia.
Qed.

Lemma header_covers_the_row_and_is_written_once_witness :
  7 ≤ Z.of_nat (length (buildHeaderRow (sessionCount 7))) < 7 + 3
  ∧ ∀ narrower, narrower ≤ 7 →
                ensureHeaders (buildHeaderRow (sessionCount 7)) narrower
                = None.
Proof.
  apply (header_covers_the_row_and_is_written_once [] 7
           (buildHeaderRow (sessionCount 7))).
  - lia.
  - reflexivity.
Defined.
